(** * Browser utilities of the PWA: install banner and push subscription

    A shallow embedding of

    - [src/scripts/utils/install-prompt.js] (module [InstallPrompt]),
    - its later revision with the three day dismissal window
      (module [InstallPromptLater]),
    - [src/scripts/utils/notification-helper.js] (module [NotificationHelper]).

    JavaScript functions become computations in a state and exception monad
    over an explicit browser state.  Everything the scripts ask of the
    platform (storage, DOM, clock, permission prompt, service worker, remote
    API) is either a field of that state or an oracle consulted with the
    history of effects so far. *)

From Stdlib Require Import ZArith Lia List String Ascii Bool.
From stdpp Require Import base option list gmap strings pretty.

Local Open Scope string_scope.
Local Open Scope Z_scope.

(** ** The monad of JavaScript computations *)

Module JS.

(** What a [throw] or a rejected promise carries. *)
Inductive Error :=
| TypeError (message : string)
| Rejection (reason : string).

(** How the evaluation of a function body ends. *)
Inductive Completion (A : Type) :=
| Return (a : A)
| Throw (e : Error).
Arguments Return {A} a.
Arguments Throw {A} e.

Definition M (S A : Type) : Type := S -> Completion A * S.

Definition ret {S A} (a : A) : M S A := fun s => (Return a, s).

Definition throw {S A} (e : Error) : M S A := fun s => (Throw e, s).

Definition bind {S A B} (m : M S A) (k : A -> M S B) : M S B :=
  fun s =>
    match m s with
    | (Return a, s') => k a s'
    | (Throw e, s') => (Throw e, s')
    end.

(** [try { body } catch (error) { handler }]: the handler starts from the
    state the body had reached when it threw. *)
Definition try_catch {S A} (body : M S A) (handler : Error -> M S A) : M S A :=
  fun s =>
    match body s with
    | (Return a, s') => (Return a, s')
    | (Throw e, s') => handler e s'
    end.

Definition gets {S A} (f : S -> A) : M S A := fun s => (Return (f s), s).

Definition modify {S} (f : S -> S) : M S unit := fun s => (Return tt, f s).

Definition result {S A} (m : M S A) (s : S) : Completion A := fst (m s).
Definition final {S A} (m : M S A) (s : S) : S := snd (m s).

Definition returns {S A} (m : M S A) (s : S) (a : A) : Prop :=
  result m s = Return a.

Definition throws {S A} (m : M S A) (s : S) : Prop :=
  exists e, result m s = Throw e.

End JS.

Declare Scope js_scope.
Delimit Scope js_scope with js.
Notation "x <- c1 ;; c2" := (JS.bind c1 (fun x => c2))
  (at level 100, c1 at next level, right associativity) : js_scope.
Notation "c1 ;; c2" := (JS.bind c1 (fun _ => c2))
  (at level 100, right associativity) : js_scope.
Local Open Scope js_scope.

Import JS.

(** ** Numbers and strings *)

(** The numbers of the scripts are millisecond timestamps and their
    differences: integers, or [NaN] when [parseInt] finds no digit.  An
    integer is kept exactly, as a double does below 2^53. *)
Inductive Number :=
| NaN
| Num (z : Z).

Definition num_sub (a b : Number) : Number :=
  match a, b with
  | Num x, Num y => Num (x - y)
  | _, _ => NaN
  end.

(** [a > b]; any comparison with [NaN] is false. *)
Definition num_gt (a b : Number) : bool :=
  match a, b with
  | Num x, Num y => y <? x
  | _, _ => false
  end.

(** [a <= b], likewise false on [NaN]. *)
Definition num_le (a b : Number) : bool :=
  match a, b with
  | Num x, Num y => x <=? y
  | _, _ => false
  end.

Definition code (c : ascii) : Z := Z.of_nat (nat_of_ascii c).

(** White space skipped by [parseInt], among the code units below 256:
    TAB, LF, VT, FF, CR, SP and NBSP. *)
Definition is_white_space (c : ascii) : bool :=
  let n := code c in
  ((9 <=? n) && (n <=? 13)) || (n =? 32) || (n =? 160).

Fixpoint trim_start (s : string) : string :=
  match s with
  | String c rest => if is_white_space c then trim_start rest else s
  | EmptyString => EmptyString
  end.

Definition digit_value (c : ascii) : option Z :=
  let n := code c in
  if (48 <=? n) && (n <=? 57) then Some (n - 48) else None.

(** The longest prefix of decimal digits, as an integer; [None] when the
    string does not start with a digit. *)
Fixpoint parse_digits (acc : option Z) (s : string) : option Z :=
  match s with
  | String c rest =>
      match digit_value c with
      | Some d => parse_digits (Some (10 * default 0 acc + d)) rest
      | None => acc
      end
  | EmptyString => acc
  end.

(** [parseInt(s, 10)]. *)
Definition parseInt (s : string) : Number :=
  let s := trim_start s in
  let '(sign, s) :=
    match s with
    | String "-" rest => (-1, rest)
    | String "+" rest => (1, rest)
    | _ => (1, s)
    end in
  match parse_digits None s with
  | Some n => Num (sign * n)
  | None => NaN
  end.

(** A value read from storage: [null] or a string. *)
Definition truthy (v : option string) : bool :=
  match v with
  | Some (String _ _) => true
  | _ => false
  end.

Definition ToString (v : option string) : string := default "null" v.

(** Truthiness of a reference that is an object or [null]. *)
Definition non_null {A} (v : option A) : bool :=
  match v with
  | Some _ => true
  | None => false
  end.

(** ASCII upper case, the folding of a case-insensitive regular expression
    on the letters of its pattern. *)
Definition upper (c : ascii) : ascii :=
  let n := code c in
  if (97 <=? n) && (n <=? 122) then ascii_of_nat (Z.to_nat (n - 32)) else c.

Fixpoint starts_with (fold : ascii -> ascii) (pattern s : string) : bool :=
  match pattern, s with
  | EmptyString, _ => true
  | String p pattern', String c s' =>
      if Ascii.eqb (fold p) (fold c) then starts_with fold pattern' s' else false
  | String _ _, EmptyString => false
  end.

(** [/a|b|c/.test(s)]: one of the alternatives occurs somewhere in [s]. *)
Fixpoint regex_any (fold : ascii -> ascii) (alternatives : list string) (s : string) : bool :=
  existsb (fun p => starts_with fold p s) alternatives
  || match s with
     | String _ s' => regex_any fold alternatives s'
     | EmptyString => false
     end.

(** [/^((?!chrome|android).)*safari/i.test(s)]: "safari" occurs at a position
    that no occurrence of "chrome" or "android" and no line break precede. *)
Fixpoint regex_safari (s : string) : bool :=
  starts_with upper "safari" s
  || match s with
     | String c s' =>
         negb (starts_with upper "chrome" s)
         && negb (starts_with upper "android" s)
         && negb ((code c =? 10) || (code c =? 13))
         && regex_safari s'
     | EmptyString => false
     end.

(** ** The page: storage, document, scheduled callbacks *)

Module Browser.

(** The event of [beforeinstallprompt], an opaque handle of the platform. *)
Definition InstallEvent := nat.

(** The two bodies [showInstallBanner] gives a banner; [NoMarkup] is a
    fresh element. *)
Inductive Markup :=
| NoMarkup
| ManualInstructions
| InstallAction.

(** Ids of the buttons inside a markup, in document order. *)
Definition buttons (m : Markup) : list string :=
  match m with
  | NoMarkup => []
  | ManualInstructions => ["install-banner-close"]
  | InstallAction => ["install-banner-install"; "install-banner-close"]
  end.

Inductive Handler :=
| dismissInstallPrompt_handler
| triggerInstall_handler.

Record Element := {
  ref : nat;                                (* identity of the object *)
  id : string;
  classList : list string;
  innerHTML : Markup;
  click_listeners : list (string * Handler) (* button id, listener *)
}.

Inductive Callback :=
| AddVisibleClass (banner : nat)   (* () => banner.classList.add(...) *)
| RemoveBanner (banner : nat)      (* () => banner.remove() *)
| FallbackBanner.                  (* the delayed check of initInstallPrompt *)

Inductive Task :=
| Timeout (callback : Callback) (ms : Z)
| AnimationFrame (callback : Callback)
| AwaitUserChoice (e : InstallEvent).  (* triggerInstall, suspended *)

Inductive Listener :=
| OnBeforeInstallPrompt
| OnAppInstalled.

Inductive Effect :=
| ConsoleLog (message : string)
| Alert (message : string)
| PreventDefault (e : InstallEvent)
| Prompt (e : InstallEvent).

(** What the scripts only read. *)
Record Platform := {
  userAgent : string;           (* navigator.userAgent *)
  display_standalone : bool;    (* matchMedia('(display-mode: standalone)').matches *)
  navigator_standalone : bool;  (* window.navigator.standalone === true *)
  MSStream : bool;              (* window.MSStream is truthy *)
  innerWidth : Z;               (* window.innerWidth *)
  now : Z;                      (* Date.now() *)
  (* whether e.prompt() throws, given the effects so far *)
  prompt_throws : list Effect -> InstallEvent -> option Error
}.

Record World := {
  platform : Platform;
  localStorage : gmap string string;
  document : list Element;         (* attached elements, in document order *)
  next_ref : nat;
  deferredPrompt : option InstallEvent;
  tasks : list Task;
  listeners : list Listener;       (* window.addEventListener *)
  effects : list Effect
}.

Definition set_platform (p : Platform) (w : World) : World :=
  {| platform := p; localStorage := localStorage w; document := document w;
     next_ref := next_ref w; deferredPrompt := deferredPrompt w;
     tasks := tasks w; listeners := listeners w; effects := effects w |}.

Definition set_localStorage (m : gmap string string) (w : World) : World :=
  {| platform := platform w; localStorage := m; document := document w;
     next_ref := next_ref w; deferredPrompt := deferredPrompt w;
     tasks := tasks w; listeners := listeners w; effects := effects w |}.

Definition set_document (d : list Element) (w : World) : World :=
  {| platform := platform w; localStorage := localStorage w; document := d;
     next_ref := next_ref w; deferredPrompt := deferredPrompt w;
     tasks := tasks w; listeners := listeners w; effects := effects w |}.

Definition set_next_ref (n : nat) (w : World) : World :=
  {| platform := platform w; localStorage := localStorage w; document := document w;
     next_ref := n; deferredPrompt := deferredPrompt w;
     tasks := tasks w; listeners := listeners w; effects := effects w |}.

Definition set_deferredPrompt (e : option InstallEvent) (w : World) : World :=
  {| platform := platform w; localStorage := localStorage w; document := document w;
     next_ref := next_ref w; deferredPrompt := e;
     tasks := tasks w; listeners := listeners w; effects := effects w |}.

Definition set_tasks (t : list Task) (w : World) : World :=
  {| platform := platform w; localStorage := localStorage w; document := document w;
     next_ref := next_ref w; deferredPrompt := deferredPrompt w;
     tasks := t; listeners := listeners w; effects := effects w |}.

Definition set_listeners (l : list Listener) (w : World) : World :=
  {| platform := platform w; localStorage := localStorage w; document := document w;
     next_ref := next_ref w; deferredPrompt := deferredPrompt w;
     tasks := tasks w; listeners := l; effects := effects w |}.

Definition set_effects (l : list Effect) (w : World) : World :=
  {| platform := platform w; localStorage := localStorage w; document := document w;
     next_ref := next_ref w; deferredPrompt := deferredPrompt w;
     tasks := tasks w; listeners := listeners w; effects := l |}.

Definition emit (e : Effect) : M World unit :=
  modify (fun w => set_effects (effects w ++ [e]) w).

Definition console_log (message : string) : M World unit := emit (ConsoleLog message).
Definition alert (message : string) : M World unit := emit (Alert message).

Definition Date_now : M World Z := gets (fun w => now (platform w)).

Definition localStorage_getItem (key : string) : M World (option string) :=
  gets (fun w => localStorage w !! key).

Definition localStorage_setItem (key value : string) : M World unit :=
  modify (fun w => set_localStorage (<[key := value]> (localStorage w)) w).

Definition localStorage_removeItem (key : string) : M World unit :=
  modify (fun w => set_localStorage (delete key (localStorage w)) w).

Definition has_id (i : string) (el : Element) : bool := String.eqb (id el) i.

(** The first element of the document with the id. *)
Definition getElementById (i : string) : M World (option Element) :=
  gets (fun w => find (has_id i) (document w)).

Definition has_button (i : string) (el : Element) : bool :=
  existsb (String.eqb i) (buttons (innerHTML el)).

(** The same for the id of a button: the element whose markup holds it. *)
Definition getButtonById (i : string) : M World (option Element) :=
  gets (fun w => find (has_button i) (document w)).

Definition createElement : M World Element :=
  r <- gets next_ref ;;
  modify (set_next_ref (S r)) ;;
  ret {| ref := r; id := ""; classList := []; innerHTML := NoMarkup;
         click_listeners := [] |}.

Definition body_appendChild (el : Element) : M World unit :=
  modify (fun w => set_document (document w ++ [el]) w).

Definition update_element (r : nat) (f : Element -> Element) : M World unit :=
  modify (fun w =>
    set_document (map (fun el => if Nat.eqb (ref el) r then f el else el) (document w)) w).

Definition with_classList (f : list string -> list string) (el : Element) : Element :=
  {| ref := ref el; id := id el; classList := f (classList el);
     innerHTML := innerHTML el; click_listeners := click_listeners el |}.

Definition with_listener (button : string) (h : Handler) (el : Element) : Element :=
  {| ref := ref el; id := id el; classList := classList el;
     innerHTML := innerHTML el;
     click_listeners := click_listeners el ++ [(button, h)] |}.

(** [el.classList.add(c)]; an element that is not attached is not
    tracked, and the call leaves the document as it is. *)
Definition classList_add (r : nat) (c : string) : M World unit :=
  update_element r (with_classList (fun l =>
    if existsb (String.eqb c) l then l else (l ++ [c])%list)).

Definition classList_remove (r : nat) (c : string) : M World unit :=
  update_element r (with_classList (List.filter (fun x => negb (String.eqb c x)))).

(** [button.addEventListener('click', h)] *)
Definition addClickListener (owner : nat) (button : string) (h : Handler) : M World unit :=
  update_element owner (with_listener button h).

(** [el.remove()]: detaches that very object; nothing happens when it is
    already detached. *)
Definition remove (r : nat) : M World unit :=
  modify (fun w =>
    set_document (List.filter (fun el => negb (Nat.eqb (ref el) r)) (document w)) w).

Definition setTimeout (callback : Callback) (ms : Z) : M World unit :=
  modify (fun w => set_tasks (tasks w ++ [Timeout callback ms]) w).

Definition requestAnimationFrame (callback : Callback) : M World unit :=
  modify (fun w => set_tasks (tasks w ++ [AnimationFrame callback]) w).

Definition window_addEventListener (l : Listener) : M World unit :=
  modify (fun w => set_listeners (listeners w ++ [l]) w).

(** [e.prompt()] *)
Definition prompt (e : InstallEvent) : M World unit :=
  failure <- gets (fun w => prompt_throws (platform w) (effects w) e) ;;
  emit (Prompt e) ;;
  match failure with
  | Some err => throw err
  | None => ret tt
  end.

(** The number of banner nodes in the document. *)
Definition banners (w : World) : nat :=
  length (List.filter (has_id "install-banner") (document w)).

End Browser.

Import Browser.

(** ** The event loop around a script

    The functions of one revision of the install prompt, and the ways the
    page can run them: a direct call, a platform event reaching the
    registered listeners, a click on a banner button, a scheduled callback
    coming due, the awaited user choice being settled. *)

Module EventLoop.

Record Script := {
  script_isInstallDismissed : M World bool;
  script_dismissInstallPrompt : M World unit;
  script_showInstallBanner : M World unit;
  script_hideInstallBanner : M World unit;
  script_triggerInstall : M World unit;
  script_triggerInstall_resumed : string -> M World unit;
  script_initInstallPrompt : M World unit;
  script_on_beforeinstallprompt : InstallEvent -> M World unit;
  script_on_appinstalled : M World unit;
  script_fallback : M World unit
}.

Inductive Action :=
| Call_isInstallDismissed
| Call_dismissInstallPrompt
| Call_showInstallBanner
| Call_hideInstallBanner
| Call_triggerInstall
| Call_initInstallPrompt
| BeforeInstallPrompt (e : InstallEvent)  (* the platform fires the event *)
| AppInstalled
| Click (button : string)
| Fire (i : nat)                          (* the i-th scheduled callback runs *)
| Settle (i : nat) (outcome : string)     (* the i-th task's userChoice resolves *)
| Change (p : Platform).                  (* clock, viewport, user agent change *)

Section WithScript.

Variable script : Script.

Definition run_callback (callback : Callback) : M World unit :=
  match callback with
  | AddVisibleClass banner => classList_add banner "install-banner--visible"
  | RemoveBanner banner => remove banner
  | FallbackBanner => script_fallback script
  end.

Definition run_handler (h : Handler) : M World unit :=
  match h with
  | dismissInstallPrompt_handler => script_dismissInstallPrompt script
  | triggerInstall_handler => script_triggerInstall script
  end.

Definition run_listener (event : Listener) (e : InstallEvent) (l : Listener) : M World unit :=
  match event, l with
  | OnBeforeInstallPrompt, OnBeforeInstallPrompt => script_on_beforeinstallprompt script e
  | OnAppInstalled, OnAppInstalled => script_on_appinstalled script
  | _, _ => ret tt
  end.

(** Callbacks run one after the other; what one throws is reported by
    the browser and does not stop the next. *)
Definition run_all (ms : list (M World unit)) (w : World) : World :=
  fold_left (fun w m => final m w) ms w.

Definition dispatch (event : Listener) (e : InstallEvent) (w : World) : World :=
  run_all (map (run_listener event e) (listeners w)) w.

Definition click (button : string) (w : World) : World :=
  match find (has_button button) (document w) with
  | Some el =>
      run_all
        (map (fun l => run_handler (snd l))
           (List.filter (fun l => String.eqb (fst l) button) (click_listeners el)))
        w
  | None => w
  end.

Definition without_task (i : nat) (w : World) : World :=
  set_tasks (take i (tasks w) ++ drop (S i) (tasks w)) w.

Definition fire (i : nat) (w : World) : World :=
  match tasks w !! i with
  | Some (Timeout callback _) | Some (AnimationFrame callback) =>
      final (run_callback callback) (without_task i w)
  | _ => w
  end.

Definition settle (i : nat) (outcome : string) (w : World) : World :=
  match tasks w !! i with
  | Some (AwaitUserChoice _) =>
      final (script_triggerInstall_resumed script outcome) (without_task i w)
  | _ => w
  end.

Definition perform (a : Action) (w : World) : World :=
  match a with
  | Call_isInstallDismissed => final (script_isInstallDismissed script) w
  | Call_dismissInstallPrompt => final (script_dismissInstallPrompt script) w
  | Call_showInstallBanner => final (script_showInstallBanner script) w
  | Call_hideInstallBanner => final (script_hideInstallBanner script) w
  | Call_triggerInstall => final (script_triggerInstall script) w
  | Call_initInstallPrompt => final (script_initInstallPrompt script) w
  | BeforeInstallPrompt e => dispatch OnBeforeInstallPrompt e w
  | AppInstalled => dispatch OnAppInstalled 0%nat w
  | Click button => click button w
  | Fire i => fire i w
  | Settle i outcome => settle i outcome w
  | Change p => set_platform p w
  end.

Definition run (actions : list Action) (w : World) : World :=
  fold_left (fun w a => perform a w) actions w.

(** The action detaches a banner: a pending [banner.remove()] fires. *)
Definition removal (a : Action) (w : World) : bool :=
  match a with
  | Fire i =>
      match tasks w !! i with
      | Some (Timeout (RemoveBanner _) _) | Some (AnimationFrame (RemoveBanner _)) => true
      | _ => false
      end
  | _ => false
  end.

(** No step of the run is a removal. *)
Fixpoint no_removal (actions : list Action) (w : World) : bool :=
  match actions with
  | [] => true
  | a :: rest => negb (removal a w) && no_removal rest (perform a w)
  end.

End WithScript.

End EventLoop.

Import EventLoop.

(** ** [src/scripts/utils/install-prompt.js] *)

Module InstallPrompt.

Definition INSTALL_DISMISSED_KEY : string := "installPromptDismissed".
Definition INSTALL_DISMISSED_DURATION : Z := 7 * 24 * 60 * 60 * 1000.

Definition isAppInstalled : M World bool :=
  gets (fun w => display_standalone (platform w) || navigator_standalone (platform w)).

Definition isMobileDevice : M World bool :=
  gets (fun w =>
    regex_any upper
      ["Android"; "webOS"; "iPhone"; "iPad"; "iPod"; "BlackBerry"; "IEMobile"; "Opera Mini"]
      (userAgent (platform w))).

Definition isInstallDismissed : M World bool :=
  dismissedTime <- localStorage_getItem INSTALL_DISMISSED_KEY ;;
  if negb (truthy dismissedTime) then ret false else
  now <- Date_now ;;
  let dismissedAt := parseInt (ToString dismissedTime) in
  if num_gt (num_sub (Num now) dismissedAt) (Num INSTALL_DISMISSED_DURATION) then
    localStorage_removeItem INSTALL_DISMISSED_KEY ;;
    ret false
  else
    ret true.

Definition hideInstallBanner : M World unit :=
  banner <- getElementById "install-banner" ;;
  match banner with
  | Some banner =>
      classList_remove (ref banner) "install-banner--visible" ;;
      setTimeout (RemoveBanner (ref banner)) 300
  | None => ret tt
  end.

Definition dismissInstallPrompt : M World unit :=
  now <- Date_now ;;
  localStorage_setItem INSTALL_DISMISSED_KEY (pretty now) ;;
  hideInstallBanner.

Definition isIOS : M World bool :=
  gets (fun w =>
    regex_any (fun c => c) ["iPad"; "iPhone"; "iPod"] (userAgent (platform w))
    && negb (MSStream (platform w))).

Definition showInstallBanner : M World unit :=
  existingBanner <- getElementById "install-banner" ;;
  if non_null existingBanner then ret tt else
  banner <- createElement ;;
  ios <- isIOS ;;
  let banner :=
    {| ref := ref banner; id := "install-banner"; classList := ["install-banner"];
       innerHTML := if ios then ManualInstructions else InstallAction;
       click_listeners := [] |} in
  body_appendChild banner ;;
  closeBtn <- getButtonById "install-banner-close" ;;
  match closeBtn with
  | Some owner =>
      addClickListener (ref owner) "install-banner-close" dismissInstallPrompt_handler
  | None => ret tt
  end ;;
  installBtn <- getButtonById "install-banner-install" ;;
  match installBtn with
  | Some owner =>
      addClickListener (ref owner) "install-banner-install" triggerInstall_handler
  | None => ret tt
  end ;;
  requestAnimationFrame (AddVisibleClass (ref banner)).

(** [triggerInstall] up to its [await deferredPrompt.userChoice]. *)
Definition triggerInstall : M World unit :=
  held <- gets deferredPrompt ;;
  match held with
  | None => console_log "[InstallPrompt] No deferred prompt available"
  | Some e =>
      prompt e ;;
      modify (fun w => set_tasks (tasks w ++ [AwaitUserChoice e]) w)
  end.

(** The rest of [triggerInstall], once the user choice is known. *)
Definition triggerInstall_resumed (outcome : string) : M World unit :=
  console_log ("[InstallPrompt] User response: " ++ outcome) ;;
  modify (set_deferredPrompt None) ;;
  hideInstallBanner.

Definition on_beforeinstallprompt (e : InstallEvent) : M World unit :=
  emit (PreventDefault e) ;;
  modify (set_deferredPrompt (Some e)) ;;
  console_log "[InstallPrompt] beforeinstallprompt event captured" ;;
  showInstallBanner.

Definition on_appinstalled : M World unit :=
  console_log "[InstallPrompt] App was installed" ;;
  hideInstallBanner ;;
  modify (set_deferredPrompt None).

(** The callback of the three second timer, for iOS. *)
Definition fallback : M World unit :=
  installed <- isAppInstalled ;;
  if installed then ret tt else
  dismissed <- isInstallDismissed ;;
  if dismissed then ret tt else
  showInstallBanner.

Definition initInstallPrompt : M World unit :=
  installed <- isAppInstalled ;;
  if installed then console_log "[InstallPrompt] App already installed" else
  mobile <- isMobileDevice ;;
  if negb mobile then console_log "[InstallPrompt] Not a mobile device" else
  dismissed <- isInstallDismissed ;;
  if dismissed then console_log "[InstallPrompt] Install prompt was recently dismissed" else
  window_addEventListener OnBeforeInstallPrompt ;;
  ios <- isIOS ;;
  (if ios then setTimeout FallbackBanner 3000 else ret tt) ;;
  window_addEventListener OnAppInstalled.

Definition script : Script :=
  {| script_isInstallDismissed := isInstallDismissed;
     script_dismissInstallPrompt := dismissInstallPrompt;
     script_showInstallBanner := showInstallBanner;
     script_hideInstallBanner := hideInstallBanner;
     script_triggerInstall := triggerInstall;
     script_triggerInstall_resumed := triggerInstall_resumed;
     script_initInstallPrompt := initInstallPrompt;
     script_on_beforeinstallprompt := on_beforeinstallprompt;
     script_on_appinstalled := on_appinstalled;
     script_fallback := fallback |}.

End InstallPrompt.

(** ** The later revision of the install prompt (three day window) *)

Module InstallPromptLater.

Definition INSTALL_DISMISSED_KEY : string := "installPromptDismissed".
Definition INSTALL_DISMISSED_DURATION : Z := 3 * 24 * 60 * 60 * 1000.

Definition LF : string := String "010" EmptyString.
Definition QUOTE : string := String "034" EmptyString.

Definition MANUAL_INSTALL_MESSAGE : string :=
  "Untuk menginstall aplikasi:" ++ LF ++ LF
  ++ "1. Buka menu browser (⋮)" ++ LF
  ++ "2. Pilih " ++ QUOTE ++ "Install app" ++ QUOTE
  ++ " atau " ++ QUOTE ++ "Add to Home Screen" ++ QUOTE.

Definition isAppInstalled : M World bool :=
  gets (fun w => display_standalone (platform w) || navigator_standalone (platform w)).

Definition isMobileDevice : M World bool :=
  gets (fun w =>
    regex_any upper
      ["Android"; "webOS"; "iPhone"; "iPad"; "iPod"; "BlackBerry"; "IEMobile"; "Opera Mini"]
      (userAgent (platform w))
    || (innerWidth (platform w) <=? 768)).

Definition isInstallDismissed : M World bool :=
  dismissedTime <- localStorage_getItem INSTALL_DISMISSED_KEY ;;
  if negb (truthy dismissedTime) then ret false else
  now <- Date_now ;;
  let dismissedAt := parseInt (ToString dismissedTime) in
  if num_gt (num_sub (Num now) dismissedAt) (Num INSTALL_DISMISSED_DURATION) then
    localStorage_removeItem INSTALL_DISMISSED_KEY ;;
    ret false
  else
    ret true.

Definition hideInstallBanner : M World unit :=
  banner <- getElementById "install-banner" ;;
  match banner with
  | Some banner =>
      classList_remove (ref banner) "install-banner--visible" ;;
      setTimeout (RemoveBanner (ref banner)) 300
  | None => ret tt
  end.

Definition dismissInstallPrompt : M World unit :=
  now <- Date_now ;;
  localStorage_setItem INSTALL_DISMISSED_KEY (pretty now) ;;
  hideInstallBanner.

Definition isIOS : M World bool :=
  gets (fun w =>
    regex_any (fun c => c) ["iPad"; "iPhone"; "iPod"] (userAgent (platform w))
    && negb (MSStream (platform w))).

Definition isSafari : M World bool :=
  gets (fun w => regex_safari (userAgent (platform w))).

Definition showInstallBanner : M World unit :=
  existingBanner <- getElementById "install-banner" ;;
  if non_null existingBanner then ret tt else
  console_log "[InstallPrompt] Showing install banner" ;;
  banner <- createElement ;;
  ios <- isIOS ;;
  safari <- isSafari ;;
  held <- gets deferredPrompt ;;
  let banner :=
    {| ref := ref banner; id := "install-banner"; classList := ["install-banner"];
       innerHTML :=
         if ios || (safari && negb (non_null held))
         then ManualInstructions else InstallAction;
       click_listeners := [] |} in
  body_appendChild banner ;;
  closeBtn <- getButtonById "install-banner-close" ;;
  match closeBtn with
  | Some owner =>
      addClickListener (ref owner) "install-banner-close" dismissInstallPrompt_handler
  | None => ret tt
  end ;;
  installBtn <- getButtonById "install-banner-install" ;;
  match installBtn with
  | Some owner =>
      addClickListener (ref owner) "install-banner-install" triggerInstall_handler
  | None => ret tt
  end ;;
  setTimeout (AddVisibleClass (ref banner)) 100.

(** [triggerInstall] up to its [await deferredPrompt.userChoice]. *)
Definition triggerInstall : M World unit :=
  held <- gets deferredPrompt ;;
  match held with
  | None =>
      console_log "[InstallPrompt] No deferred prompt available, showing manual instructions" ;;
      alert MANUAL_INSTALL_MESSAGE
  | Some e =>
      prompt e ;;
      modify (fun w => set_tasks (tasks w ++ [AwaitUserChoice e]) w)
  end.

(** The rest of [triggerInstall], once the user choice is known. *)
Definition triggerInstall_resumed (outcome : string) : M World unit :=
  console_log ("[InstallPrompt] User response: " ++ outcome) ;;
  modify (set_deferredPrompt None) ;;
  hideInstallBanner.

Definition on_beforeinstallprompt (e : InstallEvent) : M World unit :=
  emit (PreventDefault e) ;;
  modify (set_deferredPrompt (Some e)) ;;
  console_log "[InstallPrompt] beforeinstallprompt event captured" ;;
  showInstallBanner.

Definition on_appinstalled : M World unit :=
  console_log "[InstallPrompt] App was installed" ;;
  hideInstallBanner ;;
  modify (set_deferredPrompt None).

(** The callback of the two second timer, for mobile devices. *)
Definition fallback : M World unit :=
  installed <- isAppInstalled ;;
  if installed then ret tt else
  dismissed <- isInstallDismissed ;;
  if dismissed then ret tt else
  existing <- getElementById "install-banner" ;;
  if non_null existing then ret tt else
  console_log "[InstallPrompt] Showing fallback banner for mobile" ;;
  showInstallBanner.

Definition initInstallPrompt : M World unit :=
  console_log "[InstallPrompt] Initializing..." ;;
  installed <- isAppInstalled ;;
  if installed then console_log "[InstallPrompt] App already installed" else
  dismissed <- isInstallDismissed ;;
  if dismissed then console_log "[InstallPrompt] Install prompt was recently dismissed" else
  window_addEventListener OnBeforeInstallPrompt ;;
  mobile <- isMobileDevice ;;
  (if mobile then setTimeout FallbackBanner 2000 else ret tt) ;;
  window_addEventListener OnAppInstalled.

Definition script : Script :=
  {| script_isInstallDismissed := isInstallDismissed;
     script_dismissInstallPrompt := dismissInstallPrompt;
     script_showInstallBanner := showInstallBanner;
     script_hideInstallBanner := hideInstallBanner;
     script_triggerInstall := triggerInstall;
     script_triggerInstall_resumed := triggerInstall_resumed;
     script_initInstallPrompt := initInstallPrompt;
     script_on_beforeinstallprompt := on_beforeinstallprompt;
     script_on_appinstalled := on_appinstalled;
     script_fallback := fallback |}.

End InstallPromptLater.

(** ** [src/scripts/utils/notification-helper.js] *)

Module NotificationHelper.

Definition ServiceWorkerRegistration := nat.

(** The platform's subscription object; [toJSON()] reads [endpoint] and
    [keys]. *)
Record PushSubscription := {
  subscription_ref : nat;
  endpoint : string;
  keys : list (string * string)
}.

Record SubscribeOptions := {
  userVisibleOnly : bool;
  applicationServerKey : list Z
}.

(** What the remote API resolves with; the scripts read [ok] only. *)
Record Response := { ok : bool }.

Inductive Request :=
| RequestPermission                                    (* Notification.requestPermission() *)
| Ready                                                (* navigator.serviceWorker.ready *)
| GetSubscription (registration : ServiceWorkerRegistration)
| Subscribe (registration : ServiceWorkerRegistration) (options : SubscribeOptions)
| Unsubscribe (subscription : PushSubscription)        (* subscription.unsubscribe() *)
| ConvertBase64ToUint8Array (base64 : string)
| SubscribePushNotification (endpoint : string) (keys : list (string * string))
| UnsubscribePushNotification (endpoint : string).

Inductive Event :=
| Logged (message : string)     (* console.log *)
| Errored (message : string)    (* console.error *)
| Alerted (message : string)    (* alert *)
| Called (request : Request).

(** The collaborators.  Each asynchronous one answers from the history of
    events so far, so that it may behave differently from one call to the
    next; [Throw] stands for a rejected promise or a thrown exception.
    [convertBase64ToUint8Array], [VAPID_PUBLIC_KEY] and the two functions
    of [data/api] are defined outside the module and taken from here. *)
Record Collaborators := {
  Notification_in_window : bool;      (* 'Notification' in window *)
  Notification_permission : string;   (* Notification.permission *)
  VAPID_PUBLIC_KEY : string;
  requestPermission_outcome : list Event -> Completion string;
  ready_outcome : list Event -> Completion ServiceWorkerRegistration;
  getSubscription_outcome :
    list Event -> ServiceWorkerRegistration -> Completion (option PushSubscription);
  subscribe_outcome :
    list Event -> ServiceWorkerRegistration -> SubscribeOptions -> Completion PushSubscription;
  unsubscribe_outcome : list Event -> PushSubscription -> Completion bool;
  convertBase64ToUint8Array_outcome : list Event -> string -> Completion (list Z);
  subscribePushNotification_outcome :
    list Event -> string -> list (string * string) -> Completion Response;
  unsubscribePushNotification_outcome : list Event -> string -> Completion Response
}.

Record State := {
  collaborators : Collaborators;
  trace : list Event;
  (* [let pushSubscription;] of [subscribe], assigned in its [try] and
     read in its [catch] *)
  pushSubscription : option PushSubscription
}.

(** The state in which an entry point is invoked. *)
Definition start (c : Collaborators) : State :=
  {| collaborators := c; trace := []; pushSubscription := None |}.

Definition emit (e : Event) : M State unit :=
  modify (fun s =>
    {| collaborators := collaborators s; trace := trace s ++ [e];
       pushSubscription := pushSubscription s |}).

Definition console_log (message : string) : M State unit := emit (Logged message).
Definition console_error (message : string) : M State unit := emit (Errored message).
Definition alert (message : string) : M State unit := emit (Alerted message).

Definition assign_pushSubscription (v : option PushSubscription) : M State unit :=
  modify (fun s =>
    {| collaborators := collaborators s; trace := trace s; pushSubscription := v |}).

(** A call to a collaborator: the call is recorded, then its outcome
    (decided on the history before the call) is returned or thrown. *)
Definition call {A} (request : Request)
    (outcome : Collaborators -> list Event -> Completion A) : M State A :=
  fun s =>
    (outcome (collaborators s) (trace s), snd (emit (Called request) s)).

Definition Notification_requestPermission : M State string :=
  call RequestPermission requestPermission_outcome.

Definition navigator_serviceWorker_ready : M State ServiceWorkerRegistration :=
  call Ready ready_outcome.

Definition pushManager_getSubscription (registration : ServiceWorkerRegistration)
    : M State (option PushSubscription) :=
  call (GetSubscription registration) (fun c h => getSubscription_outcome c h registration).

Definition pushManager_subscribe (registration : ServiceWorkerRegistration)
    (options : SubscribeOptions) : M State PushSubscription :=
  call (Subscribe registration options) (fun c h => subscribe_outcome c h registration options).

Definition PushSubscription_unsubscribe (subscription : PushSubscription) : M State bool :=
  call (Unsubscribe subscription) (fun c h => unsubscribe_outcome c h subscription).

Definition convertBase64ToUint8Array (base64 : string) : M State (list Z) :=
  call (ConvertBase64ToUint8Array base64)
    (fun c h => convertBase64ToUint8Array_outcome c h base64).

Definition subscribePushNotification (endpoint : string) (keys : list (string * string))
    : M State Response :=
  call (SubscribePushNotification endpoint keys)
    (fun c h => subscribePushNotification_outcome c h endpoint keys).

Definition unsubscribePushNotification (endpoint : string) : M State Response :=
  call (UnsubscribePushNotification endpoint)
    (fun c h => unsubscribePushNotification_outcome c h endpoint).

Definition isNotificationAvailable : M State bool :=
  gets (fun s => Notification_in_window (collaborators s)).

Definition isNotificationGranted : M State bool :=
  gets (fun s => String.eqb (Notification_permission (collaborators s)) "granted").

Definition isNotificationDenied : M State bool :=
  gets (fun s => String.eqb (Notification_permission (collaborators s)) "denied").

Definition unless (silent : bool) (m : M State unit) : M State unit :=
  if negb silent then m else ret tt.

Definition requestNotificationPermission (silent : bool) : M State bool :=
  available <- isNotificationAvailable ;;
  if negb available then
    console_error "Notification API unsupported." ;;
    ret false
  else
  granted <- isNotificationGranted ;;
  if granted then ret true else
  denied <- isNotificationDenied ;;
  if denied then
    unless silent (console_log "Notification permission was previously denied.") ;;
    ret false
  else
  status <- Notification_requestPermission ;;
  if String.eqb status "denied" then
    unless silent (alert "Izin notifikasi ditolak.") ;;
    ret false
  else
  if String.eqb status "default" then
    unless silent (alert "Izin notifikasi ditutup atau diabaikan.") ;;
    ret false
  else
    ret true.

Definition getPushSubscription : M State (option PushSubscription) :=
  registration <- navigator_serviceWorker_ready ;;
  pushManager_getSubscription registration.

Definition isCurrentPushSubscriptionAvailable : M State bool :=
  subscription <- getPushSubscription ;;
  ret (non_null subscription).

Definition generateSubscribeOptions : M State SubscribeOptions :=
  key <- gets (fun s => VAPID_PUBLIC_KEY (collaborators s)) ;;
  bytes <- convertBase64ToUint8Array key ;;
  ret {| userVisibleOnly := true; applicationServerKey := bytes |}.

Definition autoSubscribe : M State bool :=
  try_catch
    (available <- isNotificationAvailable ;;
     if negb available then
       console_log "[AutoSubscribe] Notification API not available" ;;
       ret false
     else
     subscribed <- isCurrentPushSubscriptionAvailable ;;
     if subscribed then
       console_log "[AutoSubscribe] Already subscribed to push notifications" ;;
       ret true
     else
     permissionGranted <- requestNotificationPermission true ;;
     if negb permissionGranted then
       console_log "[AutoSubscribe] Notification permission not granted" ;;
       ret false
     else
     console_log "[AutoSubscribe] Subscribing to push notifications..." ;;
     registration <- navigator_serviceWorker_ready ;;
     options <- generateSubscribeOptions ;;
     pushSubscription <- pushManager_subscribe registration options ;;
     response <- subscribePushNotification (endpoint pushSubscription) (keys pushSubscription) ;;
     if negb (ok response) then
       console_error "[AutoSubscribe] Failed to register subscription on server:" ;;
       PushSubscription_unsubscribe pushSubscription ;;
       ret false
     else
       console_log "[AutoSubscribe] Successfully subscribed to push notifications" ;;
       ret true)
    (fun error =>
       console_error "[AutoSubscribe] Error:" ;;
       ret false).

Definition failureSubscribeMessage : string :=
  "Langganan push notification gagal diaktifkan.".
Definition successSubscribeMessage : string :=
  "Langganan push notification berhasil diaktifkan.".

(** [pushSubscription.unsubscribe()] on the variable of [subscribe]: a
    [TypeError] while the variable is still [undefined]. *)
Definition pushSubscription_unsubscribe : M State bool :=
  held <- gets pushSubscription ;;
  match held with
  | Some subscription => PushSubscription_unsubscribe subscription
  | None => throw (TypeError "Cannot read properties of undefined (reading 'unsubscribe')")
  end.

(** [pushSubscription.toJSON()] on the same variable. *)
Definition pushSubscription_toJSON : M State (string * list (string * string)) :=
  held <- gets pushSubscription ;;
  match held with
  | Some subscription => ret (endpoint subscription, keys subscription)
  | None => throw (TypeError "Cannot read properties of undefined (reading 'toJSON')")
  end.

Definition subscribe : M State unit :=
  granted <- requestNotificationPermission false ;;
  if negb granted then ret tt else
  subscribed <- isCurrentPushSubscriptionAvailable ;;
  if subscribed then alert "Sudah berlangganan push notification." else
  console_log "Mulai berlangganan push notification..." ;;
  assign_pushSubscription None ;;
  try_catch
    (registration <- navigator_serviceWorker_ready ;;
     options <- generateSubscribeOptions ;;
     created <- pushManager_subscribe registration options ;;
     assign_pushSubscription (Some created) ;;
     json <- pushSubscription_toJSON ;;
     response <- subscribePushNotification (fst json) (snd json) ;;
     if negb (ok response) then
       console_error "subscribe: response:" ;;
       alert failureSubscribeMessage ;;
       pushSubscription_unsubscribe ;;
       ret tt
     else
       alert successSubscribeMessage)
    (fun error =>
       console_error "subscribe: error:" ;;
       alert failureSubscribeMessage ;;
       pushSubscription_unsubscribe ;;
       ret tt).

Definition failureUnsubscribeMessage : string :=
  "Langganan push notification gagal dinonaktifkan.".
Definition successUnsubscribeMessage : string :=
  "Langganan push notification berhasil dinonaktifkan.".

Definition unsubscribe : M State unit :=
  try_catch
    (pushSubscription <- getPushSubscription ;;
     match pushSubscription with
     | None =>
         alert "Tidak bisa memutus langganan push notification karena belum berlangganan sebelumnya."
     | Some pushSubscription =>
         let endpoint := endpoint pushSubscription in
         let keys := keys pushSubscription in
         response <- unsubscribePushNotification endpoint ;;
         if negb (ok response) then
           alert failureUnsubscribeMessage ;;
           console_error "unsubscribe: response:"
         else
         unsubscribed <- PushSubscription_unsubscribe pushSubscription ;;
         if negb unsubscribed then
           alert failureUnsubscribeMessage ;;
           subscribePushNotification endpoint keys ;;
           ret tt
         else
           alert successUnsubscribeMessage
     end)
    (fun error =>
       alert failureUnsubscribeMessage ;;
       console_error "unsubscribe: error:").

(** *** Reading a trace *)

Definition is_alert (e : Event) : bool :=
  match e with Alerted _ => true | _ => false end.

Definition is_log (e : Event) : bool :=
  match e with Logged _ | Errored _ => true | _ => false end.

Definition is_unsubscribe (e : Event) : bool :=
  match e with Called (Unsubscribe _) => true | _ => false end.

Definition is_subscribe (e : Event) : bool :=
  match e with Called (Subscribe _ _) => true | _ => false end.

Definition alerts (h : list Event) : nat := length (List.filter is_alert h).
Definition logs (h : list Event) : nat := length (List.filter is_log h).

(** A collaborator that gives the same answer whenever it is asked. *)
Definition always {A} (outcome : list Event -> Completion A) (answer : Completion A) : Prop :=
  forall h, outcome h = answer.

(** What [silent] suppresses: alerts and [console.log] lines. *)
Definition is_user_facing (e : Event) : bool :=
  match e with
  | Alerted _ | Logged _ => true
  | _ => false
  end.

(** The state [s] after further events. *)
Definition extended (s : State) (events : list Event) : State :=
  {| collaborators := collaborators s; trace := trace s ++ events;
     pushSubscription := pushSubscription s |}.

(** *** Ways in which [autoSubscribe] cannot succeed *)

Definition never_subscribed (c : Collaborators) : Prop :=
  forall h registration subscription,
    getSubscription_outcome c h registration <> Return (Some subscription).

Definition service_worker_fails (c : Collaborators) : Prop :=
  forall h registration, ready_outcome c h <> Return registration.

Definition permission_refused (c : Collaborators) : Prop :=
  Notification_permission c <> "granted"
  /\ (Notification_permission c = "denied"
      \/ forall h status,
           requestPermission_outcome c h = Return status ->
           status = "denied" \/ status = "default").

Definition platform_subscribe_fails (c : Collaborators) : Prop :=
  forall h registration options subscription,
    subscribe_outcome c h registration options <> Return subscription.

Definition remote_subscribe_fails (c : Collaborators) : Prop :=
  forall h endpoint keys,
    subscribePushNotification_outcome c h endpoint keys <> Return {| ok := true |}.

(** The internal failures of [autoSubscribe]: a collaborator on its way
    never answers with success (it rejects, or reports non-success).  The
    rollback may fail or not in the last case. *)
Inductive internal_failure (c : Collaborators) : Prop :=
| notification_unavailable :
    Notification_in_window c = false -> internal_failure c
| service_worker_failure :
    service_worker_fails c -> internal_failure c
| permission_not_granted :
    never_subscribed c -> permission_refused c -> internal_failure c
| platform_subscribe_failure :
    never_subscribed c -> platform_subscribe_fails c -> internal_failure c
| remote_failure :
    never_subscribed c -> remote_subscribe_fails c -> internal_failure c.

(** Permission is there, or the prompt always grants it. *)
Definition permission_granted (c : Collaborators) : Prop :=
  Notification_in_window c = true
  /\ (Notification_permission c = "granted"
      \/ (Notification_permission c <> "denied"
          /\ always (requestPermission_outcome c) (Return "granted"))).

(** The service worker is ready and holds no subscription. *)
Definition no_prior_subscription (c : Collaborators) (registration : ServiceWorkerRegistration)
    : Prop :=
  always (ready_outcome c) (Return registration)
  /\ always (fun h => getSubscription_outcome c h registration) (Return None).

(** The platform creates the subscription [created] whenever asked. *)
Definition platform_subscribes (c : Collaborators) (created : PushSubscription) : Prop :=
  (exists bytes, forall h key, convertBase64ToUint8Array_outcome c h key = Return bytes)
  /\ forall h registration options,
       subscribe_outcome c h registration options = Return created.

(** The service worker is ready and holds the subscription [current]. *)
Definition currently_subscribed (c : Collaborators) (registration : ServiceWorkerRegistration)
    (current : PushSubscription) : Prop :=
  always (ready_outcome c) (Return registration)
  /\ always (fun h => getSubscription_outcome c h registration) (Return (Some current)).

(** The failure alerts of [subscribe] and the [unsubscribe()] calls, in the
    order in which they happened. *)
Definition is_failure_alert (e : Event) : bool :=
  match e with
  | Alerted message => String.eqb message failureSubscribeMessage
  | _ => false
  end.

Definition rollback_events (h : list Event) : list Event :=
  List.filter (fun e => is_unsubscribe e || is_failure_alert e) h.

(** *** Sample collaborators *)

Definition sample_subscription : PushSubscription :=
  {| subscription_ref := 1;
     endpoint := "https://push.example/send/abc";
     keys := [("p256dh", "BNcRd"); ("auth", "tBHI")] |}.

(** Permission already granted, service worker ready; the rest as given. *)
Definition scenario (existing : option PushSubscription)
    (platform_subscribe : Completion PushSubscription)
    (remote : Completion Response)
    (platform_unsubscribe : Completion bool) : Collaborators :=
  {| Notification_in_window := true;
     Notification_permission := "granted";
     VAPID_PUBLIC_KEY := "BCCs2eonMI";
     requestPermission_outcome := fun _ => Return "granted";
     ready_outcome := fun _ => Return 0%nat;
     getSubscription_outcome := fun _ _ => Return existing;
     subscribe_outcome := fun _ _ _ => platform_subscribe;
     unsubscribe_outcome := fun _ _ => platform_unsubscribe;
     convertBase64ToUint8Array_outcome := fun _ _ => Return [4; 32; 172];
     subscribePushNotification_outcome := fun _ _ _ => remote;
     unsubscribePushNotification_outcome := fun _ _ => remote |}.

(** The platform subscribes; the remote API answers [ok] false and the
    rollback succeeds. *)
Definition remote_refuses : Collaborators :=
  scenario None (Return sample_subscription) (Return {| ok := false |}) (Return true).

(** The platform subscribes; the remote API throws and the rollback
    succeeds. *)
Definition remote_throws : Collaborators :=
  scenario None (Return sample_subscription) (Throw (Rejection "network")) (Return true).

(** The platform subscribes; the remote API answers [ok] false and the
    rollback throws. *)
Definition rollback_throws : Collaborators :=
  scenario None (Return sample_subscription) (Return {| ok := false |})
    (Throw (Rejection "gone")).

(** The platform cannot subscribe. *)
Definition platform_rejects : Collaborators :=
  scenario None (Throw (Rejection "push service unavailable"))
    (Return {| ok := true |}) (Return true).

(** Subscribed already; the remote API answers [ok] false. *)
Definition subscribed_remote_refuses : Collaborators :=
  scenario (Some sample_subscription) (Return sample_subscription)
    (Return {| ok := false |}) (Return true).

(** Permission granted, but the service worker never becomes ready. *)
Definition no_service_worker : Collaborators :=
  {| Notification_in_window := true;
     Notification_permission := "granted";
     VAPID_PUBLIC_KEY := "BCCs2eonMI";
     requestPermission_outcome := fun _ => Return "granted";
     ready_outcome := fun _ => Throw (TypeError "navigator.serviceWorker is undefined");
     getSubscription_outcome := fun _ _ => Return None;
     subscribe_outcome := fun _ _ _ => Return sample_subscription;
     unsubscribe_outcome := fun _ _ => Return true;
     convertBase64ToUint8Array_outcome := fun _ _ => Return [4; 32; 172];
     subscribePushNotification_outcome := fun _ _ _ => Return {| ok := true |};
     unsubscribePushNotification_outcome := fun _ _ => Return {| ok := true |} |}.

(** Nothing works: no permission yet, and every call rejects. *)
Definition offline : Collaborators :=
  {| Notification_in_window := true;
     Notification_permission := "default";
     VAPID_PUBLIC_KEY := "BCCs2eonMI";
     requestPermission_outcome := fun _ => Throw (Rejection "offline");
     ready_outcome := fun _ => Throw (Rejection "offline");
     getSubscription_outcome := fun _ _ => Throw (Rejection "offline");
     subscribe_outcome := fun _ _ _ => Throw (Rejection "offline");
     unsubscribe_outcome := fun _ _ => Throw (Rejection "offline");
     convertBase64ToUint8Array_outcome := fun _ _ => Throw (Rejection "offline");
     subscribePushNotification_outcome := fun _ _ _ => Throw (Rejection "offline");
     unsubscribePushNotification_outcome := fun _ _ => Throw (Rejection "offline") |}.

(** *** Further vocabulary *)

Definition is_remote (e : Event) : bool :=
  match e with
  | Called (SubscribePushNotification _ _) | Called (UnsubscribePushNotification _) => true
  | _ => false
  end.

(** Permission is asked of the user only while it is neither granted nor
    denied. *)
Definition undecided (c : Collaborators) : bool :=
  Notification_in_window c
  && negb (String.eqb (Notification_permission c) "granted")
  && negb (String.eqb (Notification_permission c) "denied").

(** The platform subscribes and the remote API accepts. *)
Definition accepting : Collaborators :=
  scenario None (Return sample_subscription) (Return {| ok := true |}) (Return true).

(** Subscribed already. *)
Definition subscribed_already : Collaborators :=
  scenario (Some sample_subscription) (Return sample_subscription)
    (Return {| ok := true |}) (Return true).

(** Permission was denied earlier. *)
Definition denied_earlier : Collaborators :=
  {| Notification_in_window := true;
     Notification_permission := "denied";
     VAPID_PUBLIC_KEY := "BCCs2eonMI";
     requestPermission_outcome := fun _ => Return "denied";
     ready_outcome := fun _ => Return 0%nat;
     getSubscription_outcome := fun _ _ => Return None;
     subscribe_outcome := fun _ _ _ => Return sample_subscription;
     unsubscribe_outcome := fun _ _ => Return true;
     convertBase64ToUint8Array_outcome := fun _ _ => Return [4; 32; 172];
     subscribePushNotification_outcome := fun _ _ _ => Return {| ok := true |};
     unsubscribePushNotification_outcome := fun _ _ => Return {| ok := true |} |}.

End NotificationHelper.

(** ** Vocabulary of the properties *)

Definition day : Z := 24 * 60 * 60 * 1000.

(** What lazy expiry asks of [isInstallDismissed] in a world whose record
    is [age] milliseconds old, for a time to live of [TTL]. *)
Definition expires_lazily (isInstallDismissed : M World bool) (TTL : Z)
    (w : World) (age : Z) : Prop :=
  (returns isInstallDismissed w true <-> age <= TTL)
  /\ (age <= TTL -> final isInstallDismissed w = w)
  /\ (age > TTL ->
      returns isInstallDismissed w false
      /\ final isInstallDismissed w
         = set_localStorage (delete "installPromptDismissed" (localStorage w)) w
      /\ forall p : Platform,
           let w' := set_platform p (final isInstallDismissed w) in
           localStorage w' !! "installPromptDismissed" = None
           /\ isInstallDismissed w' = (Return false, w')).

(** A record that is kept whatever the time: the answer is [true] and
    nothing is written. *)
Definition suppresses_forever (isInstallDismissed : M World bool) (w : World) : Prop :=
  forall p : Platform,
    isInstallDismissed (set_platform p w) = (Return true, set_platform p w).

(** A record that the guard on the stored value takes for no record at
    all: whatever the time, the answer is [false] and nothing is written,
    so the record stays where it is. *)
Definition taken_for_absent (isInstallDismissed : M World bool) (w : World) : Prop :=
  forall p : Platform,
    isInstallDismissed (set_platform p w) = (Return false, set_platform p w)
    /\ localStorage (final isInstallDismissed (set_platform p w)) = localStorage w.

Definition android_phone : Platform :=
  {| userAgent := "Mozilla/5.0 (Linux; Android 13) Chrome/120 Mobile Safari/537.36";
     display_standalone := false; navigator_standalone := false; MSStream := false;
     innerWidth := 400; now := 1700000000000;
     prompt_throws := fun _ _ => None |}.

Definition fresh_page : World :=
  {| platform := android_phone; localStorage := ∅; document := []; next_ref := 0%nat;
     deferredPrompt := None; tasks := []; listeners := []; effects := [] |}.

(** The page with the given value under the dismissal key. *)
Definition page_with_record (value : string) : World :=
  set_localStorage {[ "installPromptDismissed" := value ]} fresh_page.

(** A dismissal recorded at 1700000000000, read five days later. *)
Definition five_days_later : World :=
  set_platform
    {| userAgent := userAgent android_phone;
       display_standalone := false; navigator_standalone := false;
       MSStream := false; innerWidth := 400;
       now := 1700000000000 + 5 * day;
       prompt_throws := fun _ _ => None |}
    (page_with_record "1700000000000").

(** The later script was initialised and the platform offered the
    install handle 7: the banner is up and the handle is held. *)
Definition handle_captured : World :=
  run InstallPromptLater.script [Call_initInstallPrompt; BeforeInstallPrompt 7%nat]
    fresh_page.

Definition at_most_one_banner (w : World) : Prop := (banners w <= 1)%nat.

(** The computation changes the number of banner nodes only along [R]. *)
Definition preserves {A} (R : nat -> nat -> Prop) (m : M World A) : Prop :=
  forall w, R (banners w) (banners (final m w)).

(** Every function of the script does. *)
Record behaves (R : nat -> nat -> Prop) (script : Script) : Prop := {
  behaves_isInstallDismissed : preserves R (script_isInstallDismissed script);
  behaves_dismissInstallPrompt : preserves R (script_dismissInstallPrompt script);
  behaves_showInstallBanner : preserves R (script_showInstallBanner script);
  behaves_hideInstallBanner : preserves R (script_hideInstallBanner script);
  behaves_triggerInstall : preserves R (script_triggerInstall script);
  behaves_triggerInstall_resumed :
    forall outcome, preserves R (script_triggerInstall_resumed script outcome);
  behaves_initInstallPrompt : preserves R (script_initInstallPrompt script);
  behaves_on_beforeinstallprompt :
    forall e, preserves R (script_on_beforeinstallprompt script e);
  behaves_on_appinstalled : preserves R (script_on_appinstalled script);
  behaves_fallback : preserves R (script_fallback script)
}.

(** The singleton banner, for one script, from the world [w]. *)
Definition singleton_banner (script : Script) (w : World) : Prop :=
  let show := script_showInstallBanner script in
  ((0 < banners w)%nat -> show w = (Return tt, w))
  /\ banners (final show (final show w)) = 1%nat
  /\ (forall n : nat, banners (Nat.iter (S n) (final show) w) = 1%nat)
  /\ (forall actions : list Action,
        no_removal script actions (final show w) = true ->
        banners (run script (Call_showInstallBanner :: actions) w) = 1%nat)
  /\ (forall a : Action, at_most_one_banner (perform script a w)).

(** The element is the banner and carries the class that makes it
    visible. *)
Definition visible_banner (el : Element) : bool :=
  has_id "install-banner" el
  && existsb (String.eqb "install-banner--visible") (classList el).

(** The element without that class. *)
Definition without_visible_class (el : Element) : Element :=
  with_classList (List.filter (fun c => negb (String.eqb "install-banner--visible" c))) el.

(** What hiding the banner comes to, from the world [w] to the world
    [after].  Without a banner in [w], the document and the pending
    callbacks are those of [w].  Otherwise the banner that
    [getElementById] finds has lost the class that makes it visible, every
    node is still in the document, and the removal of that banner is
    scheduled after 300 ms, behind the callbacks already pending; when [w]
    has a single banner, none is visible in [after], and none is left once
    the scheduled removal has run. *)
Definition banner_hidden (script : Script) (w after : World) : Prop :=
  match find (has_id "install-banner") (document w) with
  | None => document after = document w /\ tasks after = tasks w
  | Some banner =>
      document after
      = map (fun el =>
               if Nat.eqb (ref el) (ref banner) then without_visible_class el else el)
          (document w)
      /\ tasks after = (tasks w ++ [Timeout (RemoveBanner (ref banner)) 300])%list
      /\ (at_most_one_banner w ->
          find visible_banner (document after) = None
          /\ banners (perform script (Fire (length (tasks w))) after) = 0%nat)
  end.

(** The world in which the resumed [triggerInstall] comes to hide the
    banner: the outcome is logged and the handle is null. *)
Definition logged (outcome : string) (w : World) : World :=
  set_deferredPrompt None
    (set_effects
       (effects w ++ [ConsoleLog ("[InstallPrompt] User response: " ++ outcome)]) w).

(** The deferred handle [e], held in [w], is redeemed once: what
    [triggerInstall] does up to its await; what it does when resumed, in
    whatever world [w'] the page is by then (the outcome is logged, the
    handle is null, the banner is hidden, nothing else has changed); what a
    later call does when no handle is held; and the whole sequence run
    from [w]. *)
Definition handle_consumed (script : Script) (fallback_effects : list Effect)
    (w : World) (e : InstallEvent) : Prop :=
  let triggerInstall := script_triggerInstall script in
  let resumed := script_triggerInstall_resumed script in
  triggerInstall w
  = (Return tt,
     set_tasks (tasks w ++ [AwaitUserChoice e])
       (set_effects (effects w ++ [Prompt e]) w))
  /\ (forall (outcome : string) (w' : World),
        let after := final (resumed outcome) w' in
        result (resumed outcome) w' = Return tt
        /\ effects after
           = (effects w' ++ [ConsoleLog ("[InstallPrompt] User response: " ++ outcome)])%list
        /\ deferredPrompt after = None
        /\ banner_hidden script w' after
        /\ platform after = platform w'
        /\ localStorage after = localStorage w'
        /\ listeners after = listeners w'
        /\ next_ref after = next_ref w')
  /\ (forall w' : World,
        deferredPrompt w' = None ->
        triggerInstall w'
        = (Return tt, set_effects (effects w' ++ fallback_effects) w'))
  /\ (forall outcome : string,
        let done :=
          run script
            [Call_triggerInstall; Settle (length (tasks w)) outcome; Call_triggerInstall] w in
        deferredPrompt done = None
        /\ effects done
           = (effects w
              ++ [Prompt e; ConsoleLog ("[InstallPrompt] User response: " ++ outcome)]
              ++ fallback_effects)%list
        /\ banner_hidden script w done).

(** ** Further sample pages *)

Definition iphone : Platform :=
  {| userAgent :=
       "Mozilla/5.0 (iPhone; CPU iPhone OS 17_0 like Mac OS X) AppleWebKit/605.1.15 Version/17.0 Mobile/15E148 Safari/604.1";
     display_standalone := false; navigator_standalone := false; MSStream := false;
     innerWidth := 390; now := 1700000000000;
     prompt_throws := fun _ _ => None |}.

Definition iphone_page : World := set_platform iphone fresh_page.

(** The same page at another time, on another device, ... *)
Definition elsewhere (p : Platform) (w : World) : World := set_platform p w.

(** The time values of a [Date], which [Date.now()] returns: integers at
    most 8.64e15 milliseconds from the epoch.  A double holds them exactly
    and [toString] writes them in plain decimal digits, as [pretty] does. *)
Definition time_value (t : Z) : Prop :=
  -8640000000000000 <= t <= 8640000000000000.

(** The record under the dismissal key passes the guard of
    [isInstallDismissed] and is read by its [parseInt] as the number [t]. *)
Definition record_reads (w : World) (t : Z) : Prop :=
  exists v : string,
    localStorage w !! "installPromptDismissed" = Some v
    /\ truthy (Some v) = true
    /\ parseInt (ToString (Some v)) = Num t.

(** A dismissal, and nothing else, at the time 1700000000000. *)
Definition just_dismissed : World :=
  final InstallPrompt.dismissInstallPrompt fresh_page.

(** What hiding the banner [banner] of [w] comes to: the removal is
    scheduled, the node stays in the document without the visible class,
    and is gone once the scheduled removal has run. *)
Definition hides_then_removes (script : Script) (w : World) (banner : Element) : Prop :=
  let hidden := final (script_hideInstallBanner script) w in
  result (script_hideInstallBanner script) w = Return tt
  /\ tasks hidden = (tasks w ++ [Timeout (RemoveBanner (ref banner)) 300])%list
  /\ map id (document hidden) = map id (document w)
  /\ find visible_banner (document hidden) = None
  /\ banners (perform script (Fire (length (tasks w))) hidden) = 0%nat.

(** The callback puts the visible class on the element [r]: what
    [showInstallBanner] schedules for its banner, with
    [requestAnimationFrame] in the first revision and after 100 ms in the
    later one. *)
Definition animates_in (r : nat) (t : Task) : bool :=
  match t with
  | AnimationFrame (AddVisibleClass r') | Timeout (AddVisibleClass r') _ => Nat.eqb r' r
  | _ => false
  end.

(** Hiding the banner [banner] of [w] does not cancel its animation: when
    a pending callback that animates it in runs after [hideInstallBanner],
    the banner is in the document with its visible class again, and its
    removal is still to come. *)
Definition shows_again (script : Script) (w : World) (banner : Element) : Prop :=
  forall (i : nat) (t : Task),
    tasks w !! i = Some t ->
    animates_in (ref banner) t = true ->
    let again := run script [Call_hideInstallBanner; Fire i] w in
    (exists el : Element,
        In el (document again) /\ ref el = ref banner /\ visible_banner el = true)
    /\ In (Timeout (RemoveBanner (ref banner)) 300) (tasks again).

(** What the steps of [showInstallBanner] after [appendChild] leave alone:
    they only add click listeners and schedule the animation. *)
Definition page_content (w : World) :=
  (map innerHTML (document w), map id (document w), map ref (document w),
   deferredPrompt w, effects w, localStorage w, listeners w, next_ref w).

Definition keeps {A X} (observe : World -> X) (m : M World A) : Prop :=
  forall w, observe (final m w) = observe w.

(** The banner shown when the platform offers the handle [e] on a page
    without banner: its markup is [markup], the handle is held. *)
Definition banner_shown (script : Script) (w : World) (e : InstallEvent) (markup : Markup)
    : Prop :=
  let shown := final (script_on_beforeinstallprompt script e) w in
  result (script_on_beforeinstallprompt script e) w = Return tt
  /\ deferredPrompt shown = Some e
  /\ map innerHTML (document shown) = (map innerHTML (document w) ++ [markup])%list
  /\ map id (document shown) = (map id (document w) ++ ["install-banner"])%list
  /\ banners shown = 1%nat
  /\ In (PreventDefault e) (effects shown).

(** The banner [banner] once [showInstallBanner] has attached its click
    listeners: the close button dismisses, the install button (when the
    markup has one) triggers the install. *)
Definition wired (banner : Element) : Element :=
  {| ref := ref banner; id := id banner; classList := classList banner;
     innerHTML := innerHTML banner;
     click_listeners :=
       match innerHTML banner with
       | NoMarkup => click_listeners banner
       | ManualInstructions =>
           click_listeners banner ++ [("install-banner-close", dismissInstallPrompt_handler)]
       | InstallAction =>
           click_listeners banner
           ++ [("install-banner-close", dismissInstallPrompt_handler)]
           ++ [("install-banner-install", triggerInstall_handler)]
       end |}.

(** No element of the page has banner buttons in its markup. *)
Definition no_buttons (d : list Element) : Prop :=
  Forall (fun el => buttons (innerHTML el) = []) d.

(** Clicking the buttons of the banner shown for the handle [e]. *)
Definition buttons_wired (script : Script) (w : World) (e : InstallEvent) (ios : bool)
    : Prop :=
  let shown := final (script_on_beforeinstallprompt script e) w in
  click script "install-banner-close" shown
  = final (script_dismissInstallPrompt script) shown
  /\ click script "install-banner-install" shown
     = if ios then shown else final (script_triggerInstall script) shown.

(** The boolean a query answers in [w]. *)
Definition answer (query : M World bool) (w : World) : bool :=
  match result query w with
  | Return b => b
  | Throw _ => false
  end.

(** The listeners and the timer that [initInstallPrompt] has added between
    [w] and [w'], the document and the handle being left alone. *)
Definition armed_with (w w' : World) (added : list Listener) (timer : list Task) : Prop :=
  listeners w' = (listeners w ++ added)%list
  /\ tasks w' = (tasks w ++ timer)%list
  /\ document w' = document w
  /\ deferredPrompt w' = deferredPrompt w.

(** The handle 7 is held on a platform whose [prompt()] throws. *)
Definition prompt_refused : World :=
  set_platform
    {| userAgent := userAgent android_phone;
       display_standalone := false; navigator_standalone := false;
       MSStream := false; innerWidth := 400; now := 1700000000000;
       prompt_throws := fun _ _ => Some (TypeError "InvalidStateError") |}
    handle_captured.

(** The banner of [handle_captured]. *)
Definition captured_banner : Element :=
  {| ref := 0; id := "install-banner"; classList := ["install-banner"];
     innerHTML := InstallAction;
     click_listeners :=
       [("install-banner-close", dismissInstallPrompt_handler);
        ("install-banner-install", triggerInstall_handler)] |}.

(** [pattern] occurs, whatever the case of its letters, at one of the
    first [n] positions of [s]. *)
Fixpoint occurs_before (pattern : string) (n : nat) (s : string) : bool :=
  match n with
  | O => false
  | S n' =>
      starts_with upper pattern s
      || match s with
         | String _ s' => occurs_before pattern n' s'
         | EmptyString => false
         end
  end.

(** * Properties *)

(** ** The model at work *)

Example parseInt_timestamp : parseInt "1700000000000" = Num 1700000000000.
Proof. reflexivity. Qed.

Example parseInt_stops_at_first_non_digit : parseInt "  -12px" = Num (-12).
Proof. reflexivity. Qed.

Example parseInt_without_digit :
  parseInt "yesterday" = NaN /\ parseInt "" = NaN /\ parseInt "-" = NaN.
Proof. repeat split. Qed.

Example android_chrome_detection :
  result InstallPromptLater.isMobileDevice fresh_page = Return true
  /\ result InstallPromptLater.isIOS fresh_page = Return false
  /\ result InstallPromptLater.isSafari fresh_page = Return false.
Proof. repeat split. Qed.

Example iphone_safari_detection :
  regex_any (fun c => c) ["iPad"; "iPhone"; "iPod"]
    "Mozilla/5.0 (iPhone; CPU iPhone OS 17_0 like Mac OS X) Version/17.0 Mobile/15E148 Safari/604.1"
  = true
  /\ regex_safari
       "Mozilla/5.0 (iPhone; CPU iPhone OS 17_0 like Mac OS X) Version/17.0 Mobile/15E148 Safari/604.1"
     = true.
Proof. split; reflexivity. Qed.

(** Dismissing writes the clock as a decimal string, which reads back as
    a fresh dismissal. *)
Example dismiss_then_read :
  localStorage (final InstallPrompt.dismissInstallPrompt fresh_page)
    !! "installPromptDismissed" = Some "1700000000000"
  /\ result InstallPrompt.isInstallDismissed
       (final InstallPrompt.dismissInstallPrompt fresh_page) = Return true.
Proof. split; reflexivity. Qed.

(** A page load on Android: the handle arrives, the banner shows with the
    install action, the user installs, the banner is hidden and then
    removed. *)
Example install_scenario :
  let shown := run InstallPromptLater.script
                 [Call_initInstallPrompt; BeforeInstallPrompt 7%nat] fresh_page in
  let installed := run InstallPromptLater.script
                     [Click "install-banner-install"; Settle 2%nat "accepted"; Fire 2%nat]
                     shown in
  map innerHTML (document shown) = [InstallAction]
  /\ deferredPrompt shown = Some 7%nat
  /\ document installed = []
  /\ deferredPrompt installed = None.
Proof. repeat split. Qed.

(** ** Dismissal record *)

Lemma parseInt_number_truthy (v : string) (T : Z) :
  parseInt v = Num T -> truthy (Some v) = true.
Proof. destruct v; [discriminate | reflexivity]. Qed.

Lemma set_platform_localStorage (p : Platform) (w : World) :
  localStorage (set_platform p w) = localStorage w.
Proof. reflexivity. Qed.

Ltac run_dismissed :=
  unfold InstallPrompt.isInstallDismissed, InstallPromptLater.isInstallDismissed,
    InstallPrompt.INSTALL_DISMISSED_KEY, InstallPromptLater.INSTALL_DISMISSED_KEY,
    localStorage_getItem, localStorage_removeItem, Date_now,
    bind, ret, gets, modify, returns, result, final.

Lemma isInstallDismissed_absent (w : World) :
  localStorage w !! "installPromptDismissed" = None ->
  InstallPrompt.isInstallDismissed w = (Return false, w)
  /\ InstallPromptLater.isInstallDismissed w = (Return false, w).
Proof. intros Habsent. run_dismissed. rewrite Habsent. split; reflexivity. Qed.

(** Both revisions share the body of [isInstallDismissed]; this is what it
    computes on a stored number. *)
Lemma isInstallDismissed_number (w : World) (v : string) (T : Z) :
  localStorage w !! "installPromptDismissed" = Some v ->
  parseInt v = Num T ->
  InstallPrompt.isInstallDismissed w
  = (if InstallPrompt.INSTALL_DISMISSED_DURATION <? now (platform w) - T
     then (Return false,
           set_localStorage (delete "installPromptDismissed" (localStorage w)) w)
     else (Return true, w))
  /\ InstallPromptLater.isInstallDismissed w
  = (if InstallPromptLater.INSTALL_DISMISSED_DURATION <? now (platform w) - T
     then (Return false,
           set_localStorage (delete "installPromptDismissed" (localStorage w)) w)
     else (Return true, w)).
Proof.
  intros Hstored Hparse. run_dismissed. rewrite Hstored.
  rewrite (parseInt_number_truthy v T Hparse). simpl. rewrite Hparse. simpl.
  split.
  - destruct (_ <? _); reflexivity.
  - destruct (_ <? _); reflexivity.
Qed.

Lemma expires_lazily_intro (m : M World bool) (TTL : Z) (w : World) (age : Z) :
  m w = (if TTL <? age
         then (Return false,
               set_localStorage (delete "installPromptDismissed" (localStorage w)) w)
         else (Return true, w)) ->
  (forall w', localStorage w' !! "installPromptDismissed" = None ->
              m w' = (Return false, w')) ->
  expires_lazily m TTL w age.
Proof.
  intros Hrun Habsent. unfold expires_lazily, returns, result, final. rewrite Hrun.
  destruct (Z.ltb_spec TTL age) as [Hold | Hrecent]; simpl.
  - split; [split; [discriminate | lia] |].
    split; [lia |]. intros _. repeat split.
    + apply lookup_delete_eq.
    + apply Habsent. simpl. apply lookup_delete_eq.
  - split; [split; [lia | reflexivity] |].
    split; [reflexivity | lia].
Qed.

(** C1: with no record [isInstallDismissed] answers false and leaves the
    world as it is; with a record that parses to the number [T] it answers
    true exactly when [now - T <= TTL] (seven days in the first revision,
    three in the later one), and once [now - T > TTL] it deletes the record
    and answers false, after which a read at any time finds no record and
    answers false again. *)
Theorem isInstallDismissed_lazy_expiry (w : World) :
  (localStorage w !! "installPromptDismissed" = None ->
   InstallPrompt.isInstallDismissed w = (Return false, w)
   /\ InstallPromptLater.isInstallDismissed w = (Return false, w))
  /\ (forall (v : string) (T : Z),
        localStorage w !! "installPromptDismissed" = Some v ->
        parseInt v = Num T ->
        expires_lazily InstallPrompt.isInstallDismissed (7 * day) w (now (platform w) - T)
        /\ expires_lazily InstallPromptLater.isInstallDismissed (3 * day) w
             (now (platform w) - T)).
Proof.
  split; [apply isInstallDismissed_absent |].
  intros v T Hstored Hparse.
  destruct (isInstallDismissed_number w v T Hstored Hparse) as [Hfirst Hlater].
  split; apply expires_lazily_intro; try assumption;
    intros w' Habsent; apply (isInstallDismissed_absent w' Habsent).
Qed.

(** Five days after the dismissal the record is still fresh for the seven
    day window and expired for the three day one. *)
Lemma isInstallDismissed_lazy_expiry_witness :
  returns InstallPrompt.isInstallDismissed five_days_later true
  /\ returns InstallPromptLater.isInstallDismissed five_days_later false
  /\ localStorage (final InstallPromptLater.isInstallDismissed five_days_later)
       !! "installPromptDismissed" = None.
Proof.
  destruct (isInstallDismissed_lazy_expiry five_days_later) as [_ Hrecord].
  destruct (Hrecord "1700000000000" 1700000000000 eq_refl eq_refl)
    as [[Hfirst _] [_ [_ Hlater]]].
  split; [apply Hfirst; vm_compute; discriminate |].
  destruct Hlater as [Hfalse [_ Hgone]]; [vm_compute; reflexivity |].
  split; [exact Hfalse |].
  destruct (Hgone (platform five_days_later)) as [Hnone _]. exact Hnone.
Defined.

(** C9, as stated, fails on the empty string: it does not parse to a number,
    yet the guard on the stored value answers false. *)
Lemma isInstallDismissed_empty_record_counterexample :
  localStorage (page_with_record "") !! "installPromptDismissed" = Some ""
  /\ parseInt "" = NaN
  /\ ~ suppresses_forever InstallPrompt.isInstallDismissed (page_with_record "")
  /\ ~ suppresses_forever InstallPromptLater.isInstallDismissed (page_with_record "")
  /\ InstallPrompt.isInstallDismissed (page_with_record "")
     = (Return false, page_with_record "")
  /\ InstallPromptLater.isInstallDismissed (page_with_record "")
     = (Return false, page_with_record "").
Proof.
  split; [reflexivity |]. split; [reflexivity |].
  split; [| split; [| split; reflexivity]].
  - intros Hforever. specialize (Hforever android_phone). discriminate Hforever.
  - intros Hforever. specialize (Hforever android_phone). discriminate Hforever.
Qed.

(** C9, amended: a stored value that does not parse to a number makes
    [isInstallDismissed] answer true at every time, and the record is never
    deleted nor anything else written, unless the value is the empty
    string: that one does not parse to a number either, but the guard on
    the stored value takes it for no record, so the answer is false at
    every time and the empty record stays in place. *)
Theorem isInstallDismissed_unparsable_record (w : World) (v : string) :
  localStorage w !! "installPromptDismissed" = Some v ->
  parseInt v = NaN ->
  parseInt "" = NaN
  /\ (v <> "" ->
      suppresses_forever InstallPrompt.isInstallDismissed w
      /\ suppresses_forever InstallPromptLater.isInstallDismissed w)
  /\ (v = "" ->
      taken_for_absent InstallPrompt.isInstallDismissed w
      /\ taken_for_absent InstallPromptLater.isInstallDismissed w).
Proof.
  intros Hstored Hparse. split; [reflexivity |]. split.
  - intros Hnonempty.
    assert (Htruthy : truthy (Some v) = true) by (destruct v; [congruence | reflexivity]).
    split; intros p; run_dismissed; rewrite set_platform_localStorage, Hstored, Htruthy;
      simpl; rewrite Hparse; reflexivity.
  - intros ->.
    split; intros p; unfold final; run_dismissed;
      rewrite set_platform_localStorage, Hstored; split; reflexivity.
Qed.

(** The record "yesterday" suppresses for ever; the empty record is taken
    for no record and stays. *)
Lemma isInstallDismissed_unparsable_record_witness :
  (suppresses_forever InstallPrompt.isInstallDismissed (page_with_record "yesterday")
   /\ suppresses_forever InstallPromptLater.isInstallDismissed (page_with_record "yesterday"))
  /\ (taken_for_absent InstallPrompt.isInstallDismissed (page_with_record "")
      /\ taken_for_absent InstallPromptLater.isInstallDismissed (page_with_record "")).
Proof.
  split.
  - apply (isInstallDismissed_unparsable_record (page_with_record "yesterday") "yesterday");
      [reflexivity | reflexivity | discriminate].
  - apply (isInstallDismissed_unparsable_record (page_with_record "") "");
      reflexivity.
Defined.

(** ** The banner node *)

Lemma filter_has_id_map (i : string) (g : Element -> Element) (d : list Element) :
  (forall el, id (g el) = id el) ->
  length (List.filter (has_id i) (map g d)) = length (List.filter (has_id i) d).
Proof.
  intros Hid. induction d as [| el d IH]; [reflexivity |].
  simpl.
  replace (has_id i (g el)) with (has_id i el)
    by (unfold has_id; rewrite Hid; reflexivity).
  destruct (has_id i el); simpl; congruence.
Qed.

Lemma find_none_no_banner (i : string) (d : list Element) :
  find (has_id i) d = None -> List.filter (has_id i) d = [].
Proof.
  induction d as [| el d IH]; [reflexivity |].
  simpl. destruct (has_id i el); [discriminate | exact IH].
Qed.

Lemma find_some_banner (i : string) (d : list Element) (el : Element) :
  find (has_id i) d = Some el -> (0 < length (List.filter (has_id i) d))%nat.
Proof.
  induction d as [| el' d IH]; [discriminate |].
  simpl. destruct (has_id i el'); simpl; [lia | exact IH].
Qed.

Lemma filter_remove_le (i : string) (r : nat) (d : list Element) :
  (length (List.filter (has_id i)
     (List.filter (fun el => negb (Nat.eqb (ref el) r)) d))
   <= length (List.filter (has_id i) d))%nat.
Proof.
  induction d as [| el d IH]; [reflexivity |].
  simpl. destruct (negb (Nat.eqb (ref el) r)); simpl;
    destruct (has_id i el); simpl; lia.
Qed.

Lemma banners_update_element (r : nat) (f : Element -> Element) (w : World) :
  (forall el, id (f el) = id el) ->
  banners (final (update_element r f) w) = banners w.
Proof.
  intros Hid. unfold banners, final, update_element, modify.
  cbn [snd document set_document]. apply filter_has_id_map.
  intros el. destruct (Nat.eqb (ref el) r); [apply Hid | reflexivity].
Qed.

Section Preservation.

Variable R : nat -> nat -> Prop.
Hypothesis R_refl : forall n, R n n.
Hypothesis R_trans : forall a b c, R a b -> R b c -> R a c.

Lemma preserves_steady {A} (m : M World A) :
  (forall w, banners (final m w) = banners w) -> preserves R m.
Proof. intros Hsteady w. rewrite Hsteady. apply R_refl. Qed.

Lemma preserves_ret {A} (a : A) : preserves R (ret a).
Proof. intros w. apply R_refl. Qed.

Lemma preserves_throw {A} (e : Error) : preserves R (@throw World A e).
Proof. intros w. apply R_refl. Qed.

Lemma preserves_bind {A B} (m : M World A) (k : A -> M World B) :
  preserves R m -> (forall a, preserves R (k a)) -> preserves R (bind m k).
Proof.
  intros Hm Hk w. unfold final, bind. specialize (Hm w). unfold final in Hm.
  destruct (m w) as [[a | e] w']; simpl in *.
  - eapply R_trans; [exact Hm | apply Hk].
  - exact Hm.
Qed.

Lemma preserves_gets {A} (f : World -> A) : preserves R (gets f).
Proof. intros w. apply R_refl. Qed.

Lemma preserves_emit (e : Effect) : preserves R (emit e).
Proof. intros w. apply R_refl. Qed.

Lemma preserves_update_element (r : nat) (f : Element -> Element) :
  (forall el, id (f el) = id el) -> preserves R (update_element r f).
Proof. intros Hid. apply preserves_steady. intros w. apply banners_update_element, Hid. Qed.

Lemma preserves_classList_add (r : nat) (c : string) : preserves R (classList_add r c).
Proof. apply preserves_update_element. reflexivity. Qed.

Lemma preserves_classList_remove (r : nat) (c : string) : preserves R (classList_remove r c).
Proof. apply preserves_update_element. reflexivity. Qed.

Lemma preserves_addClickListener (r : nat) (b : string) (h : Handler) :
  preserves R (addClickListener r b h).
Proof. apply preserves_update_element. reflexivity. Qed.

Lemma preserves_localStorage_setItem (k v : string) : preserves R (localStorage_setItem k v).
Proof. intros w. apply R_refl. Qed.

Lemma preserves_localStorage_removeItem (k : string) : preserves R (localStorage_removeItem k).
Proof. intros w. apply R_refl. Qed.

Lemma preserves_setTimeout (c : Callback) (ms : Z) : preserves R (setTimeout c ms).
Proof. intros w. apply R_refl. Qed.

Lemma preserves_requestAnimationFrame (c : Callback) : preserves R (requestAnimationFrame c).
Proof. intros w. apply R_refl. Qed.

Lemma preserves_window_addEventListener (l : Listener) : preserves R (window_addEventListener l).
Proof. intros w. apply R_refl. Qed.

Lemma preserves_set_deferredPrompt (e : option InstallEvent) :
  preserves R (modify (set_deferredPrompt e)).
Proof. intros w. apply R_refl. Qed.

Lemma preserves_await (e : InstallEvent) :
  preserves R (modify (fun w => set_tasks (tasks w ++ [AwaitUserChoice e]) w)).
Proof. intros w. apply R_refl. Qed.

Lemma preserves_createElement : preserves R createElement.
Proof. intros w. apply R_refl. Qed.

End Preservation.

Create HintDb banner.
#[local] Hint Resolve preserves_ret preserves_throw preserves_gets preserves_emit
  preserves_classList_add preserves_classList_remove preserves_addClickListener
  preserves_localStorage_setItem preserves_localStorage_removeItem
  preserves_setTimeout preserves_requestAnimationFrame
  preserves_window_addEventListener preserves_set_deferredPrompt preserves_await
  preserves_createElement : banner.

(** Walks down a function body made of binds, conditionals and matches. *)
Ltac preserves_step :=
  match goal with
  | |- preserves _ (bind _ _) => apply preserves_bind; [assumption | | intros ?]
  | |- preserves _ (if ?b then _ else _) => destruct b
  | |- preserves _ (match ?x with Some _ => _ | None => _ end) => destruct x
  | |- preserves _ _ => solve [auto with banner]
  end.

Ltac preserves_body := repeat preserves_step.

Section ScriptsPreserve.

Variable R : nat -> nat -> Prop.
Hypothesis R_refl : forall n, R n n.
Hypothesis R_trans : forall a b c, R a b -> R b c -> R a c.

Lemma preserves_reads :
  (forall i, preserves R (getElementById i))
  /\ (forall i, preserves R (getButtonById i))
  /\ (forall k, preserves R (localStorage_getItem k))
  /\ preserves R Date_now
  /\ (forall s, preserves R (console_log s))
  /\ (forall s, preserves R (alert s)).
Proof. repeat split; intros; intros w; apply R_refl. Qed.

Lemma preserves_prompt (e : InstallEvent) : preserves R (prompt e).
Proof. unfold prompt. preserves_body. Qed.

Ltac unfold_reads :=
  unfold getElementById, getButtonById, localStorage_getItem, Date_now,
    console_log, alert,
    InstallPrompt.isAppInstalled, InstallPrompt.isIOS, InstallPrompt.isMobileDevice,
    InstallPromptLater.isAppInstalled, InstallPromptLater.isIOS,
    InstallPromptLater.isMobileDevice, InstallPromptLater.isSafari.

Lemma preserves_isInstallDismissed :
  preserves R InstallPrompt.isInstallDismissed
  /\ preserves R InstallPromptLater.isInstallDismissed.
Proof.
  split;
    [unfold InstallPrompt.isInstallDismissed | unfold InstallPromptLater.isInstallDismissed];
    unfold_reads; preserves_body.
Qed.

Lemma preserves_hideInstallBanner :
  preserves R InstallPrompt.hideInstallBanner
  /\ preserves R InstallPromptLater.hideInstallBanner.
Proof.
  split;
    [unfold InstallPrompt.hideInstallBanner | unfold InstallPromptLater.hideInstallBanner];
    unfold_reads; preserves_body.
Qed.

Lemma preserves_dismissInstallPrompt :
  preserves R InstallPrompt.dismissInstallPrompt
  /\ preserves R InstallPromptLater.dismissInstallPrompt.
Proof.
  destruct preserves_hideInstallBanner as [Hfirst Hlater].
  split;
    [unfold InstallPrompt.dismissInstallPrompt | unfold InstallPromptLater.dismissInstallPrompt];
    unfold_reads; preserves_body.
Qed.

Lemma preserves_triggerInstall :
  preserves R InstallPrompt.triggerInstall
  /\ preserves R InstallPromptLater.triggerInstall.
Proof.
  pose proof preserves_prompt as Hprompt.
  split;
    [unfold InstallPrompt.triggerInstall | unfold InstallPromptLater.triggerInstall];
    unfold_reads; preserves_body.
Qed.

Lemma preserves_triggerInstall_resumed (outcome : string) :
  preserves R (InstallPrompt.triggerInstall_resumed outcome)
  /\ preserves R (InstallPromptLater.triggerInstall_resumed outcome).
Proof.
  destruct preserves_hideInstallBanner as [Hfirst Hlater].
  split;
    [unfold InstallPrompt.triggerInstall_resumed
    | unfold InstallPromptLater.triggerInstall_resumed];
    unfold_reads; preserves_body.
Qed.

Lemma preserves_on_appinstalled :
  preserves R InstallPrompt.on_appinstalled
  /\ preserves R InstallPromptLater.on_appinstalled.
Proof.
  destruct preserves_hideInstallBanner as [Hfirst Hlater].
  split;
    [unfold InstallPrompt.on_appinstalled | unfold InstallPromptLater.on_appinstalled];
    unfold_reads; preserves_body.
Qed.

Lemma preserves_initInstallPrompt :
  preserves R InstallPrompt.initInstallPrompt
  /\ preserves R InstallPromptLater.initInstallPrompt.
Proof.
  destruct preserves_isInstallDismissed as [Hfirst Hlater].
  split;
    [unfold InstallPrompt.initInstallPrompt | unfold InstallPromptLater.initInstallPrompt];
    unfold_reads; preserves_body.
Qed.

End ScriptsPreserve.

Lemma final_bind {S A B} (m : M S A) (k : A -> M S B) (s : S) :
  final (bind m k) s
  = match m s with
    | (Return a, s') => final (k a) s'
    | (Throw _, s') => s'
    end.
Proof. unfold final, bind. destruct (m s) as [[a | e] s']; reflexivity. Qed.

Section ShowPreserves.

Variable R : nat -> nat -> Prop.
Hypothesis R_refl : forall n, R n n.
Hypothesis R_trans : forall a b c, R a b -> R b c -> R a c.

(** The banner goes in where there was none; what follows only touches
    listeners, classes and timers. *)
Lemma append_then (banner : Element) (tail : M World unit) (w0 w : World) :
  document w0 = document w ->
  id banner = "install-banner" ->
  find (has_id "install-banner") (document w) = None ->
  preserves R tail ->
  R 1%nat (banners (final tail (set_document (document w0 ++ [banner]) w0))).
Proof.
  intros Hsame Hid Hnone Htail.
  eapply R_trans; [| apply Htail].
  unfold banners. cbn [document set_document]. rewrite Hsame.
  rewrite List.filter_app, length_app, (find_none_no_banner _ _ Hnone).
  simpl. unfold has_id. rewrite Hid. simpl. apply R_refl.
Qed.

Lemma showInstallBanner_adds (w : World) :
  find (has_id "install-banner") (document w) = None ->
  R 1%nat (banners (final InstallPrompt.showInstallBanner w))
  /\ R 1%nat (banners (final InstallPromptLater.showInstallBanner w)).
Proof.
  intros Hfind. split.
  - unfold InstallPrompt.showInstallBanner.
    rewrite final_bind. cbn [getElementById gets]. rewrite Hfind. cbn [non_null].
    rewrite final_bind. cbn [createElement bind gets modify ret].
    rewrite final_bind. cbn [InstallPrompt.isIOS gets].
    rewrite final_bind. cbn [body_appendChild modify].
    apply (append_then _ _ _ w); [reflexivity | reflexivity | exact Hfind |].
    unfold getButtonById. preserves_body.
  - unfold InstallPromptLater.showInstallBanner.
    rewrite final_bind. cbn [getElementById gets]. rewrite Hfind. cbn [non_null].
    rewrite final_bind. cbn [console_log emit modify].
    rewrite final_bind. cbn [createElement bind gets modify ret].
    rewrite final_bind. cbn [InstallPromptLater.isIOS gets].
    rewrite final_bind. cbn [InstallPromptLater.isSafari gets].
    rewrite final_bind. cbn [gets].
    rewrite final_bind. cbn [body_appendChild modify].
    apply (append_then _ _ _ w); [reflexivity | reflexivity | exact Hfind |].
    unfold getButtonById. preserves_body.
Qed.

Lemma showInstallBanner_present (w : World) :
  (0 < banners w)%nat ->
  InstallPrompt.showInstallBanner w = (Return tt, w)
  /\ InstallPromptLater.showInstallBanner w = (Return tt, w).
Proof.
  intros Hpresent.
  unfold InstallPrompt.showInstallBanner, InstallPromptLater.showInstallBanner,
    bind, getElementById, gets.
  destruct (find (has_id "install-banner") (document w)) eqn:Hfind.
  - split; reflexivity.
  - unfold banners in Hpresent. rewrite (find_none_no_banner _ _ Hfind) in Hpresent.
    simpl in Hpresent. lia.
Qed.

Hypothesis R_first : R 0%nat 1%nat.

Lemma preserves_showInstallBanner :
  preserves R InstallPrompt.showInstallBanner
  /\ preserves R InstallPromptLater.showInstallBanner.
Proof.
  split; intros w;
    destruct (find (has_id "install-banner") (document w)) eqn:Hfind.
  - destruct (showInstallBanner_present w (find_some_banner _ _ _ Hfind)) as [Hnoop _].
    unfold final. rewrite Hnoop. apply R_refl.
  - unfold banners at 1. rewrite (find_none_no_banner _ _ Hfind).
    eapply R_trans; [exact R_first | apply (showInstallBanner_adds w Hfind)].
  - destruct (showInstallBanner_present w (find_some_banner _ _ _ Hfind)) as [_ Hnoop].
    unfold final. rewrite Hnoop. apply R_refl.
  - unfold banners at 1. rewrite (find_none_no_banner _ _ Hfind).
    eapply R_trans; [exact R_first | apply (showInstallBanner_adds w Hfind)].
Qed.

Lemma preserves_on_beforeinstallprompt (e : InstallEvent) :
  preserves R (InstallPrompt.on_beforeinstallprompt e)
  /\ preserves R (InstallPromptLater.on_beforeinstallprompt e).
Proof.
  destruct preserves_showInstallBanner as [Hfirst Hlater].
  split;
    [unfold InstallPrompt.on_beforeinstallprompt
    | unfold InstallPromptLater.on_beforeinstallprompt];
    unfold console_log; preserves_body.
Qed.

Lemma preserves_fallback :
  preserves R InstallPrompt.fallback /\ preserves R InstallPromptLater.fallback.
Proof.
  destruct preserves_showInstallBanner as [Hshow Hshow'].
  destruct (preserves_isInstallDismissed R R_refl R_trans) as [Hdismissed Hdismissed'].
  split; [unfold InstallPrompt.fallback | unfold InstallPromptLater.fallback];
    unfold InstallPrompt.isAppInstalled, InstallPromptLater.isAppInstalled,
      getElementById, console_log;
    preserves_body.
Qed.

(** Every function of either revision changes the number of banners only
    along [R]. *)
Lemma scripts_behave :
  behaves R InstallPrompt.script /\ behaves R InstallPromptLater.script.
Proof.
  split; constructor.
  - exact (proj1 (preserves_isInstallDismissed R R_refl R_trans)).
  - exact (proj1 (preserves_dismissInstallPrompt R R_refl R_trans)).
  - exact (proj1 preserves_showInstallBanner).
  - exact (proj1 (preserves_hideInstallBanner R R_refl R_trans)).
  - exact (proj1 (preserves_triggerInstall R R_refl R_trans)).
  - exact (fun outcome => proj1 (preserves_triggerInstall_resumed R R_refl R_trans outcome)).
  - exact (proj1 (preserves_initInstallPrompt R R_refl R_trans)).
  - exact (fun e => proj1 (preserves_on_beforeinstallprompt e)).
  - exact (proj1 (preserves_on_appinstalled R R_refl R_trans)).
  - exact (proj1 preserves_fallback).
  - exact (proj2 (preserves_isInstallDismissed R R_refl R_trans)).
  - exact (proj2 (preserves_dismissInstallPrompt R R_refl R_trans)).
  - exact (proj2 preserves_showInstallBanner).
  - exact (proj2 (preserves_hideInstallBanner R R_refl R_trans)).
  - exact (proj2 (preserves_triggerInstall R R_refl R_trans)).
  - exact (fun outcome => proj2 (preserves_triggerInstall_resumed R R_refl R_trans outcome)).
  - exact (proj2 (preserves_initInstallPrompt R R_refl R_trans)).
  - exact (fun e => proj2 (preserves_on_beforeinstallprompt e)).
  - exact (proj2 (preserves_on_appinstalled R R_refl R_trans)).
  - exact (proj2 preserves_fallback).
Qed.

End ShowPreserves.

Section EventLoopPreserves.

Variable R : nat -> nat -> Prop.
Hypothesis R_refl : forall n, R n n.
Hypothesis R_trans : forall a b c, R a b -> R b c -> R a c.

Variable script : Script.
Hypothesis script_behaves : behaves R script.

Lemma run_all_preserves (ms : list (M World unit)) :
  Forall (preserves R) ms ->
  forall w, R (banners w) (banners (run_all ms w)).
Proof.
  induction 1 as [| m ms Hm _ IH]; intros w; simpl.
  - apply R_refl.
  - eapply R_trans; [apply Hm | apply IH].
Qed.

Lemma run_handler_preserves (h : Handler) : preserves R (run_handler script h).
Proof. destruct h; simpl; apply script_behaves. Qed.

Lemma run_listener_preserves (event : Listener) (e : InstallEvent) (l : Listener) :
  preserves R (run_listener script event e l).
Proof.
  destruct event, l; simpl; try apply script_behaves; apply preserves_ret, R_refl.
Qed.

Lemma dispatch_preserves (event : Listener) (e : InstallEvent) (w : World) :
  R (banners w) (banners (dispatch script event e w)).
Proof.
  unfold dispatch. apply run_all_preserves.
  apply List.Forall_forall. intros m Hin. apply in_map_iff in Hin.
  destruct Hin as [l [<- _]]. apply run_listener_preserves.
Qed.

Lemma click_preserves (button : string) (w : World) :
  R (banners w) (banners (click script button w)).
Proof.
  unfold click. destruct (find _ _); [| apply R_refl].
  apply run_all_preserves.
  apply List.Forall_forall. intros m Hin. apply in_map_iff in Hin.
  destruct Hin as [l [<- _]]. apply run_handler_preserves.
Qed.

Lemma settle_preserves (i : nat) (outcome : string) (w : World) :
  R (banners w) (banners (settle script i outcome w)).
Proof.
  unfold settle. destruct (tasks w !! i) as [[ | | e] |]; try apply R_refl.
  apply (behaves_triggerInstall_resumed R script script_behaves outcome (without_task i w)).
Qed.

Lemma run_callback_preserves (callback : Callback) :
  (forall banner, callback <> RemoveBanner banner) ->
  preserves R (run_callback script callback).
Proof.
  intros Hkeep. destruct callback as [banner | banner |]; simpl.
  - apply preserves_classList_add, R_refl.
  - contradiction (Hkeep banner). reflexivity.
  - apply script_behaves.
Qed.

(** A step that is not a removal changes the number of banners along [R]. *)
Lemma perform_preserves (a : Action) (w : World) :
  removal a w = false ->
  R (banners w) (banners (perform script a w)).
Proof.
  intros Hkeep. destruct a; simpl; try apply script_behaves.
  - apply dispatch_preserves.
  - apply dispatch_preserves.
  - apply click_preserves.
  - unfold fire. simpl in Hkeep.
    destruct (tasks w !! i) as [[callback ms | callback | e] |]; try apply R_refl;
      apply (run_callback_preserves callback) with (w := without_task i w);
      intros banner ->; discriminate.
  - apply settle_preserves.
  - apply R_refl.
Qed.

End EventLoopPreserves.

(** A removal can only take banners away. *)
Lemma perform_removal (script : Script) (a : Action) (w : World) :
  removal a w = true ->
  (banners (perform script a w) <= banners w)%nat.
Proof.
  intros Hremoval. destruct a; try discriminate. simpl in *. unfold fire.
  destruct (tasks w !! i) as [[[banner | banner |] ms | [banner | banner |] | e] |];
    try discriminate; apply filter_remove_le.
Qed.

Section Singleton.

Variable script : Script.
Hypothesis script_grows : behaves le script.
Hypothesis script_safe : behaves (fun n n' => (n <= 1 -> n' <= 1)%nat) script.
Hypothesis show_present :
  forall w, (0 < banners w)%nat -> script_showInstallBanner script w = (Return tt, w).
Hypothesis show_adds :
  forall w, (1 <= banners (final (script_showInstallBanner script) w))%nat.

Lemma perform_at_most_one (a : Action) (w : World) :
  at_most_one_banner w -> at_most_one_banner (perform script a w).
Proof.
  unfold at_most_one_banner. intros Hinv.
  destruct (removal a w) eqn:Hremoval.
  - pose proof (perform_removal script a w Hremoval). lia.
  - apply (perform_preserves (fun n n' => (n <= 1 -> n' <= 1)%nat)); auto.
Qed.

Lemma run_without_removal (actions : list Action) (w : World) :
  no_removal script actions w = true ->
  (banners w <= banners (run script actions w))%nat.
Proof.
  revert w. induction actions as [| a actions IH]; intros w Hkeep; simpl in *.
  - lia.
  - apply andb_prop in Hkeep. destruct Hkeep as [Ha Hrest].
    apply negb_true_iff in Ha.
    pose proof (perform_preserves le Nat.le_refl Nat.le_trans script script_grows a w Ha).
    specialize (IH _ Hrest). lia.
Qed.

Lemma run_at_most_one (actions : list Action) (w : World) :
  at_most_one_banner w -> at_most_one_banner (run script actions w).
Proof.
  revert w. induction actions as [| a actions IH]; intros w Hinv; simpl.
  - exact Hinv.
  - apply IH, perform_at_most_one, Hinv.
Qed.

Lemma show_exactly_one (w : World) :
  at_most_one_banner w ->
  banners (final (script_showInstallBanner script) w) = 1%nat.
Proof.
  intros Hinv. pose proof (show_adds w).
  pose proof (perform_at_most_one Call_showInstallBanner w Hinv) as Hone.
  unfold at_most_one_banner in Hone. simpl in Hone. lia.
Qed.

Lemma singleton_banner_holds (w : World) :
  at_most_one_banner w -> singleton_banner script w.
Proof.
  intros Hinv. unfold singleton_banner.
  pose proof (show_exactly_one w Hinv) as Hone.
  split; [apply show_present |].
  split.
  { unfold final at 1. rewrite show_present; [exact Hone | lia]. }
  split.
  { induction n as [| n IH]; [exact Hone |].
    change (Nat.iter (S (S n)) (final (script_showInstallBanner script)) w)
      with (final (script_showInstallBanner script)
              (Nat.iter (S n) (final (script_showInstallBanner script)) w)).
    unfold final at 1. rewrite show_present; [exact IH | lia]. }
  split.
  { intros actions Hkeep. simpl.
    pose proof (run_without_removal actions _ Hkeep) as Hgrows.
    assert (Hmost : at_most_one_banner
                      (run script actions (final (script_showInstallBanner script) w))).
    { apply run_at_most_one. unfold at_most_one_banner. lia. }
    unfold at_most_one_banner in Hmost. lia. }
  intros a. apply perform_at_most_one, Hinv.
Qed.

End Singleton.

Lemma safe_refl (n : nat) : (n <= 1 -> n <= 1)%nat.
Proof. auto. Qed.

Lemma safe_trans (a b c : nat) :
  (a <= 1 -> b <= 1)%nat -> (b <= 1 -> c <= 1)%nat -> (a <= 1 -> c <= 1)%nat.
Proof. auto. Qed.

Lemma showInstallBanner_at_least_one (w : World) :
  (1 <= banners (final InstallPrompt.showInstallBanner w))%nat
  /\ (1 <= banners (final InstallPromptLater.showInstallBanner w))%nat.
Proof.
  destruct (find (has_id "install-banner") (document w)) eqn:Hfind.
  - pose proof (find_some_banner _ _ _ Hfind) as Hpresent.
    destruct (showInstallBanner_present w Hpresent) as [Hfirst Hlater].
    unfold final. rewrite Hfirst, Hlater. cbn [snd]. unfold banners. lia.
  - apply (showInstallBanner_adds le Nat.le_refl Nat.le_trans w Hfind).
Qed.

(** C7: [showInstallBanner] does nothing when a node with the id
    [install-banner] is in the document; from a document with at most one
    banner, calling it twice, or any number of times, or calling it and then
    running any actions none of which is a pending removal coming due,
    leaves exactly one banner; and every operation of the page keeps the
    document at no more than one banner.  In both revisions. *)
Theorem showInstallBanner_singleton (w : World) :
  at_most_one_banner w ->
  singleton_banner InstallPrompt.script w
  /\ singleton_banner InstallPromptLater.script w.
Proof.
  intros Hinv.
  destruct (scripts_behave le Nat.le_refl Nat.le_trans (Nat.le_succ_diag_r 0))
    as [Hgrows Hgrows'].
  destruct (scripts_behave (fun n n' => (n <= 1 -> n' <= 1)%nat) safe_refl safe_trans
              (fun _ => Nat.le_refl 1))
    as [Hsafe Hsafe'].
  split; apply singleton_banner_holds; try assumption; simpl; intros w'.
  - apply showInstallBanner_present.
  - apply showInstallBanner_at_least_one.
  - apply showInstallBanner_present.
  - apply showInstallBanner_at_least_one.
Qed.

Lemma showInstallBanner_singleton_witness :
  singleton_banner InstallPrompt.script fresh_page
  /\ singleton_banner InstallPromptLater.script fresh_page.
Proof.
  apply (showInstallBanner_singleton fresh_page).
  unfold at_most_one_banner. vm_compute. lia.
Defined.


(** ** Hiding the banner *)

Lemma find_has_id (i : string) (d : list Element) (el : Element) :
  find (has_id i) d = Some el -> has_id i el = true.
Proof. intros Hfind. apply find_some in Hfind. apply Hfind. Qed.

(** With a single banner, detaching the one [getElementById] finds leaves
    none. *)
Lemma remove_only_banner (d : list Element) (banner : Element) :
  find (has_id "install-banner") d = Some banner ->
  length (List.filter (has_id "install-banner") d) = 1%nat ->
  List.filter (has_id "install-banner")
    (List.filter (fun el => negb (Nat.eqb (ref el) (ref banner))) d) = [].
Proof.
  induction d as [| el d IH]; [discriminate |].
  simpl. destruct (has_id "install-banner" el) eqn:Hid.
  - intros [= ->] Hone. rewrite Nat.eqb_refl. simpl.
    simpl in Hone. injection Hone as Hnone.
    apply length_zero_iff_nil.
    pose proof (filter_remove_le "install-banner" (ref banner) d). lia.
  - intros Hfind Hone. destruct (negb (ref el =? ref banner)%nat); simpl.
    + rewrite Hid. apply IH; assumption.
    + apply IH; assumption.
Qed.

Lemma map_id_update (r : nat) (f : Element -> Element) (d : list Element) :
  (forall el, id (f el) = id el) ->
  map id (map (fun el => if Nat.eqb (ref el) r then f el else el) d) = map id d.
Proof.
  intros Hid. rewrite map_map. apply map_ext. intros el.
  destruct (Nat.eqb (ref el) r); [apply Hid | reflexivity].
Qed.

(** What [hideInstallBanner] does when [getElementById] finds [banner]. *)
Lemma hideInstallBanner_run (w : World) (banner : Element) :
  find (has_id "install-banner") (document w) = Some banner ->
  let hidden :=
    set_tasks (tasks w ++ [Timeout (RemoveBanner (ref banner)) 300])
      (set_document
         (map (fun el =>
                 if Nat.eqb (ref el) (ref banner)
                 then with_classList
                        (List.filter (fun x => negb (String.eqb "install-banner--visible" x)))
                        el
                 else el)
            (document w)) w) in
  InstallPrompt.hideInstallBanner w = (Return tt, hidden)
  /\ InstallPromptLater.hideInstallBanner w = (Return tt, hidden).
Proof.
  intros Hfind hidden.
  unfold InstallPrompt.hideInstallBanner, InstallPromptLater.hideInstallBanner,
    bind, getElementById, gets.
  rewrite Hfind. split; reflexivity.
Qed.

Lemma not_visible_after_filter (el : Element) :
  visible_banner
    (with_classList (List.filter (fun x => negb (String.eqb "install-banner--visible" x))) el)
  = false.
Proof.
  unfold visible_banner. apply andb_false_iff. right. cbn [classList with_classList].
  induction (classList el) as [| c l IH]; [reflexivity |].
  cbn [List.filter]. destruct (String.eqb "install-banner--visible" c) eqn:Hc;
    cbn [negb existsb].
  - exact IH.
  - rewrite Hc. exact IH.
Qed.

Lemma find_none_intro {A} (f : A -> bool) (l : list A) :
  (forall x, In x l -> f x = false) -> find f l = None.
Proof.
  induction l as [| a l IH]; intros Hall; [reflexivity |].
  simpl. rewrite (Hall a) by (left; reflexivity).
  apply IH. intros x Hin. apply Hall. right. exact Hin.
Qed.

(** After the class is taken from the one banner, none is visible. *)
Lemma no_visible_banner (d : list Element) (banner : Element) :
  find (has_id "install-banner") d = Some banner ->
  length (List.filter (has_id "install-banner") d) = 1%nat ->
  find visible_banner
    (map (fun el =>
            if Nat.eqb (ref el) (ref banner)
            then with_classList
                   (List.filter (fun x => negb (String.eqb "install-banner--visible" x))) el
            else el) d) = None.
Proof.
  intros Hfind Hone. apply find_none_intro. intros x Hin.
  apply in_map_iff in Hin. destruct Hin as [y [<- Hy]].
  destruct (Nat.eqb (ref y) (ref banner)) eqn:Href; [apply not_visible_after_filter |].
  unfold visible_banner. apply andb_false_iff. left.
  destruct (has_id "install-banner" y) eqn:Hid; [exfalso | reflexivity].
  revert Hfind Hone Hy. clear - Href Hid. induction d as [| el d IH]; [contradiction |].
  simpl. destruct (has_id "install-banner" el) eqn:Hel.
  - intros [= ->] Hone [-> | Hin].
    + rewrite Nat.eqb_refl in Href. discriminate.
    + simpl in Hone. injection Hone as Hnone. apply length_zero_iff_nil in Hnone.
      assert (Hy : In y (List.filter (has_id "install-banner") d))
        by (apply filter_In; auto).
      rewrite Hnone in Hy. contradiction.
  - intros Hfind Hone [-> | Hin]; [congruence | apply IH; assumption].
Qed.

Section Hiding.

Variable script : Script.
Variable w : World.
Variable banner : Element.
Hypothesis one_banner : at_most_one_banner w.
Hypothesis found : find (has_id "install-banner") (document w) = Some banner.
Hypothesis hide_run :
  script_hideInstallBanner script w
  = (Return tt,
     set_tasks (tasks w ++ [Timeout (RemoveBanner (ref banner)) 300])
       (set_document
          (map (fun el =>
                  if Nat.eqb (ref el) (ref banner)
                  then with_classList
                         (List.filter
                            (fun x => negb (String.eqb "install-banner--visible" x)))
                         el
                  else el)
             (document w)) w)).

Lemma exactly_one_banner :
  length (List.filter (has_id "install-banner") (document w)) = 1%nat.
Proof.
  pose proof (find_some_banner _ _ _ found). unfold at_most_one_banner, banners in one_banner.
  lia.
Qed.

Lemma hides_then_removes_holds : hides_then_removes script w banner.
Proof.
  unfold hides_then_removes, result, final. rewrite hide_run.
  cbn [fst snd tasks document set_tasks set_document].
  split; [reflexivity |]. split; [reflexivity |].
  split; [apply map_id_update; reflexivity |].
  split; [apply no_visible_banner; [exact found | exact exactly_one_banner] |].
  cbn [perform]. unfold fire. cbn [tasks set_tasks].
  rewrite list_lookup_middle by reflexivity.
  unfold banners, final, run_callback, Browser.remove, modify, without_task.
  cbn [snd document set_document set_tasks tasks].
  apply length_zero_iff_nil.
  pose proof (remove_only_banner (document w) banner found exactly_one_banner) as Hgone.
  apply length_zero_iff_nil in Hgone. apply length_zero_iff_nil.
  pose proof (filter_has_id_map "install-banner"
                (fun el =>
                   if Nat.eqb (ref el) (ref banner)
                   then with_classList
                          (List.filter
                             (fun x => negb (String.eqb "install-banner--visible" x))) el
                   else el)) as Hmap.
  clear hide_run. revert Hgone. generalize (document w) as d.
  induction d as [| el d IH]; [reflexivity |].
  cbn [map List.filter].
  assert (Href : forall f : Element -> Element,
             (forall x, ref (f x) = ref x) ->
             ref (if Nat.eqb (ref el) (ref banner) then f el else el) = ref el).
  { intros f Hf. destruct (Nat.eqb (ref el) (ref banner)); [apply Hf | reflexivity]. }
  rewrite Href by reflexivity.
  destruct (negb (Nat.eqb (ref el) (ref banner))) eqn:Hkeep; cbn [List.filter].
  - apply negb_true_iff in Hkeep. rewrite Hkeep.
    destruct (has_id "install-banner" el); cbn [length]; [discriminate | apply IH].
  - apply IH.
Qed.

End Hiding.

Lemma hideInstallBanner_hides (w : World) (banner : Element) :
  at_most_one_banner w ->
  find (has_id "install-banner") (document w) = Some banner ->
  hides_then_removes InstallPrompt.script w banner
  /\ hides_then_removes InstallPromptLater.script w banner.
Proof.
  intros Hone Hfound.
  destruct (hideInstallBanner_run w banner Hfound) as [Hfirst Hlater].
  split; apply hides_then_removes_holds; assumption.
Qed.


(** What a scheduled [banner.remove()] does when it comes due. *)
Lemma fire_removal (script : Script) (w : World) (i r : nat) (ms : Z) :
  tasks w !! i = Some (Timeout (RemoveBanner r) ms) ->
  document (fire script i w)
  = List.filter (fun el => negb (Nat.eqb (ref el) r)) (document w).
Proof. intros Hdue. unfold fire. rewrite Hdue. reflexivity. Qed.

Lemma hideInstallBanner_absent (w : World) :
  find (has_id "install-banner") (document w) = None ->
  InstallPrompt.hideInstallBanner w = (Return tt, w)
  /\ InstallPromptLater.hideInstallBanner w = (Return tt, w).
Proof.
  intros Hnone.
  unfold InstallPrompt.hideInstallBanner, InstallPromptLater.hideInstallBanner,
    bind, getElementById, gets.
  rewrite Hnone. split; reflexivity.
Qed.

Lemma hideInstallBanner_banner_hidden (w : World) :
  banner_hidden InstallPrompt.script w (final InstallPrompt.hideInstallBanner w)
  /\ banner_hidden InstallPromptLater.script w (final InstallPromptLater.hideInstallBanner w).
Proof.
  unfold banner_hidden.
  destruct (find (has_id "install-banner") (document w)) as [banner |] eqn:Hfound.
  - destruct (hideInstallBanner_run w banner Hfound) as [Hfirst Hlater].
    split.
    + pose proof (f_equal snd Hfirst) as Hfinal. cbn [snd] in Hfinal.
      change (snd (InstallPrompt.hideInstallBanner w))
        with (final InstallPrompt.hideInstallBanner w) in Hfinal.
      rewrite Hfinal.
      split; [reflexivity |]. split; [reflexivity |]. intros Hone.
      destruct (hideInstallBanner_hides w banner Hone Hfound)
        as [[_ [_ [_ [Hvisible Hgone]]]] _].
      cbn [script_hideInstallBanner InstallPrompt.script] in Hvisible, Hgone.
      rewrite Hfinal in Hvisible, Hgone. split; [exact Hvisible | exact Hgone].
    + pose proof (f_equal snd Hlater) as Hfinal. cbn [snd] in Hfinal.
      change (snd (InstallPromptLater.hideInstallBanner w))
        with (final InstallPromptLater.hideInstallBanner w) in Hfinal.
      rewrite Hfinal.
      split; [reflexivity |]. split; [reflexivity |]. intros Hone.
      destruct (hideInstallBanner_hides w banner Hone Hfound)
        as [_ [_ [_ [_ [Hvisible Hgone]]]]].
      cbn [script_hideInstallBanner InstallPromptLater.script] in Hvisible, Hgone.
      rewrite Hfinal in Hvisible, Hgone. split; [exact Hvisible | exact Hgone].
  - destruct (hideInstallBanner_absent w Hfound) as [Hfirst Hlater].
    unfold final. rewrite Hfirst, Hlater. repeat split.
Qed.

(** A log or an alert more does not show on the document. *)
Lemma banner_hidden_effects (script : Script) (w after : World) (l : list Effect) :
  banner_hidden script w after -> banner_hidden script w (set_effects l after).
Proof.
  unfold banner_hidden.
  destruct (find (has_id "install-banner") (document w)) as [banner |]; [| exact (fun H => H)].
  intros [Hdocument [Htasks Hone]].
  split; [exact Hdocument |]. split; [exact Htasks |].
  intros Hsingle. destruct (Hone Hsingle) as [Hvisible Hgone].
  split; [exact Hvisible |].
  cbn [perform] in *. unfold banners in *.
  rewrite (fire_removal script after (length (tasks w)) (ref banner) 300) in Hgone
    by (rewrite Htasks; apply list_lookup_middle; reflexivity).
  rewrite (fire_removal script (set_effects l after) (length (tasks w)) (ref banner) 300)
    by (cbn [tasks set_effects]; rewrite Htasks; apply list_lookup_middle; reflexivity).
  exact Hgone.
Qed.
(** ** The deferred install handle *)

Lemma hideInstallBanner_frame (w : World) :
  (result InstallPrompt.hideInstallBanner w = Return tt
   /\ effects (final InstallPrompt.hideInstallBanner w) = effects w
   /\ deferredPrompt (final InstallPrompt.hideInstallBanner w) = deferredPrompt w
   /\ platform (final InstallPrompt.hideInstallBanner w) = platform w
   /\ localStorage (final InstallPrompt.hideInstallBanner w) = localStorage w
   /\ listeners (final InstallPrompt.hideInstallBanner w) = listeners w
   /\ next_ref (final InstallPrompt.hideInstallBanner w) = next_ref w)
  /\ (result InstallPromptLater.hideInstallBanner w = Return tt
      /\ effects (final InstallPromptLater.hideInstallBanner w) = effects w
      /\ deferredPrompt (final InstallPromptLater.hideInstallBanner w) = deferredPrompt w
      /\ platform (final InstallPromptLater.hideInstallBanner w) = platform w
      /\ localStorage (final InstallPromptLater.hideInstallBanner w) = localStorage w
      /\ listeners (final InstallPromptLater.hideInstallBanner w) = listeners w
      /\ next_ref (final InstallPromptLater.hideInstallBanner w) = next_ref w).
Proof.
  unfold InstallPrompt.hideInstallBanner, InstallPromptLater.hideInstallBanner,
    result, final, bind, getElementById, gets.
  destruct (find (has_id "install-banner") (document w)); repeat split.
Qed.

Lemma without_last_task (w : World) (t : Task) :
  without_task (length (tasks w)) (set_tasks (tasks w ++ [t]) w) = set_tasks (tasks w) w.
Proof.
  unfold without_task. cbn [tasks set_tasks].
  rewrite take_app_length, drop_app_ge by lia.
  replace (S (length (tasks w)) - length (tasks w))%nat with 1%nat by lia.
  simpl. rewrite app_nil_r. reflexivity.
Qed.

Lemma set_tasks_same (w : World) : set_tasks (tasks w) w = w.
Proof. destruct w; reflexivity. Qed.

Section Consumed.

Variable script : Script.
Variable fallback_effects : list Effect.
Variable w : World.
Variable e : InstallEvent.

Hypothesis trigger_held :
  script_triggerInstall script w
  = (Return tt,
     set_tasks (tasks w ++ [AwaitUserChoice e]) (set_effects (effects w ++ [Prompt e]) w)).
Hypothesis resumed_run :
  forall outcome w',
    script_triggerInstall_resumed script outcome w'
    = script_hideInstallBanner script
        (set_deferredPrompt None
           (set_effects
              (effects w' ++ [ConsoleLog ("[InstallPrompt] User response: " ++ outcome)]) w')).
Hypothesis hide_frame :
  forall w',
    result (script_hideInstallBanner script) w' = Return tt
    /\ effects (final (script_hideInstallBanner script) w') = effects w'
    /\ deferredPrompt (final (script_hideInstallBanner script) w') = deferredPrompt w'
    /\ platform (final (script_hideInstallBanner script) w') = platform w'
    /\ localStorage (final (script_hideInstallBanner script) w') = localStorage w'
    /\ listeners (final (script_hideInstallBanner script) w') = listeners w'
    /\ next_ref (final (script_hideInstallBanner script) w') = next_ref w'.
Hypothesis hide_hidden :
  forall w', banner_hidden script w' (final (script_hideInstallBanner script) w').
Hypothesis trigger_empty :
  forall w',
    deferredPrompt w' = None ->
    script_triggerInstall script w'
    = (Return tt, set_effects (effects w' ++ fallback_effects) w').

Lemma resumed_final (outcome : string) (w' : World) :
  result (script_triggerInstall_resumed script outcome) w' = Return tt
  /\ final (script_triggerInstall_resumed script outcome) w'
     = final (script_hideInstallBanner script) (logged outcome w').
Proof.
  unfold result, final. rewrite resumed_run.
  destruct (hide_frame (logged outcome w')) as [Hresult _].
  split; [exact Hresult | reflexivity].
Qed.

Lemma handle_consumed_holds : handle_consumed script fallback_effects w e.
Proof.
  unfold handle_consumed. split; [exact trigger_held |].
  split.
  { intros outcome w'. destruct (resumed_final outcome w') as [Hresult Hfinal].
    cbv zeta. rewrite Hfinal.
    destruct (hide_frame (logged outcome w'))
      as [_ [Heffects [Hheld [Hplatform [Hstorage [Hlisteners Hnext]]]]]].
    split; [exact Hresult |].
    split; [exact Heffects |].
    split; [exact Hheld |].
    split; [exact (hide_hidden (logged outcome w')) |].
    repeat split; assumption. }
  split; [exact trigger_empty |].
  intros outcome. unfold run. cbn [fold_left perform].
  set (prompted := set_effects (effects w ++ [Prompt e]) w).
  assert (Hwaiting : final (script_triggerInstall script) w
                     = set_tasks (tasks prompted ++ [AwaitUserChoice e]) prompted).
  { unfold final. rewrite trigger_held. reflexivity. }
  rewrite Hwaiting.
  assert (Hsettled : settle script (length (tasks w)) outcome
                       (set_tasks (tasks prompted ++ [AwaitUserChoice e]) prompted)
                     = final (script_triggerInstall_resumed script outcome) prompted).
  { unfold settle. cbn [tasks set_tasks].
    change (tasks prompted) with (tasks w) at 1.
    rewrite list_lookup_middle by reflexivity.
    change (length (tasks w)) with (length (tasks prompted)).
    rewrite without_last_task, set_tasks_same. reflexivity. }
  rewrite Hsettled.
  destruct (resumed_final outcome prompted) as [_ Hfinal]. rewrite Hfinal.
  destruct (hide_frame (logged outcome prompted)) as [_ [Heffects [Hheld _]]].
  unfold final at 1 3 5. rewrite (trigger_empty _ Hheld).
  cbn [snd deferredPrompt set_effects effects].
  split; [exact Hheld |].
  split.
  - rewrite Heffects. subst prompted. unfold logged.
    cbn [effects set_effects set_deferredPrompt].
    rewrite <- !app_assoc. reflexivity.
  - apply banner_hidden_effects. exact (hide_hidden (logged outcome prompted)).
Qed.

End Consumed.

(** C8, as stated, fails when [prompt()] throws: the handle 7 is held, the
    prompt is invoked, and [triggerInstall] ends with the exception there.
    Nothing is awaited or logged, the handle stays held, and the next call
    prompts the same handle again. *)
Lemma triggerInstall_prompt_refused_counterexample :
  deferredPrompt prompt_refused = Some 7%nat
  /\ ~ handle_consumed InstallPrompt.script
        [ConsoleLog "[InstallPrompt] No deferred prompt available"] prompt_refused 7%nat
  /\ ~ handle_consumed InstallPromptLater.script
        [ConsoleLog "[InstallPrompt] No deferred prompt available, showing manual instructions";
         Alert InstallPromptLater.MANUAL_INSTALL_MESSAGE] prompt_refused 7%nat
  /\ InstallPrompt.triggerInstall prompt_refused
     = (Throw (TypeError "InvalidStateError"),
        set_effects (effects prompt_refused ++ [Prompt 7%nat]) prompt_refused)
  /\ InstallPromptLater.triggerInstall prompt_refused
     = (Throw (TypeError "InvalidStateError"),
        set_effects (effects prompt_refused ++ [Prompt 7%nat]) prompt_refused)
  /\ effects (run InstallPrompt.script [Call_triggerInstall; Call_triggerInstall]
                prompt_refused)
     = (effects prompt_refused ++ [Prompt 7%nat; Prompt 7%nat])%list
  /\ effects (run InstallPromptLater.script [Call_triggerInstall; Call_triggerInstall]
                prompt_refused)
     = (effects prompt_refused ++ [Prompt 7%nat; Prompt 7%nat])%list.
Proof.
  split; [reflexivity |].
  split; [intros [Hheld _]; discriminate Hheld |].
  split; [intros [Hheld _]; discriminate Hheld |].
  repeat split.
Qed.

(** C8, amended: with the deferred handle [e] held and its [prompt()]
    returning, [triggerInstall] invokes the prompt and waits for the user
    choice; when resumed it logs the outcome, sets the handle to null and
    hides the banner: the banner that [getElementById] finds loses its
    visible class and its removal is scheduled after 300 ms, and nothing
    happens to a page without banner.  A call with no handle held takes the
    fallback path only (a log, and in the later revision an alert); so one
    completed [triggerInstall] followed by a second one prompts [e] exactly
    once.  In both revisions. *)
Theorem triggerInstall_consumes_handle (w : World) (e : InstallEvent) :
  deferredPrompt w = Some e ->
  prompt_throws (platform w) (effects w) e = None ->
  handle_consumed InstallPrompt.script
    [ConsoleLog "[InstallPrompt] No deferred prompt available"] w e
  /\ handle_consumed InstallPromptLater.script
       [ConsoleLog "[InstallPrompt] No deferred prompt available, showing manual instructions";
        Alert InstallPromptLater.MANUAL_INSTALL_MESSAGE] w e.
Proof.
  intros Hheld Hprompt.
  split; apply handle_consumed_holds; cbn [InstallPrompt.script InstallPromptLater.script
    script_triggerInstall script_triggerInstall_resumed script_hideInstallBanner].
  - unfold InstallPrompt.triggerInstall, prompt, bind, gets, emit, modify, ret.
    rewrite Hheld, Hprompt. reflexivity.
  - reflexivity.
  - intros w'. apply hideInstallBanner_frame.
  - intros w'. apply hideInstallBanner_banner_hidden.
  - intros w' Hnone. unfold InstallPrompt.triggerInstall, bind, gets. rewrite Hnone.
    reflexivity.
  - unfold InstallPromptLater.triggerInstall, prompt, bind, gets, emit, modify, ret.
    rewrite Hheld, Hprompt. reflexivity.
  - reflexivity.
  - intros w'. apply hideInstallBanner_frame.
  - intros w'. apply hideInstallBanner_banner_hidden.
  - intros w' Hnone. unfold InstallPromptLater.triggerInstall, bind, gets. rewrite Hnone.
    unfold console_log, alert, emit, modify. cbn. rewrite <- app_assoc. reflexivity.
Qed.

(** On the page of [handle_captured] the banner is up: the completed
    [triggerInstall] leaves it without its visible class, with its removal
    scheduled. *)
Lemma triggerInstall_consumes_handle_witness :
  handle_consumed InstallPrompt.script
    [ConsoleLog "[InstallPrompt] No deferred prompt available"] handle_captured 7%nat
  /\ handle_consumed InstallPromptLater.script
       [ConsoleLog "[InstallPrompt] No deferred prompt available, showing manual instructions";
        Alert InstallPromptLater.MANUAL_INSTALL_MESSAGE] handle_captured 7%nat.
Proof.
  apply (triggerInstall_consumes_handle handle_captured 7%nat); reflexivity.
Defined.

(** Nothing guards a second call made while the first one is still
    waiting for the user: it prompts the same handle again. *)
Example triggerInstall_reentrant :
  effects (run InstallPrompt.script [Call_triggerInstall; Call_triggerInstall] handle_captured)
  = (effects handle_captured ++ [Prompt 7%nat; Prompt 7%nat])%list.
Proof. reflexivity. Qed.

(** ** Notification permission *)

Section NotificationProperties.

Import NotificationHelper.

Lemma extended_nil (s : State) : extended s [] = s.
Proof. destruct s. unfold extended. simpl. rewrite app_nil_r. reflexivity. Qed.

Lemma extended_emit (s : State) (e : Event) : snd (emit e s) = extended s [e].
Proof. reflexivity. Qed.

(** What [requestNotificationPermission] does, case by case. *)
Lemma requestNotificationPermission_run (silent : bool) (s : State) :
  let c := collaborators s in
  requestNotificationPermission silent s
  = if negb (Notification_in_window c) then
      (Return false, extended s [Errored "Notification API unsupported."])
    else if String.eqb (Notification_permission c) "granted" then
      (Return true, s)
    else if String.eqb (Notification_permission c) "denied" then
      (Return false,
       extended s (if silent then []
                   else [Logged "Notification permission was previously denied."]))
    else
      match requestPermission_outcome c (trace s) with
      | Throw e => (Throw e, extended s [Called RequestPermission])
      | Return status =>
          if String.eqb status "denied" then
            (Return false,
             extended s (Called RequestPermission
                         :: if silent then [] else [Alerted "Izin notifikasi ditolak."]))
          else if String.eqb status "default" then
            (Return false,
             extended s (Called RequestPermission
                         :: if silent then []
                            else [Alerted "Izin notifikasi ditutup atau diabaikan."]))
          else (Return true, extended s [Called RequestPermission])
      end.
Proof.
  intros c. subst c.
  unfold requestNotificationPermission, isNotificationAvailable, isNotificationGranted,
    isNotificationDenied, Notification_requestPermission, call, unless,
    console_error, console_log,
    alert, bind, gets, ret.
  destruct (Notification_in_window (collaborators s)); cbn [negb]; [| reflexivity].
  destruct (String.eqb (Notification_permission (collaborators s)) "granted"); [reflexivity |].
  destruct (String.eqb (Notification_permission (collaborators s)) "denied").
  { destruct silent; cbn [negb]; [rewrite extended_nil |]; reflexivity. }
  destruct (requestPermission_outcome (collaborators s) (trace s)) as [status | e];
    [| reflexivity].
  rewrite extended_emit. cbn [collaborators extended].
  destruct (String.eqb status "denied").
  { destruct silent; cbn [negb]; [| unfold emit, modify; cbn];
      try reflexivity.
    unfold extended. cbn. rewrite <- app_assoc. reflexivity. }
  destruct (String.eqb status "default"); [| reflexivity].
  destruct silent; cbn [negb]; [| unfold emit, modify; cbn];
    try reflexivity.
  unfold extended. cbn. rewrite <- app_assoc. reflexivity.
Qed.

(** C10: for every state of the permission and every outcome of the
    platform's prompt, [requestNotificationPermission(true)] and
    [requestNotificationPermission(false)] complete alike (the same boolean,
    or the same rejection), and the silent call leaves the events of the loud
    one less its alerts and [console.log] lines. *)
Theorem requestNotificationPermission_silent_independent (s : State) :
  result (requestNotificationPermission true) s
  = result (requestNotificationPermission false) s
  /\ exists events : list Event,
       final (requestNotificationPermission false) s = extended s events
       /\ final (requestNotificationPermission true) s
          = extended s (List.filter (fun e => negb (is_user_facing e)) events).
Proof.
  unfold result, final. rewrite !requestNotificationPermission_run. cbn zeta.
  destruct (Notification_in_window (collaborators s)); cbn [negb];
    [| split; [reflexivity | eexists; split; reflexivity]].
  destruct (String.eqb (Notification_permission (collaborators s)) "granted").
  { split; [reflexivity |]. exists []. cbn [List.filter]. rewrite extended_nil.
    split; reflexivity. }
  destruct (String.eqb (Notification_permission (collaborators s)) "denied");
    [split; [reflexivity | eexists; split; reflexivity] |].
  destruct (requestPermission_outcome (collaborators s) (trace s)) as [status | e];
    [| split; [reflexivity | eexists; split; reflexivity]].
  destruct (String.eqb status "denied");
    [split; [reflexivity | eexists; split; reflexivity] |].
  destruct (String.eqb status "default");
    split; try reflexivity; eexists; split; reflexivity.
Qed.

(** ** Push subscription *)

Ltac unfold_helper :=
  unfold autoSubscribe, NotificationHelper.subscribe, unsubscribe,
    isCurrentPushSubscriptionAvailable, getPushSubscription, generateSubscribeOptions,
    isNotificationAvailable,
    pushSubscription_unsubscribe, pushSubscription_toJSON,
    navigator_serviceWorker_ready, pushManager_getSubscription, pushManager_subscribe,
    PushSubscription_unsubscribe, convertBase64ToUint8Array,
    subscribePushNotification, unsubscribePushNotification,
    assign_pushSubscription, call, console_log, console_error, alert, emit,
    try_catch, bind, gets, modify, ret, throw.

Ltac branch :=
  match goal with
  | |- context [requestNotificationPermission ?silent ?st] =>
      rewrite (requestNotificationPermission_run silent st); cbn zeta
  | |- context [non_null ?o] => destruct o eqn:?
  | |- context [ok ?r] => destruct r as [[|]]
  | |- context [match ?o with Return _ => _ | Throw _ => _ end] => destruct o eqn:?
  | |- context [match ?o with Some _ => _ | None => _ end] => destruct o eqn:?
  | |- context [if ?b then _ else _] => destruct b eqn:?
  end.

Ltac simplify_state :=
  cbn [fst snd negb collaborators trace pushSubscription non_null ok extended].

(** Runs the body along every answer of the collaborators. *)
Ltac execute := unfold_helper; repeat (simplify_state; try branch).

Lemma autoSubscribe_never_throws (s : State) :
  exists b, result autoSubscribe s = Return b.
Proof. unfold result. execute; eauto. Qed.

Lemma autoSubscribe_quiet (s : State) :
  exists events,
    final autoSubscribe s = extended s events
    /\ alerts events = 0%nat
    /\ (1 <= logs events)%nat.
Proof.
  unfold final. execute; unfold extended; simplify_state; rewrite <- ?app_assoc;
    eexists; (split; [reflexivity |]); cbn; split; (reflexivity || lia).
Qed.

(** What must have answered with success for [autoSubscribe] to return
    true. *)
Lemma autoSubscribe_true_evidence (s : State) :
  let c := collaborators s in
  returns autoSubscribe s true ->
  Notification_in_window c = true
  /\ (exists h registration, ready_outcome c h = Return registration)
  /\ ((exists h registration subscription,
         getSubscription_outcome c h registration = Return (Some subscription))
      \/ ((Notification_permission c = "granted"
           \/ (Notification_permission c <> "denied"
               /\ exists h status,
                    requestPermission_outcome c h = Return status
                    /\ status <> "denied" /\ status <> "default"))
          /\ (exists h registration options subscription,
                subscribe_outcome c h registration options = Return subscription)
          /\ (exists h endpoint keys,
                subscribePushNotification_outcome c h endpoint keys
                = Return {| ok := true |}))).
Proof.
  intros c. subst c. unfold returns, result. execute; intros Htrue; try discriminate Htrue;
    repeat match goal with
           | H : negb _ = _ |- _ => apply negb_false_iff in H || apply negb_true_iff in H
           | H : String.eqb _ _ = true |- _ => apply String.eqb_eq in H
           | H : String.eqb _ _ = false |- _ => apply String.eqb_neq in H
           end;
    (split; [assumption |]); (split; [eauto |]);
    first
      [ left; solve [eauto 10]
      | right; split; [left; assumption | split; solve [eauto 10]]
      | right; split; [right; split; [assumption | solve [eauto 10]] | split; solve [eauto 10]] ].
Qed.

Lemma internal_failure_returns_false (s : State) :
  internal_failure (collaborators s) -> returns autoSubscribe s false.
Proof.
  intros Hfailure.
  destruct (autoSubscribe_never_throws s) as [[|] Hresult]; [| exact Hresult].
  exfalso.
  destruct (autoSubscribe_true_evidence s Hresult)
    as [Havailable [[h0 [reg0 Hready]] [[h [reg [sub Hsubscribed]]] | [Hgranted [Hcreated Hremote]]]]];
    destruct Hfailure as [Hunavailable | Hworker | Hnever Hrefused | Hnever Hfails | Hnever Hfails];
    try congruence;
    try (eapply Hworker; eassumption);
    try (eapply Hnever; eassumption).
  - destruct Hrefused as [Hnot [Hdenied | Hprompt]];
      destruct Hgranted as [Hyes | [Hnotdenied [h [status [Hanswer [Hd Hf]]]]]];
      try congruence.
    destruct (Hprompt h status Hanswer); congruence.
  - destruct Hcreated as [h [reg [options [sub Hcreated]]]]. eapply Hfails; eassumption.
  - destruct Hremote as [h [endpoint [keys Hremote]]]. eapply Hfails; eassumption.
Qed.

(** C5: whatever the collaborators do, [autoSubscribe] returns a boolean,
    alerts nothing and logs at least once; under every internal failure
    (notification API unavailable, service worker not ready, permission not
    granted after the silent request, platform subscribe failing, remote API
    reporting non-success or throwing, with the rollback failing or not) the
    boolean is false; and when a subscription already exists it returns true
    having only read it: no subscribe call is made. *)
Theorem autoSubscribe_fails_silently (s : State) :
  let c := collaborators s in
  (exists b, result autoSubscribe s = Return b)
  /\ (exists events,
        final autoSubscribe s = extended s events
        /\ alerts events = 0%nat
        /\ (1 <= logs events)%nat)
  /\ (internal_failure c -> returns autoSubscribe s false)
  /\ (forall registration subscription,
        Notification_in_window c = true ->
        ready_outcome c (trace s) = Return registration ->
        getSubscription_outcome c (trace s ++ [Called Ready]) registration
        = Return (Some subscription) ->
        autoSubscribe s
        = (Return true,
           extended s
             [Called Ready; Called (GetSubscription registration);
              Logged "[AutoSubscribe] Already subscribed to push notifications"])).
Proof.
  intros c. subst c.
  split; [apply autoSubscribe_never_throws |].
  split; [apply autoSubscribe_quiet |].
  split; [apply internal_failure_returns_false |].
  intros registration subscription Havailable Hready Hsubscribed.
  unfold_helper. simplify_state. rewrite Havailable. simplify_state.
  rewrite Hready. simplify_state.
  rewrite Hsubscribed. simplify_state. unfold extended. simplify_state.
  rewrite <- !app_assoc. reflexivity.
Qed.

Lemma autoSubscribe_fails_silently_witness :
  returns autoSubscribe (start offline) false
  /\ returns autoSubscribe (start platform_rejects) false.
Proof.
  split.
  - apply (autoSubscribe_fails_silently (start offline)).
    apply service_worker_failure. intros h registration. discriminate.
  - apply (autoSubscribe_fails_silently (start platform_rejects)).
    apply platform_subscribe_failure.
    + intros h registration subscription. discriminate.
    + intros h registration options subscription. discriminate.
Defined.

(** Uses what the hypotheses say the collaborators answer. *)
Ltac answer :=
  match goal with
  | H : forall h, _ = _ |- _ => rewrite H
  | H : forall h x, _ = _ |- _ => rewrite H
  | H : forall h x y, _ = _ |- _ => rewrite H
  | H : _ = true |- _ => rewrite H
  | H : _ = false |- _ => rewrite H
  | H : Notification_permission _ = _ |- _ => rewrite H
  end.

Ltac execute_with_answers :=
  unfold_helper; repeat (simplify_state; try first [answer | branch]).

(** Closes a branch that a comparison of two string constants excludes. *)
Ltac absurd_comparison :=
  match goal with
  | H : String.eqb _ _ = _ |- _ => vm_compute in H; discriminate H
  end.

Ltac open_scenario :=
  unfold permission_granted, no_prior_subscription, platform_subscribes,
    currently_subscribed, always in *;
  repeat match goal with
         | H : _ /\ _ |- _ => destruct H
         | H : exists _, _ |- _ => destruct H
         | H : _ <> _ |- _ => apply String.eqb_neq in H
         end.

(** C4: with notifications available, no subscription yet, permission
    granted, and the platform creating the subscription [created], when the
    remote API resolves with [ok] false [autoSubscribe] calls [unsubscribe()]
    on [created] (once) and returns false. *)
Theorem autoSubscribe_rolls_back (s : State)
    (registration : ServiceWorkerRegistration) (created : PushSubscription) :
  let c := collaborators s in
  permission_granted c ->
  no_prior_subscription c registration ->
  platform_subscribes c created ->
  (forall h, subscribePushNotification_outcome c h (endpoint created) (keys created)
             = Return {| ok := false |}) ->
  returns autoSubscribe s false
  /\ exists events,
       final autoSubscribe s = extended s events
       /\ List.filter is_unsubscribe events = [Called (Unsubscribe created)].
Proof.
  intros c Hgranted Hnone Hcreates Hremote. subst c. open_scenario.
  unfold returns, result, final.
  match goal with
  | H : _ \/ _ |- _ => destruct H as [Halready | [Hnotdenied Hprompt]]
  end;
    try apply String.eqb_neq in Hnotdenied;
    execute_with_answers; try absurd_comparison; (split; [reflexivity |]);
    unfold extended; simplify_state; rewrite <- ?app_assoc;
    eexists; (split; [reflexivity |]); reflexivity.
Qed.

Lemma autoSubscribe_rolls_back_witness :
  returns autoSubscribe (start rollback_throws) false
  /\ exists events,
       final autoSubscribe (start rollback_throws) = extended (start rollback_throws) events
       /\ List.filter is_unsubscribe events = [Called (Unsubscribe sample_subscription)].
Proof.
  apply (autoSubscribe_rolls_back (start rollback_throws) 0%nat sample_subscription).
  - split; [reflexivity | left; reflexivity].
  - split; intros h; reflexivity.
  - split; [exists [4; 32; 172]; intros h key; reflexivity |].
    intros h registration options. reflexivity.
  - intros h. reflexivity.
Defined.

Lemma unsubscribe_never_throws (s : State) : result unsubscribe s = Return tt.
Proof. unfold result. execute; reflexivity. Qed.

(** The success alert of [unsubscribe] is evidence of both steps. *)
Lemma unsubscribe_success_evidence (s : State) :
  let c := collaborators s in
  exists events,
    final unsubscribe s = extended s events
    /\ (In (Alerted successUnsubscribeMessage) events ->
        exists h h' current,
          unsubscribePushNotification_outcome c h (endpoint current) = Return {| ok := true |}
          /\ unsubscribe_outcome c h' current = Return true).
Proof.
  intros c. subst c. unfold final. execute;
    unfold extended; simplify_state; rewrite <- ?app_assoc;
    eexists; (split; [reflexivity |]);
    intros Hin; vm_compute in Hin;
    repeat match goal with
           | H : _ \/ _ |- _ => destruct H
           | H : False |- _ => destruct H
           | H : Alerted _ = Alerted _ |- _ => try discriminate H; clear H
           | H : _ = _ :> Event |- _ => discriminate H
           | H : negb _ = false |- _ => apply negb_false_iff in H
           end;
    subst; eauto 10.
Qed.

(** C6: with a current subscription, [unsubscribe] alerts the failure and
    stops without touching the platform subscription when the remote API
    reports non-success; when the remote API succeeds and the platform's
    [unsubscribe()] resolves false it alerts the failure and registers the
    endpoint and keys with the remote API again; it alerts success when both
    succeed, and only then. *)
Theorem unsubscribe_compensates (s : State)
    (registration : ServiceWorkerRegistration) (current : PushSubscription) :
  let c := collaborators s in
  let found := [Called Ready; Called (GetSubscription registration);
                Called (UnsubscribePushNotification (endpoint current))] in
  currently_subscribed c registration current ->
  ((forall h, unsubscribePushNotification_outcome c h (endpoint current)
              = Return {| ok := false |}) ->
   unsubscribe s
   = (Return tt,
      extended s (found ++ [Alerted failureUnsubscribeMessage;
                            Errored "unsubscribe: response:"])))
  /\ ((forall h, unsubscribePushNotification_outcome c h (endpoint current)
                 = Return {| ok := true |}) ->
      (forall h, unsubscribe_outcome c h current = Return false) ->
      exists rest,
        unsubscribe s
        = (Return tt,
           extended s
             (found ++ [Called (Unsubscribe current);
                        Alerted failureUnsubscribeMessage;
                        Called (SubscribePushNotification (endpoint current) (keys current))]
                    ++ rest))
        /\ ~ In (Alerted successUnsubscribeMessage) rest)
  /\ ((forall h, unsubscribePushNotification_outcome c h (endpoint current)
                 = Return {| ok := true |}) ->
      (forall h, unsubscribe_outcome c h current = Return true) ->
      unsubscribe s
      = (Return tt,
         extended s (found ++ [Called (Unsubscribe current);
                               Alerted successUnsubscribeMessage])))
  /\ (exists events,
        final unsubscribe s = extended s events
        /\ (In (Alerted successUnsubscribeMessage) events ->
            exists h h' subscription,
              unsubscribePushNotification_outcome c h (endpoint subscription)
              = Return {| ok := true |}
              /\ unsubscribe_outcome c h' subscription = Return true)).
Proof.
  intros c found Hcurrent. subst c found. open_scenario.
  split; [| split; [| split]].
  - intros Hremote. execute_with_answers.
    unfold extended; simplify_state; rewrite <- ?app_assoc. reflexivity.
  - intros Hremote Hplatform. execute_with_answers.
    + exists []. split.
      * unfold extended; simplify_state; rewrite <- ?app_assoc. reflexivity.
      * intros [].
    + exists [Alerted failureUnsubscribeMessage; Errored "unsubscribe: error:"]. split.
      * unfold extended; simplify_state; rewrite <- ?app_assoc. reflexivity.
      * intros [Hin | [Hin | []]]; discriminate Hin.
  - intros Hremote Hplatform. execute_with_answers.
    unfold extended; simplify_state; rewrite <- ?app_assoc. reflexivity.
  - apply unsubscribe_success_evidence.
Qed.

Lemma unsubscribe_compensates_witness :
  unsubscribe (start subscribed_remote_refuses)
  = (Return tt,
     extended (start subscribed_remote_refuses)
       [Called Ready; Called (GetSubscription 0%nat);
        Called (UnsubscribePushNotification (endpoint sample_subscription));
        Alerted failureUnsubscribeMessage; Errored "unsubscribe: response:"]).
Proof.
  destruct (unsubscribe_compensates (start subscribed_remote_refuses) 0%nat
              sample_subscription) as [Hstop _].
  - split; intros h; reflexivity.
  - apply Hstop. intros h. reflexivity.
Defined.

(** C3, as stated, fails: the remote API answers [ok] false
    ([remote_refuses]) or throws ([remote_throws]) after the platform created
    the subscription, the rollback succeeds, and in both runs the failure is
    alerted before [unsubscribe()] is called, not after.  When the rollback
    throws ([rollback_throws]) the alert and the call happen twice. *)
Lemma subscribe_rollback_order_counterexample :
  permission_granted remote_refuses
  /\ no_prior_subscription remote_refuses 0%nat
  /\ platform_subscribes remote_refuses sample_subscription
  /\ rollback_events (trace (final NotificationHelper.subscribe (start remote_refuses)))
     = [Alerted failureSubscribeMessage; Called (Unsubscribe sample_subscription)]
  /\ rollback_events (trace (final NotificationHelper.subscribe (start remote_refuses)))
     <> [Called (Unsubscribe sample_subscription); Alerted failureSubscribeMessage]
  /\ rollback_events (trace (final NotificationHelper.subscribe (start remote_throws)))
     <> [Called (Unsubscribe sample_subscription); Alerted failureSubscribeMessage]
  /\ rollback_events (trace (final NotificationHelper.subscribe (start rollback_throws)))
     = [Alerted failureSubscribeMessage; Called (Unsubscribe sample_subscription);
        Alerted failureSubscribeMessage; Called (Unsubscribe sample_subscription)].
Proof.
  split; [split; [reflexivity | left; reflexivity] |].
  split; [split; intros h; reflexivity |].
  split; [split; [exists [4; 32; 172]; intros h key; reflexivity |];
          intros h registration options; reflexivity |].
  split; [reflexivity |].
  split; [vm_compute; discriminate |].
  split; [vm_compute; discriminate | reflexivity].
Qed.

Ltac rollback_settles :=
  match goal with
  | Hthrow : unsubscribe_outcome _ ?h ?sub = Throw _,
    Hsettles : forall h, exists b, unsubscribe_outcome _ h ?sub = Return b |- _ =>
      destruct (Hsettles h) as [? Hsettled]; rewrite Hsettled in Hthrow; discriminate Hthrow
  end.

(** C3, amended: with permission granted, no prior subscription and the
    platform creating the subscription [created], when the remote API
    resolves with [ok] false and the rollback does not throw, [subscribe]
    surfaces the failure message exactly once and calls [unsubscribe()] on
    [created] exactly once, the alert first and the unsubscribe after it; and
    when the remote API throws instead, the alert again comes first and the
    unsubscribe after it. *)
Theorem subscribe_alerts_then_rolls_back (s : State)
    (registration : ServiceWorkerRegistration) (created : PushSubscription) :
  let c := collaborators s in
  permission_granted c ->
  no_prior_subscription c registration ->
  platform_subscribes c created ->
  ((forall h, subscribePushNotification_outcome c h (endpoint created) (keys created)
              = Return {| ok := false |}) ->
   (forall h, exists b, unsubscribe_outcome c h created = Return b) ->
   result NotificationHelper.subscribe s = Return tt
   /\ exists events,
        trace (final NotificationHelper.subscribe s) = (trace s ++ events)%list
        /\ rollback_events events
           = [Alerted failureSubscribeMessage; Called (Unsubscribe created)])
  /\ (forall e,
        (forall h, subscribePushNotification_outcome c h (endpoint created) (keys created)
                   = Throw e) ->
        exists events,
          trace (final NotificationHelper.subscribe s) = (trace s ++ events)%list
          /\ rollback_events events
             = [Alerted failureSubscribeMessage; Called (Unsubscribe created)]).
Proof.
  intros c Hgranted Hnone Hcreates. subst c. open_scenario.
  unfold result, final.
  split; [intros Hremote Hsettles | intros e Hremote];
    match goal with
    | H : _ \/ _ |- _ => destruct H as [Halready | [Hnotdenied Hprompt]]
    end;
    try apply String.eqb_neq in Hnotdenied;
    execute_with_answers; try absurd_comparison; try rollback_settles;
    try (split; [reflexivity |]);
    rewrite <- ?app_assoc; eexists; (split; [reflexivity |]); reflexivity.
Qed.

Lemma subscribe_alerts_then_rolls_back_witness :
  result NotificationHelper.subscribe (start remote_refuses) = Return tt
  /\ exists events,
       trace (final NotificationHelper.subscribe (start remote_refuses))
       = (trace (start remote_refuses) ++ events)%list
       /\ rollback_events events
          = [Alerted failureSubscribeMessage; Called (Unsubscribe sample_subscription)].
Proof.
  destruct (subscribe_alerts_then_rolls_back (start remote_refuses) 0%nat
              sample_subscription) as [Hrefused _].
  - split; [reflexivity | left; reflexivity].
  - split; intros h; reflexivity.
  - split; [exists [4; 32; 172]; intros h key; reflexivity |].
    intros h registration options. reflexivity.
  - apply Hrefused.
    + intros h. reflexivity.
    + intros h. exists true. reflexivity.
Defined.

(** C2 fails on [subscribe]: permission is granted, there is no
    subscription yet, and the platform's [pushManager.subscribe] rejects
    ([platform_rejects]).  The [catch] block logs and alerts, then calls
    [unsubscribe()] on the variable that was never assigned: the [TypeError]
    leaves [subscribe]. *)
Theorem subscribe_throws_when_platform_subscribe_rejects :
  NotificationHelper.subscribe (start platform_rejects)
  = (Throw (TypeError "Cannot read properties of undefined (reading 'unsubscribe')"),
     extended (start platform_rejects)
       [Called Ready; Called (GetSubscription 0%nat);
        Logged "Mulai berlangganan push notification...";
        Called Ready; Called (ConvertBase64ToUint8Array "BCCs2eonMI");
        Called (Subscribe 0%nat {| userVisibleOnly := true;
                                    applicationServerKey := [4; 32; 172] |});
        Errored "subscribe: error:"; Alerted failureSubscribeMessage]).
Proof. reflexivity. Qed.

(** The same entry point lets through what is rejected before its [try]
    (here the service worker never becomes ready), and a rollback that
    throws inside its [catch]. *)
Lemma subscribe_throws_outside_try :
  result NotificationHelper.subscribe (start no_service_worker)
  = Throw (TypeError "navigator.serviceWorker is undefined")
  /\ result NotificationHelper.subscribe (start rollback_throws)
     = Throw (Rejection "gone").
Proof. split; reflexivity. Qed.

(** The other two entry points never throw. *)
Lemma autoSubscribe_unsubscribe_never_throw (s : State) :
  (exists b, result autoSubscribe s = Return b) /\ result unsubscribe s = Return tt.
Proof. split; [apply autoSubscribe_never_throws | apply unsubscribe_never_throws]. Qed.

(** ** Further properties of the push subscription *)

(** X12: [requestNotificationPermission] asks the platform to prompt the
    user exactly when the API is there and the permission is neither
    granted nor denied, silent or not; and it returns true exactly when the
    permission was granted already or the prompt answers something other
    than "denied" and "default". *)
Theorem requestNotificationPermission_prompts_when_undecided (silent : bool) (s : State) :
  let c := collaborators s in
  exists events,
    final (requestNotificationPermission silent) s = extended s events
    /\ (In (Called RequestPermission) events <-> undecided c = true)
    /\ (returns (requestNotificationPermission silent) s true
        <-> Notification_in_window c = true
            /\ (Notification_permission c = "granted"
                \/ (undecided c = true
                    /\ exists status,
                         requestPermission_outcome c (trace s) = Return status
                         /\ status <> "denied" /\ status <> "default"))).
Proof.
  intros c. subst c. unfold returns, result, final, undecided.
  rewrite requestNotificationPermission_run. cbn zeta.
  destruct (Notification_in_window (collaborators s)); cbn [negb andb].
  2: { eexists. split; [reflexivity |]. split; split.
       - intros [Hin | []]. discriminate Hin.
       - discriminate.
       - discriminate.
       - intros [Habsurd _]. discriminate Habsurd. }
  destruct (String.eqb (Notification_permission (collaborators s)) "granted") eqn:Hgranted;
    cbn [negb andb].
  { exists []. rewrite extended_nil. apply String.eqb_eq in Hgranted.
    split; [reflexivity |]. split; split.
    - intros [].
    - discriminate.
    - intros _. split; [reflexivity | left; exact Hgranted].
    - reflexivity. }
  apply String.eqb_neq in Hgranted.
  destruct (String.eqb (Notification_permission (collaborators s)) "denied") eqn:Hdenied;
    cbn [negb andb].
  { eexists. split; [reflexivity |]. split; split.
    - destruct silent; [intros [] | intros [Hin | []]; discriminate Hin].
    - discriminate.
    - discriminate.
    - intros [_ [Hyes | [Hno _]]]; [contradiction | discriminate Hno]. }
  destruct (requestPermission_outcome (collaborators s) (trace s)) as [status | e].
  2: { eexists. split; [reflexivity |]. split; split.
       - reflexivity.
       - intros _. left. reflexivity.
       - discriminate.
       - intros [_ [Hyes | [_ [status [Habsurd _]]]]];
           [contradiction | discriminate Habsurd]. }
  destruct (String.eqb status "denied") eqn:Hd.
  { apply String.eqb_eq in Hd. eexists. split; [reflexivity |]. split; split.
    - reflexivity.
    - intros _. left. reflexivity.
    - discriminate.
    - intros [_ [Hyes | [_ [status' [Hsame [Hnot _]]]]]]; [contradiction |].
      injection Hsame as <-. contradiction. }
  destruct (String.eqb status "default") eqn:Hf.
  { apply String.eqb_eq in Hf. eexists. split; [reflexivity |]. split; split.
    - reflexivity.
    - intros _. left. reflexivity.
    - discriminate.
    - intros [_ [Hyes | [_ [status' [Hsame [_ Hnot]]]]]]; [contradiction |].
      injection Hsame as <-. contradiction. }
  apply String.eqb_neq in Hd, Hf.
  eexists. split; [reflexivity |]. split; split.
  - reflexivity.
  - intros _. left. reflexivity.
  - intros _. split; [reflexivity |]. right. split; [reflexivity |]. eauto.
  - reflexivity.
Qed.

Ltac close_events :=
  unfold extended; simplify_state; rewrite <- ?app_assoc;
  eexists; (split; [reflexivity |]).

(** X13: [unsubscribe] never throws and always tells the user something:
    whatever the collaborators do, it alerts once, or twice when the
    compensating registration throws after the failure was announced; it
    never asks the platform for a new subscription; and with no current
    subscription it alerts that there is none and calls neither the remote
    API nor [unsubscribe()]. *)
Theorem unsubscribe_always_reports (s : State) :
  let c := collaborators s in
  result unsubscribe s = Return tt
  /\ (exists events,
        final unsubscribe s = extended s events
        /\ (1 <= alerts events <= 2)%nat
        /\ List.filter is_subscribe events = [])
  /\ (forall registration,
        ready_outcome c (trace s) = Return registration ->
        getSubscription_outcome c (trace s ++ [Called Ready]) registration = Return None ->
        unsubscribe s
        = (Return tt,
           extended s
             [Called Ready; Called (GetSubscription registration);
              Alerted "Tidak bisa memutus langganan push notification karena belum berlangganan sebelumnya."])).
Proof.
  intros c. subst c. split; [apply unsubscribe_never_throws |]. split.
  - unfold final. execute; close_events; cbn; split; (lia || reflexivity).
  - intros registration Hready Hnone. unfold_helper. simplify_state.
    rewrite Hready. simplify_state. rewrite Hnone. simplify_state.
    unfold extended. simplify_state. rewrite <- !app_assoc. reflexivity.
Qed.

Lemma unsubscribe_always_reports_witness :
  unsubscribe (start accepting)
  = (Return tt,
     extended (start accepting)
       [Called Ready; Called (GetSubscription 0%nat);
        Alerted "Tidak bisa memutus langganan push notification karena belum berlangganan sebelumnya."]).
Proof.
  apply (unsubscribe_always_reports (start accepting)); reflexivity.
Defined.

(** X14: with permission granted, no subscription yet, the platform
    creating [created] and the remote API answering [ok] true,
    [autoSubscribe] returns true, having registered the endpoint and keys of
    [created] with the remote API, without any alert and without calling
    [unsubscribe()]. *)
Theorem autoSubscribe_succeeds (s : State)
    (registration : ServiceWorkerRegistration) (created : PushSubscription) :
  let c := collaborators s in
  permission_granted c ->
  no_prior_subscription c registration ->
  platform_subscribes c created ->
  (forall h, subscribePushNotification_outcome c h (endpoint created) (keys created)
             = Return {| ok := true |}) ->
  returns autoSubscribe s true
  /\ exists events,
       final autoSubscribe s = extended s events
       /\ List.filter is_remote events
          = [Called (SubscribePushNotification (endpoint created) (keys created))]
       /\ List.filter is_unsubscribe events = []
       /\ alerts events = 0%nat.
Proof.
  intros c Hgranted Hnone Hcreates Hremote. subst c. open_scenario.
  unfold returns, result, final.
  match goal with
  | H : _ \/ _ |- _ => destruct H as [Halready | [Hnotdenied Hprompt]]
  end;
    try apply String.eqb_neq in Hnotdenied;
    execute_with_answers; try absurd_comparison; (split; [reflexivity |]);
    close_events; repeat split.
Qed.

Lemma autoSubscribe_succeeds_witness : returns autoSubscribe (start accepting) true.
Proof.
  apply (autoSubscribe_succeeds (start accepting) 0%nat sample_subscription).
  - split; [reflexivity | left; reflexivity].
  - split; intros h; reflexivity.
  - split; [exists [4; 32; 172]; intros h key; reflexivity |].
    intros h registration options. reflexivity.
  - intros h. reflexivity.
Defined.

(** Goes through the events of a concrete trace. *)
Ltac in_cases :=
  repeat match goal with
         | H : In _ _ |- _ => cbn [In app] in H
         | H : _ \/ _ |- _ => destruct H
         | H : False |- _ => contradiction
         | H : Called _ = Called _ |- _ => first [discriminate H | injection H as ?; subst]
         | H : _ = _ :> Event |- _ => discriminate H
         end.

(** X15: [autoSubscribe] asks the platform for a subscription at most
    once, and it calls [unsubscribe()] only on a subscription that this very
    run obtained from the platform and that the remote API answered with
    [ok] false: it never unsubscribes a subscription it found. *)
Theorem autoSubscribe_rolls_back_only_its_own (s : State) :
  let c := collaborators s in
  exists events,
    final autoSubscribe s = extended s events
    /\ (length (List.filter is_subscribe events) <= 1)%nat
    /\ forall subscription,
         In (Called (Unsubscribe subscription)) events ->
         exists h registration options h',
           In (Called (Subscribe registration options)) events
           /\ subscribe_outcome c h registration options = Return subscription
           /\ subscribePushNotification_outcome c h'
                (endpoint subscription) (keys subscription)
              = Return {| ok := false |}.
Proof.
  intros c. subst c. unfold final. execute; close_events;
    (split; [cbn; lia |]); intros subscription Hin; in_cases;
    do 4 eexists; (split; [cbn [In app]; eauto 12 |]); split; eassumption.
Qed.

(** X16: every subscription that [autoSubscribe] or [subscribe] asks of the
    platform is user-visible-only, with the application server key that
    [convertBase64ToUint8Array] returned for [VAPID_PUBLIC_KEY]. *)
Theorem subscribe_options_fixed (s : State) :
  let c := collaborators s in
  let well_formed events :=
    forall registration options,
      In (Called (Subscribe registration options)) events ->
      userVisibleOnly options = true
      /\ In (Called (ConvertBase64ToUint8Array (VAPID_PUBLIC_KEY c))) events
      /\ exists h,
           convertBase64ToUint8Array_outcome c h (VAPID_PUBLIC_KEY c)
           = Return (applicationServerKey options) in
  (exists events,
     trace (final autoSubscribe s) = (trace s ++ events)%list /\ well_formed events)
  /\ (exists events,
        trace (final NotificationHelper.subscribe s) = (trace s ++ events)%list
        /\ well_formed events).
Proof.
  intros c well_formed. subst c well_formed. unfold final. split;
    execute; rewrite <- ?app_assoc; eexists; (split; [reflexivity |]);
    intros registration options Hin; in_cases;
    (split; [reflexivity |]); (split; [cbn [In app]; eauto 12 |]); eauto.
Qed.

(** X17: with permission granted, no subscription yet, the platform
    creating [created] and the remote API answering [ok] true, [subscribe]
    ends normally with exactly one alert, the success message, after
    registering the endpoint and keys of [created] with the remote API, and
    it does not call [unsubscribe()]. *)
Theorem subscribe_succeeds (s : State)
    (registration : ServiceWorkerRegistration) (created : PushSubscription) :
  let c := collaborators s in
  permission_granted c ->
  no_prior_subscription c registration ->
  platform_subscribes c created ->
  (forall h, subscribePushNotification_outcome c h (endpoint created) (keys created)
             = Return {| ok := true |}) ->
  result NotificationHelper.subscribe s = Return tt
  /\ exists events,
       trace (final NotificationHelper.subscribe s) = (trace s ++ events)%list
       /\ List.filter is_alert events = [Alerted successSubscribeMessage]
       /\ List.filter is_remote events
          = [Called (SubscribePushNotification (endpoint created) (keys created))]
       /\ List.filter is_unsubscribe events = [].
Proof.
  intros c Hgranted Hnone Hcreates Hremote. subst c. open_scenario.
  unfold result, final.
  match goal with
  | H : _ \/ _ |- _ => destruct H as [Halready | [Hnotdenied Hprompt]]
  end;
    try apply String.eqb_neq in Hnotdenied;
    execute_with_answers; try absurd_comparison; (split; [reflexivity |]);
    rewrite <- ?app_assoc; eexists; (split; [reflexivity |]); repeat split.
Qed.

Lemma subscribe_succeeds_witness :
  result NotificationHelper.subscribe (start accepting) = Return tt
  /\ exists events,
       trace (final NotificationHelper.subscribe (start accepting))
       = (trace (start accepting) ++ events)%list
       /\ List.filter is_alert events = [Alerted successSubscribeMessage]
       /\ List.filter is_remote events
          = [Called (SubscribePushNotification (endpoint sample_subscription)
                       (keys sample_subscription))]
       /\ List.filter is_unsubscribe events = [].
Proof.
  apply (subscribe_succeeds (start accepting) 0%nat sample_subscription).
  - split; [reflexivity | left; reflexivity].
  - split; intros h; reflexivity.
  - split; [exists [4; 32; 172]; intros h key; reflexivity |].
    intros h registration options. reflexivity.
  - intros h. reflexivity.
Defined.

(** X18: [subscribe] creates nothing unless it is permitted and not yet
    subscribed.  When [requestNotificationPermission] answers false it stops
    there, without a single call to the service worker or the remote API;
    when a subscription exists it alerts that and asks the platform for no
    subscription and the remote API for nothing. *)
Theorem subscribe_guards (s : State) :
  let c := collaborators s in
  (returns (requestNotificationPermission false) s false ->
   NotificationHelper.subscribe s = (Return tt, final (requestNotificationPermission false) s))
  /\ (forall registration current,
        permission_granted c ->
        currently_subscribed c registration current ->
        result NotificationHelper.subscribe s = Return tt
        /\ exists events,
             trace (final NotificationHelper.subscribe s) = (trace s ++ events)%list
             /\ List.filter is_alert events
                = [Alerted "Sudah berlangganan push notification."]
             /\ List.filter is_subscribe events = []
             /\ List.filter is_remote events = []).
Proof.
  intros c. subst c. split.
  - unfold returns, result, final, NotificationHelper.subscribe, bind.
    destruct (requestNotificationPermission false s) as [[b | e] s']; cbn [fst snd];
      intros [= ->]. reflexivity.
  - intros registration current Hgranted Hcurrent. open_scenario.
    unfold result, final.
    match goal with
    | H : _ \/ _ |- _ => destruct H as [Halready | [Hnotdenied Hprompt]]
    end;
      try apply String.eqb_neq in Hnotdenied;
      execute_with_answers; try absurd_comparison; (split; [reflexivity |]);
      rewrite <- ?app_assoc; eexists; (split; [reflexivity |]); repeat split.
Qed.

Lemma subscribe_guards_witness :
  NotificationHelper.subscribe (start denied_earlier)
  = (Return tt,
     extended (start denied_earlier)
       [Logged "Notification permission was previously denied."])
  /\ result NotificationHelper.subscribe (start subscribed_already) = Return tt.
Proof.
  split.
  - apply (subscribe_guards (start denied_earlier)). reflexivity.
  - destruct (subscribe_guards (start subscribed_already)) as [_ Hsubscribed].
    apply (Hsubscribed 0%nat sample_subscription).
    + split; [reflexivity | left; reflexivity].
    + split; intros h; reflexivity.
Defined.
End NotificationProperties.

(** * Further properties *)

(** ** What [dismissInstallPrompt] writes, [isInstallDismissed] reads *)

Lemma digit_value_pretty_N_char (d : N) :
  (d < 10)%N -> digit_value (pretty_N_char d) = Some (Z.of_N d).
Proof.
  intros Hd.
  assert (d = 0 \/ d = 1 \/ d = 2 \/ d = 3 \/ d = 4 \/ d = 5
          \/ d = 6 \/ d = 7 \/ d = 8 \/ d = 9)%N as Hcases by lia.
  repeat (destruct Hcases as [-> | Hcases]; [reflexivity |]). subst d. reflexivity.
Qed.

Lemma pretty_N_char_plain (d : N) :
  let c := pretty_N_char d in
  is_white_space c = false /\ c <> "-"%char /\ c <> "+"%char.
Proof.
  unfold pretty_N_char. repeat case_match; repeat split; discriminate.
Qed.

(** Reading the digits that [pretty_N_go] puts in front of [s]. *)
Lemma parse_digits_pretty_N_go (x : N) :
  (0 < x)%N ->
  exists k : Z,
    Z.of_N x < k
    /\ forall (s : string) (acc : option Z),
         parse_digits acc (pretty_N_go x s)
         = parse_digits (Some (default 0 acc * k + Z.of_N x)) s.
Proof.
  induction (N.lt_wf_0 x) as [x _ IH]. intros Hpos.
  assert (Hmod : (x `mod` 10 < 10)%N) by (apply N.mod_lt; lia).
  assert (Hsplit : Z.of_N x = 10 * Z.of_N (x `div` 10) + Z.of_N (x `mod` 10)).
  { rewrite (N.div_mod x 10) at 1 by lia. lia. }
  destruct (N.eq_dec (x `div` 10)%N 0%N) as [Hsmall | Hlarge].
  - exists 10. split.
    + rewrite Hsplit, Hsmall. lia.
    + intros s acc. rewrite pretty_N_go_step by exact Hpos.
      rewrite Hsmall, pretty_N_go_0. cbn [parse_digits].
      rewrite (digit_value_pretty_N_char _ Hmod).
      f_equal. f_equal. destruct acc as [a |]; simpl; rewrite Hsplit, Hsmall; lia.
  - destruct (IH (x `div` 10)%N) as [k [Hk Hread]].
    + apply N.div_lt; lia.
    + lia.
    + exists (10 * k). split; [lia |].
      intros s acc. rewrite pretty_N_go_step by exact Hpos.
      rewrite Hread. cbn [parse_digits].
      rewrite (digit_value_pretty_N_char _ Hmod).
      f_equal. f_equal. destruct acc as [a |]; simpl; rewrite Hsplit; lia.
Qed.

Lemma pretty_N_go_head (x : N) (s : string) :
  (0 < x)%N -> exists d rest, pretty_N_go x s = String (pretty_N_char d) rest.
Proof.
  revert s. induction (N.lt_wf_0 x) as [x _ IH]. intros s Hpos.
  rewrite pretty_N_go_step by exact Hpos.
  destruct (N.eq_dec (x `div` 10)%N 0%N) as [Hsmall | Hlarge].
  - rewrite Hsmall, pretty_N_go_0. eauto.
  - apply IH; [apply N.div_lt; lia | apply N.neq_0_lt_0, Hlarge].
Qed.

Lemma parseInt_pretty_positive (p : positive) :
  parse_digits None (pretty (N.pos p)) = Some (Z.pos p)
  /\ exists d rest, pretty (N.pos p) = String (pretty_N_char d) rest.
Proof.
  unfold pretty, pretty_N. destruct (decide (N.pos p = 0%N)) as [Hzero | _];
    [discriminate Hzero |].
  split.
  - destruct (parse_digits_pretty_N_go (N.pos p)) as [k [_ Hread]]; [lia |].
    rewrite Hread. reflexivity.
  - apply pretty_N_go_head. lia.
Qed.

Lemma parseInt_unsigned (c : ascii) (rest : string) :
  is_white_space c = false -> c <> "-"%char -> c <> "+"%char ->
  parseInt (String c rest)
  = match parse_digits None (String c rest) with
    | Some n => Num n
    | None => NaN
    end.
Proof.
  intros Hspace Hminus Hplus. unfold parseInt. cbn [trim_start]. rewrite Hspace.
  destruct c as [[] [] [] [] [] [] [] []]; try congruence;
    destruct (parse_digits None _); try reflexivity; f_equal; lia.
Qed.

Lemma parseInt_decimal (z : Z) : parseInt (pretty z) = Num z.
Proof.
  destruct z as [| p | p]; [reflexivity | |].
  - change (pretty (Z.pos p)) with (pretty (N.pos p)).
    destruct (parseInt_pretty_positive p) as [Hdigits [d [rest Hhead]]].
    destruct (pretty_N_char_plain d) as [Hspace [Hminus Hplus]].
    rewrite Hhead, (parseInt_unsigned _ _ Hspace Hminus Hplus), <- Hhead, Hdigits.
    reflexivity.
  - change (pretty (Z.neg p)) with (String "-" (pretty (N.pos p))).
    destruct (parseInt_pretty_positive p) as [Hdigits _].
    unfold parseInt. cbn [trim_start is_white_space]. 
    change (is_white_space "-") with false. cbn iota.
    rewrite Hdigits. f_equal.
Qed.

Lemma pretty_truthy (z : Z) : truthy (Some (pretty z)) = true.
Proof.
  destruct z as [| p | p]; [reflexivity | | reflexivity].
  change (pretty (Z.pos p)) with (pretty (N.pos p)).
  destruct (parseInt_pretty_positive p) as [_ [d [rest ->]]]. reflexivity.
Qed.


Lemma hideInstallBanner_keeps_storage (w : World) :
  localStorage (final InstallPrompt.hideInstallBanner w) = localStorage w
  /\ localStorage (final InstallPromptLater.hideInstallBanner w) = localStorage w.
Proof.
  unfold InstallPrompt.hideInstallBanner, InstallPromptLater.hideInstallBanner,
    final, bind, getElementById, gets.
  destruct (find (has_id "install-banner") (document w)); split; reflexivity.
Qed.

Lemma dismissInstallPrompt_record (w : World) :
  localStorage (final InstallPrompt.dismissInstallPrompt w)
  = <["installPromptDismissed" := pretty (now (platform w))]> (localStorage w)
  /\ localStorage (final InstallPromptLater.dismissInstallPrompt w)
     = <["installPromptDismissed" := pretty (now (platform w))]> (localStorage w).
Proof.
  unfold InstallPrompt.dismissInstallPrompt, InstallPromptLater.dismissInstallPrompt.
  rewrite !final_bind. cbn [Date_now gets]. rewrite !final_bind.
  cbn [localStorage_setItem modify].
  split; [rewrite (proj1 (hideInstallBanner_keeps_storage _))
         | rewrite (proj2 (hideInstallBanner_keeps_storage _))]; reflexivity.
Qed.

(** X1: at every time [Date.now()] can return, the record that
    [dismissInstallPrompt] writes is one that [isInstallDismissed] reads
    back as that very time: it passes the guard on the stored value and
    its [parseInt] is the time of the dismissal.  In both revisions. *)
Theorem dismissInstallPrompt_round_trip (w : World) :
  time_value (now (platform w)) ->
  record_reads (final InstallPrompt.dismissInstallPrompt w) (now (platform w))
  /\ record_reads (final InstallPromptLater.dismissInstallPrompt w) (now (platform w)).
Proof.
  intros _. destruct (dismissInstallPrompt_record w) as [Hfirst Hlater].
  split; exists (pretty (now (platform w)));
    (split; [rewrite ?Hfirst, ?Hlater; apply lookup_insert_eq |]);
    (split; [apply pretty_truthy | apply parseInt_decimal]).
Qed.

Lemma dismissInstallPrompt_round_trip_witness :
  record_reads just_dismissed 1700000000000.
Proof.
  apply (dismissInstallPrompt_round_trip fresh_page).
  unfold time_value. cbn [fresh_page platform android_phone now]. lia.
Defined.

Lemma dismissed_until (w : World) (p : Platform) :
  (returns InstallPrompt.isInstallDismissed
     (elsewhere p (final InstallPrompt.dismissInstallPrompt w)) true
   <-> now p - now (platform w) <= 7 * day)
  /\ (returns InstallPromptLater.isInstallDismissed
        (elsewhere p (final InstallPromptLater.dismissInstallPrompt w)) true
      <-> now p - now (platform w) <= 3 * day).
Proof.
  destruct (dismissInstallPrompt_record w) as [Hfirst Hlater].
  split.
  - destruct (isInstallDismissed_number
                (elsewhere p (final InstallPrompt.dismissInstallPrompt w))
                (pretty (now (platform w))) (now (platform w))) as [Hrun _].
    + unfold elsewhere. rewrite set_platform_localStorage, Hfirst. apply lookup_insert_eq.
    + apply parseInt_decimal.
    + unfold returns, result. rewrite Hrun. cbn [platform elsewhere set_platform].
      change InstallPrompt.INSTALL_DISMISSED_DURATION with (7 * day).
      destruct (Z.ltb_spec (7 * day) (now p - now (platform w))); simpl;
        split; intros; (lia || congruence).
  - destruct (isInstallDismissed_number
                (elsewhere p (final InstallPromptLater.dismissInstallPrompt w))
                (pretty (now (platform w))) (now (platform w))) as [_ Hrun].
    + unfold elsewhere. rewrite set_platform_localStorage, Hlater. apply lookup_insert_eq.
    + apply parseInt_decimal.
    + unfold returns, result. rewrite Hrun. cbn [platform elsewhere set_platform].
      change InstallPromptLater.INSTALL_DISMISSED_DURATION with (3 * day).
      destruct (Z.ltb_spec (3 * day) (now p - now (platform w))); simpl;
        split; intros; (lia || congruence).
Qed.

(** X2: after [dismissInstallPrompt] at time [t], [isInstallDismissed]
    asked at time [t'] answers true exactly when [t' - t] is within the
    window of the revision (seven days, three days), whatever was stored
    before. *)
Theorem dismiss_then_isInstallDismissed (w : World) (p : Platform) :
  (returns InstallPrompt.isInstallDismissed
     (elsewhere p (final InstallPrompt.dismissInstallPrompt w)) true
   <-> now p - now (platform w) <= 7 * day)
  /\ (returns InstallPromptLater.isInstallDismissed
        (elsewhere p (final InstallPromptLater.dismissInstallPrompt w)) true
      <-> now p - now (platform w) <= 3 * day).
Proof. exact (dismissed_until w p). Qed.
(** ** The hide transition *)

Lemma classList_add_present (c : string) (l : list string) :
  existsb (String.eqb c) (if existsb (String.eqb c) l then l else (l ++ [c])%list) = true.
Proof.
  destruct (existsb (String.eqb c) l) eqn:Hpresent; [exact Hpresent |].
  rewrite existsb_app. cbn [existsb]. rewrite String.eqb_refl.
  rewrite orb_true_r. reflexivity.
Qed.

Section Animation.

Variable script : Script.
Variable w : World.
Variable banner : Element.
Hypothesis found : find (has_id "install-banner") (document w) = Some banner.
Hypothesis hide_run :
  script_hideInstallBanner script w
  = (Return tt,
     set_tasks (tasks w ++ [Timeout (RemoveBanner (ref banner)) 300])
       (set_document
          (map (fun el =>
                  if Nat.eqb (ref el) (ref banner)
                  then with_classList
                         (List.filter
                            (fun x => negb (String.eqb "install-banner--visible" x)))
                         el
                  else el)
             (document w)) w)).

Lemma shows_again_holds : shows_again script w banner.
Proof.
  intros i t Hpending Hanimates. unfold run. cbn [fold_left perform].
  pose proof (f_equal snd hide_run) as Hhidden. cbn [snd] in Hhidden.
  change (snd (script_hideInstallBanner script w))
    with (final (script_hideInstallBanner script) w) in Hhidden.
  rewrite Hhidden. clear Hhidden.
  set (hidden := set_tasks _ _).
  assert (Hstill : tasks hidden !! i = Some t).
  { subst hidden. cbn [tasks set_tasks]. apply lookup_app_l_Some. exact Hpending. }
  assert (Hindex : (S i <= length (tasks w))%nat)
    by (apply lookup_lt_Some in Hpending; lia).
  assert (Hfire : fire script i hidden
                  = final (classList_add (ref banner) "install-banner--visible")
                      (without_task i hidden)).
  { unfold fire. rewrite Hstill.
    destruct t as [[r | r |] ms | [r | r |] | e']; try discriminate Hanimates;
      cbn [animates_in] in Hanimates; apply Nat.eqb_eq in Hanimates; subst r;
      reflexivity. }
  rewrite Hfire. split.
  - apply find_some in found. destruct found as [Hin Hid].
    set (hide := fun el : Element =>
                   if Nat.eqb (ref el) (ref banner)
                   then with_classList
                          (List.filter
                             (fun x => negb (String.eqb "install-banner--visible" x))) el
                   else el).
    set (add := fun el : Element =>
                  if Nat.eqb (ref el) (ref banner)
                  then with_classList
                         (fun l =>
                            if existsb (String.eqb "install-banner--visible") l
                            then l else (l ++ ["install-banner--visible"])%list) el
                  else el).
    exists (add (hide banner)).
    assert (Hhide : hide banner
                    = with_classList
                        (List.filter
                           (fun x => negb (String.eqb "install-banner--visible" x))) banner).
    { unfold hide. rewrite Nat.eqb_refl. reflexivity. }
    assert (Hadd : add (hide banner)
                   = with_classList
                       (fun l =>
                          if existsb (String.eqb "install-banner--visible") l
                          then l else (l ++ ["install-banner--visible"])%list)
                       (hide banner)).
    { unfold add. rewrite Hhide. cbn [ref with_classList]. rewrite Nat.eqb_refl.
      reflexivity. }
    split; [| split].
    + change (document
                (final (classList_add (ref banner) "install-banner--visible")
                   (without_task i hidden)))
        with (map add (map hide (document w))).
      apply in_map, in_map, Hin.
    + rewrite Hadd, Hhide. reflexivity.
    + rewrite Hadd, Hhide. unfold visible_banner.
      cbn [classList with_classList]. rewrite classList_add_present, andb_true_r.
      exact Hid.
  - change (tasks
              (final (classList_add (ref banner) "install-banner--visible")
                 (without_task i hidden)))
      with (take i (tasks w ++ [Timeout (RemoveBanner (ref banner)) 300])
            ++ drop (S i) (tasks w ++ [Timeout (RemoveBanner (ref banner)) 300]))%list.
    rewrite drop_app_le by exact Hindex.
    apply in_or_app. right. apply in_or_app. right. left. reflexivity.
Qed.

End Animation.

Lemma hideInstallBanner_keeps_animation (w : World) (banner : Element) :
  find (has_id "install-banner") (document w) = Some banner ->
  shows_again InstallPrompt.script w banner
  /\ shows_again InstallPromptLater.script w banner.
Proof.
  intros Hfound.
  destruct (hideInstallBanner_run w banner Hfound) as [Hfirst Hlater].
  split; apply shows_again_holds; assumption.
Qed.

(** X3: [hideInstallBanner] leaves the world as it is when there is no
    banner.  With (at most) one banner, right after the call the node is
    still in the document, no banner carries the visible class, and the
    removal is scheduled after 300 ms behind the callbacks already pending;
    when that removal runs next, no banner is left.  The callbacks already
    pending are not cancelled: when one that animates the banner in runs
    after the call, the banner carries its visible class again, its removal
    still to come.  In both revisions. *)
Theorem hideInstallBanner_schedules_removal (w : World) :
  at_most_one_banner w ->
  (find (has_id "install-banner") (document w) = None ->
   InstallPrompt.hideInstallBanner w = (Return tt, w)
   /\ InstallPromptLater.hideInstallBanner w = (Return tt, w))
  /\ (forall banner,
        find (has_id "install-banner") (document w) = Some banner ->
        (hides_then_removes InstallPrompt.script w banner
         /\ shows_again InstallPrompt.script w banner)
        /\ (hides_then_removes InstallPromptLater.script w banner
            /\ shows_again InstallPromptLater.script w banner)).
Proof.
  intros Hone. split; [apply hideInstallBanner_absent |].
  intros banner Hfound.
  destruct (hideInstallBanner_hides w banner Hone Hfound) as [Hfirst Hlater].
  destruct (hideInstallBanner_keeps_animation w banner Hfound) as [Hagain Hagain'].
  split; split; assumption.
Qed.

(** On the page of [handle_captured] the animation of the banner is the
    second pending callback: hidden before it runs, the banner is visible
    again once it has run. *)
Lemma hideInstallBanner_schedules_removal_witness :
  (hides_then_removes InstallPrompt.script handle_captured captured_banner
   /\ hides_then_removes InstallPromptLater.script handle_captured captured_banner)
  /\ exists el : Element,
       In el (document
                (run InstallPromptLater.script [Call_hideInstallBanner; Fire 1%nat]
                   handle_captured))
       /\ visible_banner el = true.
Proof.
  assert (Hone : at_most_one_banner handle_captured)
    by (unfold at_most_one_banner; vm_compute; lia).
  assert (Hfound : find (has_id "install-banner") (document handle_captured)
                   = Some captured_banner) by (vm_compute; reflexivity).
  destruct (hideInstallBanner_schedules_removal handle_captured Hone) as [_ Hbanner].
  destruct (Hbanner captured_banner Hfound) as [[Hfirst _] [Hlater Hagain]].
  split; [split; [exact Hfirst | exact Hlater] |].
  destruct (Hagain 1%nat (Timeout (AddVisibleClass 0%nat) 100))
    as [[el [Hin [_ Hvisible]]] _]; [vm_compute; reflexivity | reflexivity |].
  exists el. split; [exact Hin | exact Hvisible].
Defined.


Lemma find_banner_present (d : list Element) :
  (0 < length (List.filter (has_id "install-banner") d))%nat ->
  exists banner, find (has_id "install-banner") d = Some banner.
Proof.
  intros Hpresent. destruct (find (has_id "install-banner") d) eqn:Hfind; [eauto |].
  rewrite (find_none_no_banner _ _ Hfind) in Hpresent. simpl in Hpresent. lia.
Qed.

(** X4: a [showInstallBanner] called while the hide transition is pending
    is lost: it finds the banner still in the document and returns, and
    when the removal scheduled by [hideInstallBanner] runs no banner is
    left.  In both revisions. *)
Theorem show_while_hiding_is_lost (w : World) :
  banners w = 1%nat ->
  banners (run InstallPrompt.script
             [Call_hideInstallBanner; Call_showInstallBanner; Fire (length (tasks w))] w)
  = 0%nat
  /\ banners (run InstallPromptLater.script
                [Call_hideInstallBanner; Call_showInstallBanner; Fire (length (tasks w))] w)
     = 0%nat.
Proof.
  intros Hone.
  destruct (find_banner_present (document w)) as [banner Hfound];
    [unfold banners in Hone; lia |].
  destruct (hideInstallBanner_hides w banner) as [Hfirst Hlater];
    [unfold at_most_one_banner; lia | exact Hfound |].
  destruct (preserves_hideInstallBanner eq (@eq_refl nat) (@eq_trans nat))
    as [Hsteady Hsteady'].
  unfold run.
  cbn [fold_left perform script_showInstallBanner script_hideInstallBanner
       InstallPrompt.script InstallPromptLater.script].
  split.
  - destruct (showInstallBanner_present (final InstallPrompt.hideInstallBanner w))
      as [Hnoop _]; [rewrite <- (Hsteady w); lia |].
    unfold final at 1. rewrite Hnoop. apply Hfirst.
  - destruct (showInstallBanner_present (final InstallPromptLater.hideInstallBanner w))
      as [_ Hnoop]; [rewrite <- (Hsteady' w); lia |].
    unfold final at 1. rewrite Hnoop. apply Hlater.
Qed.

Lemma show_while_hiding_is_lost_witness :
  banners (run InstallPromptLater.script
             [Call_hideInstallBanner; Call_showInstallBanner;
              Fire (length (tasks handle_captured))] handle_captured)
  = 0%nat.
Proof.
  apply (show_while_hiding_is_lost handle_captured). reflexivity.
Defined.

(** ** Device detection *)

Lemma starts_with_upper (pattern s : string) :
  starts_with (fun c => c) pattern s = true -> starts_with upper pattern s = true.
Proof.
  revert s. induction pattern as [| p pattern IH]; intros s; [reflexivity |].
  destruct s as [| c s]; [discriminate |]. cbn [starts_with].
  destruct (Ascii.eqb p c) eqn:Hpc; [| discriminate].
  apply Ascii.eqb_eq in Hpc. subst c. rewrite Ascii.eqb_refl. apply IH.
Qed.

Lemma regex_any_upper (exact folded : list string) (s : string) :
  (forall p, In p exact -> In p folded) ->
  regex_any (fun c => c) exact s = true -> regex_any upper folded s = true.
Proof.
  intros Hsub. induction s as [| c s IH]; cbn [regex_any]; intros Hmatch;
    apply orb_true_iff in Hmatch; apply orb_true_iff;
    (destruct Hmatch as [Hhere | Hlater];
     [left; apply existsb_exists in Hhere; destruct Hhere as [p [Hin Hp]];
      apply existsb_exists; exists p; split; [apply Hsub, Hin | apply starts_with_upper, Hp]
     | try discriminate; right; apply IH, Hlater]).
Qed.

(** X5: every user agent that [isIOS] accepts is a mobile device for
    [isMobileDevice], in both revisions. *)
Theorem isIOS_isMobileDevice (w : World) :
  result InstallPrompt.isIOS w = Return true ->
  result InstallPrompt.isMobileDevice w = Return true
  /\ result InstallPromptLater.isMobileDevice w = Return true.
Proof.
  unfold result, InstallPrompt.isIOS, InstallPrompt.isMobileDevice,
    InstallPromptLater.isMobileDevice, gets. cbn [fst].
  intros [= Hios]. apply andb_true_iff in Hios. destruct Hios as [Hagent _].
  assert (Hmobile :
            regex_any upper
              ["Android"; "webOS"; "iPhone"; "iPad"; "iPod"; "BlackBerry"; "IEMobile";
               "Opera Mini"] (userAgent (platform w)) = true).
  { revert Hagent. apply regex_any_upper. cbn [In]. intuition. }
  rewrite Hmobile. split; reflexivity.
Qed.

Lemma isIOS_isMobileDevice_witness :
  result InstallPrompt.isMobileDevice iphone_page = Return true
  /\ result InstallPromptLater.isMobileDevice iphone_page = Return true.
Proof. apply (isIOS_isMobileDevice iphone_page). reflexivity. Defined.

(** ** Showing the banner *)

Section Keeps.

Context {X : Type}.
Variable observe : World -> X.

Lemma keeps_ret {A} (a : A) : keeps observe (ret a).
Proof. intros w. reflexivity. Qed.

Lemma keeps_gets {A} (f : World -> A) : keeps observe (gets f).
Proof. intros w. reflexivity. Qed.

Lemma keeps_bind {A B} (m : M World A) (k : A -> M World B) :
  keeps observe m -> (forall a, keeps observe (k a)) -> keeps observe (bind m k).
Proof.
  intros Hm Hk w. rewrite final_bind. specialize (Hm w). unfold final in Hm.
  destruct (m w) as [[a | e] w']; cbn [snd] in Hm; [rewrite Hk |]; exact Hm.
Qed.

End Keeps.

Lemma map_update {X} (proj : Element -> X) (r : nat) (f : Element -> Element)
    (d : list Element) :
  (forall el, proj (f el) = proj el) ->
  map proj (map (fun el => if Nat.eqb (ref el) r then f el else el) d) = map proj d.
Proof.
  intros Hproj. rewrite map_map. apply map_ext. intros el.
  destruct (Nat.eqb (ref el) r); [apply Hproj | reflexivity].
Qed.

Lemma keeps_addClickListener (r : nat) (button : string) (h : Handler) :
  keeps page_content (addClickListener r button h).
Proof.
  intros w. unfold page_content, addClickListener, update_element, final, modify.
  cbn [snd document set_document deferredPrompt effects localStorage listeners next_ref].
  rewrite !map_update by reflexivity. reflexivity.
Qed.

Lemma keeps_schedule (t : Task) :
  keeps page_content (modify (fun w => set_tasks (tasks w ++ [t]) w)).
Proof. intros w. reflexivity. Qed.

(** The steps of [showInstallBanner] after [appendChild], in either
    revision, with the way the animation is scheduled left open. *)
Lemma keeps_wiring (animate : M World unit) :
  keeps page_content animate ->
  keeps page_content
    (closeBtn <- getButtonById "install-banner-close" ;;
     match closeBtn with
     | Some owner =>
         addClickListener (ref owner) "install-banner-close" dismissInstallPrompt_handler
     | None => ret tt
     end ;;
     installBtn <- getButtonById "install-banner-install" ;;
     match installBtn with
     | Some owner =>
         addClickListener (ref owner) "install-banner-install" triggerInstall_handler
     | None => ret tt
     end ;;
     animate).
Proof.
  intros Hanimate.
  apply keeps_bind; [apply keeps_gets | intros closeBtn].
  apply keeps_bind; [destruct closeBtn; [apply keeps_addClickListener | apply keeps_ret] |
                     intros _].
  apply keeps_bind; [apply keeps_gets | intros installBtn].
  apply keeps_bind; [destruct installBtn; [apply keeps_addClickListener | apply keeps_ret] |
                     intros _].
  exact Hanimate.
Qed.

Lemma showInstallBanner_result (w : World) :
  result InstallPrompt.showInstallBanner w = Return tt
  /\ result InstallPromptLater.showInstallBanner w = Return tt.
Proof.
  unfold result, InstallPrompt.showInstallBanner, InstallPromptLater.showInstallBanner,
    getElementById, getButtonById, createElement, body_appendChild, addClickListener,
    update_element, requestAnimationFrame, setTimeout, console_log, emit,
    InstallPrompt.isIOS, InstallPromptLater.isIOS, InstallPromptLater.isSafari,
    bind, gets, modify, ret.
  cbn [fst snd]. destruct (find (has_id "install-banner") (document w)); cbn [non_null fst].
  - split; reflexivity.
  - split;
      repeat match goal with
             | |- context [match ?o with Some _ => _ | None => _ end] => destruct o
             end; reflexivity.
Qed.

(** What [showInstallBanner] leaves when there was no banner. *)
Lemma showInstallBanner_fresh (w : World) :
  find (has_id "install-banner") (document w) = None ->
  let ios := regex_any (fun c => c) ["iPad"; "iPhone"; "iPod"] (userAgent (platform w))
             && negb (MSStream (platform w)) in
  let safari := regex_safari (userAgent (platform w)) in
  let banner markup :=
    {| ref := next_ref w; id := "install-banner"; classList := ["install-banner"];
       innerHTML := markup; click_listeners := [] |} in
  page_content (final InstallPrompt.showInstallBanner w)
  = page_content
      (set_document
         (document w ++ [banner (if ios then ManualInstructions else InstallAction)])
         (set_next_ref (S (next_ref w)) w))
  /\ page_content (final InstallPromptLater.showInstallBanner w)
     = page_content
         (set_document
            (document w
             ++ [banner (if ios || (safari && negb (non_null (deferredPrompt w)))
                         then ManualInstructions else InstallAction)])
            (set_next_ref (S (next_ref w))
               (set_effects
                  (effects w ++ [ConsoleLog "[InstallPrompt] Showing install banner"]) w))).
Proof.
  intros Hnone ios safari banner. split.
  - unfold InstallPrompt.showInstallBanner.
    rewrite final_bind. cbn [getElementById gets]. rewrite Hnone. cbn [non_null].
    rewrite final_bind. cbn [createElement bind gets modify ret].
    rewrite final_bind. cbn [InstallPrompt.isIOS gets].
    rewrite final_bind. cbn [body_appendChild modify].
    rewrite keeps_wiring by (intros w'; reflexivity). reflexivity.
  - unfold InstallPromptLater.showInstallBanner.
    rewrite final_bind. cbn [getElementById gets]. rewrite Hnone. cbn [non_null].
    rewrite final_bind. cbn [console_log emit modify].
    rewrite final_bind. cbn [createElement bind gets modify ret].
    rewrite final_bind. cbn [InstallPromptLater.isIOS gets].
    rewrite final_bind. cbn [InstallPromptLater.isSafari gets].
    rewrite final_bind. cbn [gets].
    rewrite final_bind. cbn [body_appendChild modify].
    rewrite keeps_wiring by (intros w'; reflexivity). reflexivity.
Qed.

Lemma banners_from_ids (w w' : World) :
  map id (document w') = map id (document w) -> banners w' = banners w.
Proof.
  unfold banners. generalize (document w) as d. generalize (document w') as d'.
  induction d' as [| el' d' IH]; intros [| el d] Hids; try discriminate; [reflexivity |].
  injection Hids as Hid Hrest. simpl.
  replace (has_id "install-banner" el') with (has_id "install-banner" el)
    by (unfold has_id; rewrite Hid; reflexivity).
  destruct (has_id "install-banner" el); simpl; rewrite (IH d Hrest); reflexivity.
Qed.

Lemma banners_append_banner (d : list Element) (el : Element) :
  id el = "install-banner" ->
  length (List.filter (has_id "install-banner") (d ++ [el]))
  = S (length (List.filter (has_id "install-banner") d)).
Proof.
  intros Hid. rewrite List.filter_app, length_app. simpl. unfold has_id at 2.
  rewrite Hid. simpl. lia.
Qed.

Section BannerShown.

Variable script : Script.
Variable w : World.
Variable e : InstallEvent.
Variable markup : Markup.
Variable announced : list Effect.

Let captured : World :=
  set_effects
    ((effects w ++ [PreventDefault e])
     ++ [ConsoleLog "[InstallPrompt] beforeinstallprompt event captured"])
    (set_deferredPrompt (Some e)
       (set_effects (effects w ++ [PreventDefault e]) w)).

Hypothesis no_banner : banners w = 0%nat.
Hypothesis listener_run :
  script_on_beforeinstallprompt script e w = script_showInstallBanner script captured.
Hypothesis show_result : result (script_showInstallBanner script) captured = Return tt.
Hypothesis show_fresh :
  page_content (final (script_showInstallBanner script) captured)
  = page_content
      (set_document
         (document captured
          ++ [{| ref := next_ref captured; id := "install-banner";
                 classList := ["install-banner"]; innerHTML := markup;
                 click_listeners := [] |}])
         (set_next_ref (S (next_ref captured))
            (set_effects (effects captured ++ announced) captured))).

Lemma banner_shown_holds : banner_shown script w e markup.
Proof.
  unfold banner_shown, result, final. rewrite listener_run.
  fold (result (script_showInstallBanner script) captured).
  fold (final (script_showInstallBanner script) captured).
  unfold page_content in show_fresh.
  cbn [document set_document deferredPrompt effects localStorage listeners next_ref
       set_next_ref set_effects] in show_fresh.
  injection show_fresh as Hmarkup Hids _ Hheld Heffects _ _ _.
  split; [exact show_result |]. split; [exact Hheld |].
  rewrite map_app in Hmarkup, Hids. split; [exact Hmarkup |]. split; [exact Hids |].
  split.
  - rewrite (banners_from_ids
               (set_document
                  (document w
                   ++ [{| ref := 0; id := "install-banner"; classList := [];
                          innerHTML := markup; click_listeners := [] |}]) w)).
    + unfold banners. cbn [document set_document].
      rewrite banners_append_banner by reflexivity.
      unfold banners in no_banner. rewrite no_banner. reflexivity.
    + cbn [document set_document]. rewrite map_app. exact Hids.
  - rewrite Heffects. subst captured. cbn [effects set_effects set_deferredPrompt].
    apply in_or_app. left. apply in_or_app. left. apply in_or_app. right.
    left. reflexivity.
Qed.

End BannerShown.

(** X6: when the platform fires [beforeinstallprompt] with the handle [e]
    on a page without banner, the listener keeps [e], prevents the default
    and shows the banner: the manual instructions on iOS, the install action
    everywhere else.  In the later revision too, where Safari gets the manual
    instructions only while no handle is held. *)
Theorem beforeinstallprompt_shows_banner (w : World) (e : InstallEvent) (ios : bool) :
  banners w = 0%nat ->
  result InstallPrompt.isIOS w = Return ios ->
  let markup := if ios then ManualInstructions else InstallAction in
  banner_shown InstallPrompt.script w e markup
  /\ banner_shown InstallPromptLater.script w e markup.
Proof.
  intros Hnone Hios markup.
  assert (Hfind : find (has_id "install-banner") (document w) = None).
  { destruct (find (has_id "install-banner") (document w)) eqn:Hfind; [| reflexivity].
    pose proof (find_some_banner _ _ _ Hfind) as Hpresent.
    unfold banners in Hnone. lia. }
  unfold result, InstallPrompt.isIOS, gets in Hios. cbn [fst] in Hios.
  injection Hios as Hios.
  set (captured :=
         set_effects
           ((effects w ++ [PreventDefault e])
            ++ [ConsoleLog "[InstallPrompt] beforeinstallprompt event captured"])
           (set_deferredPrompt (Some e)
              (set_effects (effects w ++ [PreventDefault e]) w))).
  split.
  - apply (banner_shown_holds InstallPrompt.script w e markup []); try assumption.
    + reflexivity.
    + apply showInstallBanner_result.
    + etransitivity; [exact (proj1 (showInstallBanner_fresh captured Hfind)) |].
      subst captured. cbn [platform set_effects set_deferredPrompt]. rewrite Hios.
      unfold page_content.
      cbn [document set_document deferredPrompt effects localStorage listeners next_ref
           set_next_ref set_effects set_deferredPrompt].
      rewrite app_nil_r. reflexivity.
  - apply (banner_shown_holds InstallPromptLater.script w e markup
             [ConsoleLog "[InstallPrompt] Showing install banner"]); try assumption.
    + reflexivity.
    + apply showInstallBanner_result.
    + etransitivity; [exact (proj2 (showInstallBanner_fresh captured Hfind)) |].
      subst captured.
      cbn [platform set_effects set_deferredPrompt deferredPrompt non_null negb].
      rewrite andb_false_r, orb_false_r, Hios. reflexivity.
Qed.

Lemma beforeinstallprompt_shows_banner_witness :
  banner_shown InstallPrompt.script fresh_page 7%nat InstallAction
  /\ banner_shown InstallPromptLater.script fresh_page 7%nat InstallAction.
Proof.
  apply (beforeinstallprompt_shows_banner fresh_page 7%nat false); reflexivity.
Defined.

Lemma find_last {A} (f : A -> bool) (l : list A) (x : A) :
  Forall (fun y => f y = false) l ->
  find f (l ++ [x]) = if f x then Some x else None.
Proof.
  induction 1 as [| y l Hy _ IH]; simpl; [reflexivity |].
  rewrite Hy. exact IH.
Qed.

Lemma no_buttons_find (button : string) (d : list Element) :
  no_buttons d -> Forall (fun el => has_button button el = false) d.
Proof.
  unfold no_buttons. apply List.Forall_impl. intros el Hnone. unfold has_button.
  rewrite Hnone. reflexivity.
Qed.

Lemma no_buttons_update (r : nat) (f : Element -> Element) (d : list Element) :
  (forall el, innerHTML (f el) = innerHTML el) ->
  no_buttons d ->
  no_buttons (map (fun el => if Nat.eqb (ref el) r then f el else el) d).
Proof.
  intros Hf Hd. unfold no_buttons in *. apply List.Forall_map. revert Hd.
  apply List.Forall_impl.
  intros el Hel. destruct (Nat.eqb (ref el) r); [rewrite Hf |]; exact Hel.
Qed.

Lemma wired_manual (banner : Element) :
  innerHTML banner = ManualInstructions ->
  with_listener "install-banner-close" dismissInstallPrompt_handler banner = wired banner.
Proof. destruct banner. simpl. intros ->. reflexivity. Qed.

Lemma wired_install (banner : Element) :
  innerHTML banner = InstallAction ->
  with_listener "install-banner-install" triggerInstall_handler
    (with_listener "install-banner-close" dismissInstallPrompt_handler banner)
  = wired banner.
Proof.
  destruct banner. unfold wired, with_listener. simpl. intros ->.
  rewrite <- app_assoc. reflexivity.
Qed.

(** The steps of [showInstallBanner] after [appendChild] attach the
    listeners to the banner just appended. *)
Lemma wiring_run (animate : M World unit) (w : World) (d : list Element) (banner : Element) :
  (forall w', document (final animate w') = document w') ->
  document w = (d ++ [banner])%list ->
  no_buttons d ->
  innerHTML banner <> NoMarkup ->
  exists d',
    no_buttons d'
    /\ document
         (final
            (closeBtn <- getButtonById "install-banner-close" ;;
             match closeBtn with
             | Some owner =>
                 addClickListener (ref owner) "install-banner-close"
                   dismissInstallPrompt_handler
             | None => ret tt
             end ;;
             installBtn <- getButtonById "install-banner-install" ;;
             match installBtn with
             | Some owner =>
                 addClickListener (ref owner) "install-banner-install"
                   triggerInstall_handler
             | None => ret tt
             end ;;
             animate) w)
       = (d' ++ [wired banner])%list.
Proof.
  intros Hanimate Hdoc Hd Hmarkup.
  rewrite final_bind. cbn [getButtonById gets]. rewrite Hdoc.
  rewrite (find_last _ _ _ (no_buttons_find "install-banner-close" d Hd)).
  assert (Hclose : has_button "install-banner-close" banner = true).
  { unfold has_button. destruct (innerHTML banner); [congruence | reflexivity | reflexivity]. }
  rewrite Hclose. rewrite final_bind.
  unfold addClickListener at 1, update_element at 1. cbn [modify].
  rewrite final_bind. cbn [getButtonById gets document set_document].
  rewrite Hdoc, map_app. cbn [map]. rewrite Nat.eqb_refl.
  set (d1 := map (fun el => if Nat.eqb (ref el) (ref banner)
                            then with_listener "install-banner-close"
                                   dismissInstallPrompt_handler el
                            else el) d).
  assert (Hd1 : no_buttons d1) by (apply no_buttons_update; [reflexivity | exact Hd]).
  rewrite (find_last _ _ _ (no_buttons_find "install-banner-install" d1 Hd1)).
  assert (Hinstall :
            has_button "install-banner-install"
              (with_listener "install-banner-close" dismissInstallPrompt_handler banner)
            = match innerHTML banner with InstallAction => true | _ => false end).
  { unfold has_button. cbn [innerHTML with_listener].
    destruct (innerHTML banner); reflexivity. }
  rewrite Hinstall.
  destruct (innerHTML banner) eqn:Hinner; [congruence | |].
  - rewrite final_bind. cbn [ret]. rewrite Hanimate. cbn [document set_document].
    exists d1. split; [exact Hd1 |]. f_equal. f_equal. apply wired_manual, Hinner.
  - rewrite final_bind. unfold addClickListener, update_element. cbn [modify].
    rewrite Hanimate. cbn [document set_document ref with_listener].
    rewrite map_app. cbn [map ref with_listener]. rewrite Nat.eqb_refl.
    exists (map (fun el => if Nat.eqb (ref el) (ref banner)
                           then with_listener "install-banner-install"
                                  triggerInstall_handler el
                           else el) d1).
    split; [apply no_buttons_update; [reflexivity | exact Hd1] |].
    f_equal. f_equal. apply wired_install, Hinner.
Qed.

Section ButtonsWired.

Variable script : Script.
Variable shown : World.
Variable d : list Element.
Variable banner : Element.
Variable ios : bool.

Hypothesis shown_document : document shown = (d ++ [wired banner])%list.
Hypothesis others : no_buttons d.
Hypothesis fresh : click_listeners banner = [].
Hypothesis markup : innerHTML banner = if ios then ManualInstructions else InstallAction.

Lemma click_close :
  click script "install-banner-close" shown
  = final (script_dismissInstallPrompt script) shown.
Proof.
  unfold click. rewrite shown_document.
  rewrite (find_last _ _ _ (no_buttons_find "install-banner-close" d others)).
  unfold has_button, wired. cbn [innerHTML click_listeners]. rewrite markup, fresh.
  destruct ios; reflexivity.
Qed.

Lemma click_install :
  click script "install-banner-install" shown
  = if ios then shown else final (script_triggerInstall script) shown.
Proof.
  unfold click. rewrite shown_document.
  rewrite (find_last _ _ _ (no_buttons_find "install-banner-install" d others)).
  unfold has_button, wired. cbn [innerHTML click_listeners]. rewrite markup, fresh.
  destruct ios; reflexivity.
Qed.

End ButtonsWired.

(** The document after [showInstallBanner] on a page without banner and
    without buttons. *)
Lemma showInstallBanner_wired (w : World) :
  find (has_id "install-banner") (document w) = None ->
  no_buttons (document w) ->
  let ios := regex_any (fun c => c) ["iPad"; "iPhone"; "iPod"] (userAgent (platform w))
             && negb (MSStream (platform w)) in
  let safari := regex_safari (userAgent (platform w)) in
  let banner markup :=
    {| ref := next_ref w; id := "install-banner"; classList := ["install-banner"];
       innerHTML := markup; click_listeners := [] |} in
  (exists d',
     no_buttons d'
     /\ document (final InstallPrompt.showInstallBanner w)
        = (d' ++ [wired (banner (if ios then ManualInstructions else InstallAction))])%list)
  /\ (exists d',
        no_buttons d'
        /\ document (final InstallPromptLater.showInstallBanner w)
           = (d' ++ [wired (banner (if ios || (safari && negb (non_null (deferredPrompt w)))
                                    then ManualInstructions else InstallAction))])%list).
Proof.
  intros Hnone Hothers ios safari banner. split.
  - unfold InstallPrompt.showInstallBanner.
    rewrite final_bind. cbn [getElementById gets]. rewrite Hnone. cbn [non_null].
    rewrite final_bind. cbn [createElement bind gets modify ret].
    rewrite final_bind. cbn [InstallPrompt.isIOS gets].
    rewrite final_bind. cbn [body_appendChild modify].
    apply (wiring_run _ _ (document w)); try assumption; try reflexivity.
    cbn [innerHTML]. fold ios. destruct ios; discriminate.
  - unfold InstallPromptLater.showInstallBanner.
    rewrite final_bind. cbn [getElementById gets]. rewrite Hnone. cbn [non_null].
    rewrite final_bind. cbn [console_log emit modify].
    rewrite final_bind. cbn [createElement bind gets modify ret].
    rewrite final_bind. cbn [InstallPromptLater.isIOS gets].
    rewrite final_bind. cbn [InstallPromptLater.isSafari gets].
    rewrite final_bind. cbn [gets].
    rewrite final_bind. cbn [body_appendChild modify].
    apply (wiring_run _ _ (document w)); try assumption; try reflexivity.
    cbn [innerHTML]. destruct (_ || _); discriminate.
Qed.



(** ** Initialisation and its timers *)

Lemma set_localStorage_same (u : World) : set_localStorage (localStorage u) u = u.
Proof. destruct u; reflexivity. Qed.

(** [isInstallDismissed] reads the record and the clock and writes the
    record only. *)
Lemma isInstallDismissed_depends (w : World) :
  (exists b m,
     forall u, localStorage u = localStorage w -> platform u = platform w ->
               InstallPrompt.isInstallDismissed u = (Return b, set_localStorage m u))
  /\ (exists b m,
        forall u, localStorage u = localStorage w -> platform u = platform w ->
                  InstallPromptLater.isInstallDismissed u = (Return b, set_localStorage m u)).
Proof.
  assert (Hbody : forall D,
            exists b m,
              forall u, localStorage u = localStorage w -> platform u = platform w ->
                (if negb (truthy (localStorage u !! "installPromptDismissed"))
                 then (Return false, u)
                 else if num_gt
                           (num_sub (Num (now (platform u)))
                              (parseInt (ToString (localStorage u !! "installPromptDismissed"))))
                           (Num D)
                      then (Return false,
                            set_localStorage
                              (delete "installPromptDismissed" (localStorage u)) u)
                      else (Return true, u))
                = (Return b, set_localStorage m u)).
  { intros D.
    destruct (truthy (localStorage w !! "installPromptDismissed")) eqn:Htruthy.
    - destruct (num_gt
                  (num_sub (Num (now (platform w)))
                     (parseInt (ToString (localStorage w !! "installPromptDismissed"))))
                  (Num D)) eqn:Hold.
      + exists false, (delete "installPromptDismissed" (localStorage w)).
        intros u Hstorage Hplatform. rewrite Hstorage, Hplatform, Htruthy, Hold.
        reflexivity.
      + exists true, (localStorage w).
        intros u Hstorage Hplatform. rewrite Hstorage, Hplatform, Htruthy, Hold.
        rewrite <- Hstorage, set_localStorage_same. reflexivity.
    - exists false, (localStorage w).
      intros u Hstorage Hplatform. rewrite Hstorage, Htruthy.
      rewrite <- Hstorage, set_localStorage_same. reflexivity. }
  split.
  - destruct (Hbody InstallPrompt.INSTALL_DISMISSED_DURATION) as [b [m Hrun]].
    exists b, m. intros u Hstorage Hplatform. rewrite <- (Hrun u Hstorage Hplatform).
    unfold InstallPrompt.isInstallDismissed, InstallPrompt.INSTALL_DISMISSED_KEY,
      localStorage_getItem, localStorage_removeItem, Date_now, bind, gets, modify, ret.
    destruct (negb (truthy (localStorage u !! "installPromptDismissed"))); [reflexivity |].
    destruct (num_gt _ _); reflexivity.
  - destruct (Hbody InstallPromptLater.INSTALL_DISMISSED_DURATION) as [b [m Hrun]].
    exists b, m. intros u Hstorage Hplatform. rewrite <- (Hrun u Hstorage Hplatform).
    unfold InstallPromptLater.isInstallDismissed, InstallPromptLater.INSTALL_DISMISSED_KEY,
      localStorage_getItem, localStorage_removeItem, Date_now, bind, gets, modify, ret.
    destruct (negb (truthy (localStorage u !! "installPromptDismissed"))); [reflexivity |].
    destruct (num_gt _ _); reflexivity.
Qed.

Lemma answer_run (w : World) (query : M World bool) (b : bool) (w' : World) :
  query w = (Return b, w') -> answer query w = b.
Proof. intros Hrun. unfold answer, result. rewrite Hrun. reflexivity. Qed.

Lemma initInstallPrompt_arms (w : World) :
  (let eligible :=
     negb (answer InstallPrompt.isAppInstalled w)
     && answer InstallPrompt.isMobileDevice w
     && negb (answer InstallPrompt.isInstallDismissed w) in
   armed_with w (final InstallPrompt.initInstallPrompt w)
     (if eligible then [OnBeforeInstallPrompt; OnAppInstalled] else [])
     (if eligible && answer InstallPrompt.isIOS w
      then [Timeout FallbackBanner 3000] else []))
  /\ (let eligible :=
        negb (answer InstallPromptLater.isAppInstalled w)
        && negb (answer InstallPromptLater.isInstallDismissed w) in
      armed_with w (final InstallPromptLater.initInstallPrompt w)
        (if eligible then [OnBeforeInstallPrompt; OnAppInstalled] else [])
        (if eligible && answer InstallPromptLater.isMobileDevice w
         then [Timeout FallbackBanner 2000] else [])).
Proof.
  destruct (isInstallDismissed_depends w) as [[b [m Hfirst]] [b' [m' Hlater]]].
  split; cbn zeta.
  - rewrite (answer_run w _ _ _ (Hfirst w eq_refl eq_refl)).
    unfold armed_with, InstallPrompt.initInstallPrompt, answer, result, final,
      InstallPrompt.isAppInstalled, InstallPrompt.isMobileDevice, InstallPrompt.isIOS,
      bind, gets.
    cbn [fst snd].
    destruct (display_standalone (platform w) || navigator_standalone (platform w));
      cbn [negb andb]; [rewrite !app_nil_r; repeat split |].
    destruct (regex_any upper _ (userAgent (platform w)));
      cbn [negb andb]; [| rewrite !app_nil_r; repeat split].
    rewrite (Hfirst w eq_refl eq_refl).
    destruct b; cbn [negb andb]; [rewrite !app_nil_r; repeat split |].
    unfold window_addEventListener, setTimeout, modify, ret.
    cbn [fst snd platform set_localStorage set_listeners].
    destruct (regex_any (fun c => c) _ (userAgent (platform w)) && negb (MSStream (platform w)));
      cbn; rewrite ?app_nil_r, <- ?app_assoc; repeat split.
  - set (started := set_effects (effects w ++ [ConsoleLog "[InstallPrompt] Initializing..."]) w).
    rewrite (answer_run w _ _ _ (Hlater w eq_refl eq_refl)).
    unfold armed_with, InstallPromptLater.initInstallPrompt, answer, result, final,
      InstallPromptLater.isAppInstalled, InstallPromptLater.isMobileDevice,
      bind, gets, console_log, emit, modify.
    cbn [fst snd platform set_effects]. fold started.
    destruct (display_standalone (platform w) || navigator_standalone (platform w));
      cbn [negb andb]; [rewrite !app_nil_r; repeat split |].
    rewrite (Hlater started eq_refl eq_refl).
    destruct b'; cbn [negb andb]; [rewrite !app_nil_r; repeat split |].
    unfold window_addEventListener, setTimeout, modify, ret.
    cbn [fst snd platform set_localStorage set_listeners set_effects started].
    destruct (regex_any upper _ (userAgent (platform w)) || (innerWidth (platform w) <=? 768));
      cbn; rewrite ?app_nil_r, <- ?app_assoc; repeat split.
Qed.

(** X8: [initInstallPrompt] never shows a banner itself and never touches
    the handle.  It registers its two listeners exactly when the app is not
    installed and the prompt was not recently dismissed (and, in the first
    revision, the device is mobile); the fallback timer is added only then,
    for iOS after 3 s in the first revision and for mobile devices after 2 s
    in the later one. *)
Theorem initInstallPrompt_gate (w : World) :
  (let eligible :=
     negb (answer InstallPrompt.isAppInstalled w)
     && answer InstallPrompt.isMobileDevice w
     && negb (answer InstallPrompt.isInstallDismissed w) in
   armed_with w (final InstallPrompt.initInstallPrompt w)
     (if eligible then [OnBeforeInstallPrompt; OnAppInstalled] else [])
     (if eligible && answer InstallPrompt.isIOS w
      then [Timeout FallbackBanner 3000] else []))
  /\ (let eligible :=
        negb (answer InstallPromptLater.isAppInstalled w)
        && negb (answer InstallPromptLater.isInstallDismissed w) in
      armed_with w (final InstallPromptLater.initInstallPrompt w)
        (if eligible then [OnBeforeInstallPrompt; OnAppInstalled] else [])
        (if eligible && answer InstallPromptLater.isMobileDevice w
         then [Timeout FallbackBanner 2000] else [])).
Proof. exact (initInstallPrompt_arms w). Qed.

Lemma showInstallBanner_count (u : World) :
  banners (final InstallPrompt.showInstallBanner u) = Nat.max 1 (banners u)
  /\ banners (final InstallPromptLater.showInstallBanner u) = Nat.max 1 (banners u).
Proof.
  destruct (find (has_id "install-banner") (document u)) eqn:Hfind.
  - pose proof (find_some_banner _ _ _ Hfind) as Hpresent.
    destruct (showInstallBanner_present u Hpresent) as [Hfirst Hlater].
    unfold final. rewrite Hfirst, Hlater. cbn [snd]. unfold banners.
    split; symmetry; apply Nat.max_r; exact Hpresent.
  - destruct (showInstallBanner_adds eq (@eq_refl nat) (@eq_trans nat) u Hfind)
      as [Hfirst Hlater].
    rewrite <- Hfirst, <- Hlater. unfold banners.
    rewrite (find_none_no_banner _ _ Hfind). split; reflexivity.
Qed.

(** X9: when its timer fires, the fallback callback checks again: with the
    app installed or the prompt recently dismissed it leaves the document as
    it is; otherwise it makes sure there is a banner, adding one only when
    there is none.  In both revisions. *)
Theorem fallback_checks_again (w : World) :
  (if answer InstallPrompt.isAppInstalled w || answer InstallPrompt.isInstallDismissed w
   then document (final InstallPrompt.fallback w) = document w
   else banners (final InstallPrompt.fallback w) = Nat.max 1 (banners w))
  /\ (if answer InstallPromptLater.isAppInstalled w
         || answer InstallPromptLater.isInstallDismissed w
      then document (final InstallPromptLater.fallback w) = document w
      else banners (final InstallPromptLater.fallback w) = Nat.max 1 (banners w)).
Proof.
  destruct (isInstallDismissed_depends w) as [[b [m Hfirst]] [b' [m' Hlater]]].
  split.
  - rewrite (answer_run w _ _ _ (Hfirst w eq_refl eq_refl)).
    unfold InstallPrompt.fallback, answer, result, final,
      InstallPrompt.isAppInstalled, bind, gets.
    cbn [fst snd].
    destruct (display_standalone (platform w) || navigator_standalone (platform w));
      cbn [orb]; [reflexivity |].
    rewrite (Hfirst w eq_refl eq_refl). destruct b; [reflexivity |].
    apply (showInstallBanner_count (set_localStorage m w)).
  - rewrite (answer_run w _ _ _ (Hlater w eq_refl eq_refl)).
    unfold InstallPromptLater.fallback, answer, result, final,
      InstallPromptLater.isAppInstalled, bind, gets.
    cbn [fst snd].
    destruct (display_standalone (platform w) || navigator_standalone (platform w));
      cbn [orb]; [reflexivity |].
    rewrite (Hlater w eq_refl eq_refl). destruct b'; [reflexivity |].
    unfold getElementById, gets. cbn [document set_localStorage].
    destruct (find (has_id "install-banner") (document w)) eqn:Hfind; cbn [non_null].
    + pose proof (find_some_banner _ _ _ Hfind) as Hpresent. cbn [snd].
      unfold banners. cbn [document set_localStorage].
      symmetry. apply Nat.max_r. exact Hpresent.
    + unfold console_log, emit, modify. cbn [snd].
      etransitivity;
        [apply (showInstallBanner_count
                  (set_effects
                     (effects (set_localStorage m' w)
                      ++ [ConsoleLog "[InstallPrompt] Showing fallback banner for mobile"])
                     (set_localStorage m' w))) |].
      reflexivity.
Qed.

(** ** The installed event and the prompt *)

Lemma on_appinstalled_clears (u : World) :
  deferredPrompt (final InstallPrompt.on_appinstalled u) = None
  /\ deferredPrompt (final InstallPromptLater.on_appinstalled u) = None.
Proof.
  unfold InstallPrompt.on_appinstalled, InstallPromptLater.on_appinstalled,
    InstallPrompt.hideInstallBanner, InstallPromptLater.hideInstallBanner,
    final, bind, getElementById, gets, console_log, emit, modify.
  cbn [fst snd document set_effects].
  destruct (find (has_id "install-banner") (document u)); split; reflexivity.
Qed.

Section AppInstalled.

Variable script : Script.
Hypothesis clears : forall u, deferredPrompt (final (script_on_appinstalled script) u) = None.

Lemma dispatch_appinstalled (ls : list Listener) (w : World) :
  deferredPrompt w = None \/ In OnAppInstalled ls ->
  deferredPrompt (run_all (map (run_listener script OnAppInstalled 0%nat) ls) w) = None.
Proof.
  revert w. induction ls as [| l ls IH]; intros w [Hnone | Hin]; cbn [map run_all fold_left].
  - exact Hnone.
  - contradiction.
  - apply IH. left. destruct l; cbn [run_listener]; [exact Hnone | apply clears].
  - apply IH. destruct l; cbn [run_listener].
    + right. destruct Hin as [Habsurd | Hin]; [discriminate | exact Hin].
    + left. apply clears.
Qed.

End AppInstalled.

(** X10: once [initInstallPrompt] has registered its listener, the
    platform's [appinstalled] event leaves no handle held, in both
    revisions: a later [triggerInstall] cannot prompt. *)
Theorem appinstalled_clears_handle (w : World) :
  In OnAppInstalled (listeners w) ->
  deferredPrompt (perform InstallPrompt.script AppInstalled w) = None
  /\ deferredPrompt (perform InstallPromptLater.script AppInstalled w) = None.
Proof.
  intros Hregistered. cbn [perform]. unfold dispatch.
  split; apply dispatch_appinstalled; auto; intros u; apply on_appinstalled_clears.
Qed.

Lemma appinstalled_clears_handle_witness :
  deferredPrompt handle_captured = Some 7%nat
  /\ deferredPrompt (perform InstallPrompt.script AppInstalled handle_captured) = None
  /\ deferredPrompt (perform InstallPromptLater.script AppInstalled handle_captured) = None.
Proof.
  split; [reflexivity |].
  apply (appinstalled_clears_handle handle_captured). vm_compute. right. left. reflexivity.
Defined.

(** X11: nothing catches a [prompt()] that throws: [triggerInstall] then
    ends with that exception right after the call, the handle stays held,
    nothing is scheduled and the banner is left as it is.  In both
    revisions. *)
Theorem triggerInstall_prompt_throws (w : World) (e : InstallEvent) (err : Error) :
  deferredPrompt w = Some e ->
  prompt_throws (platform w) (effects w) e = Some err ->
  InstallPrompt.triggerInstall w = (Throw err, set_effects (effects w ++ [Prompt e]) w)
  /\ InstallPromptLater.triggerInstall w
     = (Throw err, set_effects (effects w ++ [Prompt e]) w).
Proof.
  intros Hheld Hthrows.
  unfold InstallPrompt.triggerInstall, InstallPromptLater.triggerInstall, prompt,
    bind, gets, emit, modify, throw.
  rewrite Hheld, Hthrows. split; reflexivity.
Qed.

Lemma triggerInstall_prompt_throws_witness :
  deferredPrompt (final InstallPrompt.triggerInstall prompt_refused) = Some 7%nat
  /\ result InstallPromptLater.triggerInstall prompt_refused
     = Throw (TypeError "InvalidStateError").
Proof.
  destruct (triggerInstall_prompt_throws prompt_refused 7%nat (TypeError "InvalidStateError"))
    as [Hfirst Hlater]; [reflexivity | reflexivity |].
  unfold final, result. rewrite Hfirst, Hlater. split; reflexivity.
Defined.

(** ** Safari, and a dismissed page *)

Lemma starts_with_chrome_not_safari (s : string) :
  starts_with upper "chrome" s = true \/ starts_with upper "android" s = true ->
  starts_with upper "safari" s = false.
Proof.
  destruct s as [| c s]; [intros [H | H]; discriminate H |].
  cbn [starts_with].
  intros [H | H];
    match type of H with
    | (if Ascii.eqb ?x ?y then _ else _) = true =>
        destruct (Ascii.eqb x y) eqn:Hc; [| discriminate H];
        apply Ascii.eqb_eq in Hc; rewrite <- Hc; reflexivity
    end.
Qed.

Lemma regex_safari_blocked (pre rest : string) :
  starts_with upper "chrome" rest = true \/ starts_with upper "android" rest = true ->
  occurs_before "safari" (String.length pre) (pre ++ rest) = false ->
  regex_safari (pre ++ rest) = false.
Proof.
  intros Hblocked. induction pre as [| c pre IH].
  - intros _. change (regex_safari rest = false).
    destruct rest as [| c rest]; [destruct Hblocked as [H | H]; discriminate H |].
    cbn [regex_safari].
    rewrite (starts_with_chrome_not_safari _ Hblocked). cbn [orb].
    destruct Hblocked as [H | H]; rewrite H; cbn [negb andb];
      rewrite ?andb_false_r; reflexivity.
  - change (occurs_before "safari" (S (String.length pre)) (String c (pre ++ rest)) = false
            -> regex_safari (String c (pre ++ rest)) = false).
    cbn [occurs_before]. intros Hnone.
    apply orb_false_iff in Hnone. destruct Hnone as [Hhere Hlater].
    cbn [regex_safari]. rewrite Hhere, (IH Hlater). cbn [orb].
    apply andb_false_r.
Qed.

(** X19: a user agent that names Chrome or Android before its first
    "Safari" (in any case) is not Safari for [isSafari]. *)
Theorem isSafari_excludes_chrome_android (w : World) (pre rest : string) :
  userAgent (platform w) = pre ++ rest ->
  starts_with upper "chrome" rest = true \/ starts_with upper "android" rest = true ->
  occurs_before "safari" (String.length pre) (pre ++ rest) = false ->
  result InstallPromptLater.isSafari w = Return false.
Proof.
  intros Hagent Hblocked Hnone. unfold result, InstallPromptLater.isSafari, gets.
  cbn [fst]. rewrite Hagent, (regex_safari_blocked pre rest Hblocked Hnone). reflexivity.
Qed.

Lemma isSafari_excludes_chrome_android_witness :
  result InstallPromptLater.isSafari fresh_page = Return false.
Proof.
  apply (isSafari_excludes_chrome_android fresh_page
           "Mozilla/5.0 (Linux; " "Android 13) Chrome/120 Mobile Safari/537.36").
  - reflexivity.
  - right. reflexivity.
  - reflexivity.
Defined.

Lemma returns_answer (query : M World bool) (w : World) :
  returns query w true -> answer query w = true.
Proof. unfold returns, answer. intros ->. reflexivity. Qed.

(** X20: a page loaded after [dismissInstallPrompt] stays quiet while the
    dismissal lasts: within seven days (first revision) or three days (later
    revision) of the dismissal, [initInstallPrompt] registers no listener and
    schedules no timer. *)
Theorem dismissal_silences_init (w : World) (p : Platform) :
  (now p - now (platform w) <= 7 * day ->
   let loaded := elsewhere p (final InstallPrompt.dismissInstallPrompt w) in
   armed_with loaded (final InstallPrompt.initInstallPrompt loaded) [] [])
  /\ (now p - now (platform w) <= 3 * day ->
      let loaded := elsewhere p (final InstallPromptLater.dismissInstallPrompt w) in
      armed_with loaded (final InstallPromptLater.initInstallPrompt loaded) [] []).
Proof.
  destruct (dismissed_until w p) as [Hfirst Hlater].
  split; intros Hrecent loaded; subst loaded.
  - pose proof (proj1 (initInstallPrompt_arms
                         (elsewhere p (final InstallPrompt.dismissInstallPrompt w))))
      as Harms.
    cbn zeta in Harms.
    rewrite (returns_answer _ _ (proj2 Hfirst Hrecent)) in Harms.
    cbn [negb] in Harms. rewrite andb_false_r in Harms. exact Harms.
  - pose proof (proj2 (initInstallPrompt_arms
                         (elsewhere p (final InstallPromptLater.dismissInstallPrompt w))))
      as Harms.
    cbn zeta in Harms.
    rewrite (returns_answer _ _ (proj2 Hlater Hrecent)) in Harms.
    cbn [negb] in Harms. rewrite andb_false_r in Harms. exact Harms.
Qed.

Lemma dismissal_silences_init_witness :
  armed_with
    (elsewhere android_phone (final InstallPrompt.dismissInstallPrompt fresh_page))
    (final InstallPrompt.initInstallPrompt
       (elsewhere android_phone (final InstallPrompt.dismissInstallPrompt fresh_page)))
    [] [].
Proof.
  apply (dismissal_silences_init fresh_page android_phone). vm_compute. discriminate.
Defined.
